(** * Waveshare 2.13 inch (B) V4 e-paper driver: protocol model and proofs

    A shallow embedding of [epd_2in13_b.py].  The driver object, the three
    output lines, the busy input, the SPI bus lock and the framebuffers are
    one record; every method is a function in a small state-and-exception
    monad whose loops are bounded by a fuel argument.  Everything the driver
    does to the outside world is appended to an event log, from which the
    command/data view of the bus is decoded the way the controller sees it
    (a byte written with DC low is a command, with DC high a data byte). *)

From Stdlib Require Import String ZArith List Bool Lia Arith.
From Stdlib.Strings Require Import Byte.
Import ListNotations.
Local Open Scope Z_scope.

(** ** Pins, events, exceptions *)

Inductive Pin : Type := RST_PIN | DC_PIN | CS_PIN | BUSY_PIN.

Inductive event : Type :=
| EvPin (pin : Pin) (value : bool)            (* pin.value = value *)
| EvDelay (ms : Z)                            (* time.sleep(ms / 1000.0) *)
| EvLock                                      (* spi.try_lock() returned True *)
| EvConfigure (baudrate phase polarity : Z)   (* spi.configure(...) *)
| EvWrite (data : list Z)                     (* spi.write(bytearray(data)) *)
| EvUnlock                                    (* spi.unlock() *)
| EvBusy (level : bool)                       (* a read of busy.value *)
| EvPrint (msg : string).                     (* print(msg) *)

Inductive Exn : Type :=
| ValueError       (* bytearray() given an element outside range(0, 256) *)
| IndexError       (* bytearray index out of range *)
| OSError          (* the bus reports a failure *)
| RuntimeError     (* bus function used without holding the lock *)
| AttributeError.  (* value written to an input pin *)

(** What the bus does on its k-th locked transaction. *)
Inductive Fault : Type := NoFault | ConfigureFails | WriteFails.

(** ** The driver object together with its environment *)

Record EPD_2in13_B_V4 : Type := mkEPD {
  rst : bool;
  dc : bool;
  cs : bool;
  spi_locked : bool;
  width : Z;
  height : Z;
  framebuffer_black_array : list byte;
  framebuffer_red_array : list byte;
  rotation : Z;
  (* environment: the level the busy line shows at its i-th read, the number
     of reads made so far, the behaviour of the bus on its k-th transaction
     and the number of transactions finished so far *)
  busy_line : nat -> bool;
  busy_reads : nat;
  bus_fault : nat -> Fault;
  transfers : nat;
  log : list event
}.

Definition emit (e : event) (self : EPD_2in13_B_V4) : EPD_2in13_B_V4 :=
  mkEPD (rst self) (dc self) (cs self) (spi_locked self) (width self)
        (height self) (framebuffer_black_array self)
        (framebuffer_red_array self) (rotation self) (busy_line self)
        (busy_reads self) (bus_fault self) (transfers self)
        (log self ++ [e]).

Definition set_pin (pin : Pin) (v : bool) (self : EPD_2in13_B_V4)
  : EPD_2in13_B_V4 :=
  mkEPD (match pin with RST_PIN => v | _ => rst self end)
        (match pin with DC_PIN => v | _ => dc self end)
        (match pin with CS_PIN => v | _ => cs self end)
        (spi_locked self) (width self)
        (height self) (framebuffer_black_array self)
        (framebuffer_red_array self) (rotation self) (busy_line self)
        (busy_reads self) (bus_fault self) (transfers self) (log self).

Definition set_locked (v : bool) (self : EPD_2in13_B_V4) : EPD_2in13_B_V4 :=
  mkEPD (rst self) (dc self) (cs self) v (width self)
        (height self) (framebuffer_black_array self)
        (framebuffer_red_array self) (rotation self) (busy_line self)
        (busy_reads self) (bus_fault self) (transfers self) (log self).

Definition next_transfer (self : EPD_2in13_B_V4) : EPD_2in13_B_V4 :=
  mkEPD (rst self) (dc self) (cs self) (spi_locked self) (width self)
        (height self) (framebuffer_black_array self)
        (framebuffer_red_array self) (rotation self) (busy_line self)
        (busy_reads self) (bus_fault self) (S (transfers self)) (log self).

Definition next_read (self : EPD_2in13_B_V4) : EPD_2in13_B_V4 :=
  mkEPD (rst self) (dc self) (cs self) (spi_locked self) (width self)
        (height self) (framebuffer_black_array self)
        (framebuffer_red_array self) (rotation self) (busy_line self)
        (S (busy_reads self)) (bus_fault self) (transfers self) (log self).

(** The effect of one event on the object; every primitive below is one
    [apply_event] or leaves the object alone. *)
Definition apply_event (e : event) (self : EPD_2in13_B_V4) : EPD_2in13_B_V4 :=
  match e with
  | EvPin pin v => emit e (set_pin pin v self)
  | EvLock => emit e (set_locked true self)
  | EvUnlock => emit e (next_transfer (set_locked false self))
  | EvBusy _ => emit e (next_read self)
  | _ => emit e self
  end.

Definition replay (evs : list event) (self : EPD_2in13_B_V4)
  : EPD_2in13_B_V4 :=
  fold_left (fun s e => apply_event e s) evs self.

(** ** The monad: loop bound, state, exceptions *)

Inductive result (A : Type) : Type :=
| Ok (a : A) (self : EPD_2in13_B_V4)
| Raise (e : Exn) (self : EPD_2in13_B_V4)
| Diverge.   (* a loop used up the bound *)

Arguments Ok {A} a self.
Arguments Raise {A} e self.
Arguments Diverge {A}.

Definition M (A : Type) : Type := nat -> EPD_2in13_B_V4 -> result A.

Definition ret {A} (a : A) : M A := fun _ self => Ok a self.

Definition raise {A} (e : Exn) : M A := fun _ self => Raise e self.

Definition bind {A B} (m : M A) (f : A -> M B) : M B :=
  fun fuel self =>
    match m fuel self with
    | Ok a self' => f a fuel self'
    | Raise e self' => Raise e self'
    | Diverge => Diverge
    end.

Notation "x <- m ;; k" := (bind m (fun x => k))
  (at level 61, m at next level, right associativity).
Notation "m ;; k" := (bind m (fun _ => k))
  (at level 61, right associativity).

(** [try: body finally: handler]: the handler runs on both exits and the
    exception, if any, is re-raised after it. *)
Definition try_finally {A} (body : M A) (handler : M unit) : M A :=
  fun fuel self =>
    match body fuel self with
    | Ok a self' => (handler ;; ret a) fuel self'
    | Raise e self' => (handler ;; raise e) fuel self'
    | Diverge => Diverge
    end.

Fixpoint while_loop (k : nat) (cond : M bool) (body : M unit) : M unit :=
  fun fuel self =>
    match k with
    | O => Diverge
    | S k' =>
        match cond fuel self with
        | Ok true self1 =>
            match body fuel self1 with
            | Ok _ self2 => while_loop k' cond body fuel self2
            | Raise e self2 => Raise e self2
            | Diverge => Diverge
            end
        | Ok false self1 => Ok tt self1
        | Raise e self1 => Raise e self1
        | Diverge => Diverge
        end
    end.

(** [while cond: body]; each loop may test its condition at most [fuel]
    times. *)
Definition while (cond : M bool) (body : M unit) : M unit :=
  fun fuel self => while_loop fuel cond body fuel self.

Fixpoint for_each {A} (xs : list A) (body : A -> M unit) : M unit :=
  match xs with
  | [] => ret tt
  | x :: xs' => body x ;; for_each xs' body
  end.

(** [range(0, stop)] *)
Definition range (stop : Z) : list Z :=
  map Z.of_nat (seq 0 (Z.to_nat stop)).

(** ** Python built-ins the driver uses *)

Definition is_byte (z : Z) : bool := (0 <=? z) && (z <? 256).

(** [bytearray(data)] for a list of integers: an element outside
    [range(0, 256)] is a [ValueError].  The driver itself only ever passes
    masked values, literal bytes and elements of a bytearray. *)
Definition bytearray (data : list Z) : M (list Z) :=
  if forallb is_byte data then ret data else raise ValueError.

(** [bytearray(n)]: n zero bytes. *)
Definition bytearray_zeros (n : Z) : list byte :=
  repeat x00 (Z.to_nat n).

Definition byte_value (b : byte) : Z := Z.of_N (Byte.to_N b).

(** [buf[idx]] on a bytearray; a negative index counts from the end. *)
Definition getitem (buf : list byte) (idx : Z) : M Z :=
  let len := Z.of_nat (List.length buf) in
  let i := if idx <? 0 then idx + len else idx in
  if (0 <=? i) && (i <? len) then
    match nth_error buf (Z.to_nat i) with
    | Some b => ret (byte_value b)
    | None => raise IndexError
    end
  else raise IndexError.

Definition print (msg : string) : M unit :=
  fun _ self => Ok tt (apply_event (EvPrint msg) self).

(** ** busio.SPI *)

Definition spi_try_lock : M bool :=
  fun _ self =>
    if spi_locked self then Ok false self
    else Ok true (apply_event EvLock self).

Definition spi_configure (baudrate phase polarity : Z) : M unit :=
  fun _ self =>
    if negb (spi_locked self) then Raise RuntimeError self
    else match bus_fault self (transfers self) with
         | ConfigureFails => Raise OSError self
         | _ => Ok tt (apply_event (EvConfigure baudrate phase polarity) self)
         end.

Definition spi_write (data : list Z) : M unit :=
  fun _ self =>
    if negb (spi_locked self) then Raise RuntimeError self
    else match bus_fault self (transfers self) with
         | WriteFails => Raise OSError self
         | _ => Ok tt (apply_event (EvWrite data) self)
         end.

Definition spi_unlock : M unit :=
  fun _ self => Ok tt (apply_event EvUnlock self).

(** ** The driver *)

Definition EPD_WIDTH : Z := 122.
Definition EPD_HEIGHT : Z := 250.

Definition digital_write (pin : Pin) (value : bool) : M unit :=
  fun _ self =>
    match pin with
    | BUSY_PIN => Raise AttributeError self
    | _ => Ok tt (apply_event (EvPin pin value) self)
    end.

Definition digital_read (pin : Pin) : M bool :=
  fun _ self =>
    match pin with
    | RST_PIN => Ok (rst self) self
    | DC_PIN => Ok (dc self) self
    | CS_PIN => Ok (cs self) self
    | BUSY_PIN =>
        let level := busy_line self (busy_reads self) in
        Ok level (apply_event (EvBusy level) self)
    end.

Definition module_exit : M unit := digital_write RST_PIN false.

Definition delay_ms (delaytime : Z) : M unit :=
  fun _ self => Ok tt (apply_event (EvDelay delaytime) self).

(** [self.cs.value = False] is the assignment [digital_write] makes. *)
Definition spi_writebyte (data : list Z) : M unit :=
  while (got <- spi_try_lock ;; ret (negb got)) (ret tt) ;;
  try_finally
    (spi_configure 4000000 0 0 ;;
     digital_write CS_PIN false ;;
     bytes <- bytearray data ;;
     spi_write bytes ;;
     digital_write CS_PIN true)
    spi_unlock.

Definition send_command (command : Z) : M unit :=
  digital_write DC_PIN false ;;
  digital_write CS_PIN false ;;
  spi_writebyte [command] ;;
  digital_write CS_PIN true.

Definition send_data (data : Z) : M unit :=
  digital_write DC_PIN true ;;
  digital_write CS_PIN false ;;
  spi_writebyte [data] ;;
  digital_write CS_PIN true.

Definition reset : M unit :=
  digital_write RST_PIN true ;;
  delay_ms 50 ;;
  digital_write RST_PIN false ;;
  delay_ms 2 ;;
  digital_write RST_PIN true ;;
  delay_ms 50.

Definition ReadBusy : M unit :=
  print "Display busy" ;;
  send_command 0x71 ;;
  while (digital_read BUSY_PIN)
        (send_command 0x71 ;;
         delay_ms 10) ;;
  print "Display free".

Definition TurnOnDisplay : M unit :=
  send_command 0x20 ;;
  ReadBusy.

Definition SetWindows (Xstart Ystart Xend Yend : Z) : M unit :=
  send_command 0x44 ;;
  send_data (Z.land (Z.shiftr Xstart 3) 0xFF) ;;
  send_data (Z.land (Z.shiftr Xend 3) 0xFF) ;;
  send_command 0x45 ;;
  send_data (Z.land Ystart 0xFF) ;;
  send_data (Z.land (Z.shiftr Ystart 8) 0xFF) ;;
  send_data (Z.land Yend 0xFF) ;;
  send_data (Z.land (Z.shiftr Yend 8) 0xFF).

Definition SetCursor (Xstart Ystart : Z) : M unit :=
  send_command 0x4E ;;
  send_data (Z.land Xstart 0xFF) ;;
  send_command 0x4F ;;
  send_data (Z.land Ystart 0xFF) ;;
  send_data (Z.land (Z.shiftr Ystart 8) 0xFF).

(** [int(self.width / 8)]: a true division followed by truncation towards
    zero; on the integers the driver uses this is the truncating quotient. *)
Definition byte_stride (self : EPD_2in13_B_V4) : Z := Z.quot (width self) 8.

Definition get_self : M EPD_2in13_B_V4 := fun _ self => Ok self self.

(** The statement [self.send_command(0x3C)] is indented with a tab in the
    source; CircuitPython's lexer takes a tab to the next multiple of 8
    columns, which puts it in line with the statements around it. *)
Definition init : M Z :=
  reset ;;
  ReadBusy ;;
  send_command 0x12 ;;
  ReadBusy ;;
  send_command 0x01 ;;
  send_data 0xf9 ;;
  send_data 0x00 ;;
  send_data 0x00 ;;
  send_command 0x11 ;;
  send_data 0x03 ;;
  self <- get_self ;;
  SetWindows 0 0 (width self - 1) (height self - 1) ;;
  SetCursor 0 0 ;;
  send_command 0x3C ;;
  send_data 0x05 ;;
  send_command 0x18 ;;
  send_data 0x80 ;;
  send_command 0x21 ;;
  send_data 0x80 ;;
  send_data 0x80 ;;
  ReadBusy ;;
  print "Display initialized" ;;
  ret 0.

Definition Clear (colorblack colorred : Z) : M unit :=
  send_command 0x24 ;;
  (self <- get_self ;;
   for_each (range (height self)) (fun j =>
     for_each (range (byte_stride self)) (fun i =>
       send_data colorblack))) ;;
  send_command 0x26 ;;
  (self <- get_self ;;
   for_each (range (height self)) (fun j =>
     for_each (range (byte_stride self)) (fun i =>
       send_data colorred))) ;;
  TurnOnDisplay.

Definition sleep : M unit :=
  send_command 0x10 ;;
  send_data 0x01 ;;
  delay_ms 2000 ;;
  module_exit.

Definition display : M unit :=
  send_command 0x24 ;;
  (self <- get_self ;;
   for_each (range (height self)) (fun j =>
     for_each (range (byte_stride self)) (fun i =>
       b <- getitem (framebuffer_black_array self) (i + j * byte_stride self) ;;
       send_data b))) ;;
  send_command 0x26 ;;
  (self <- get_self ;;
   for_each (range (height self)) (fun j =>
     for_each (range (byte_stride self)) (fun i =>
       b <- getitem (framebuffer_red_array self) (i + j * byte_stride self) ;;
       send_data b))) ;;
  TurnOnDisplay.

(** The object as [__init__] builds it before it calls [self.init()]: the
    three output lines start low, the bus is free, the internal width is
    [EPD_WIDTH] rounded up to a multiple of 8 and both planes are zeroed. *)
Definition internal_width : Z :=
  if EPD_WIDTH mod 8 =? 0 then EPD_WIDTH else (EPD_WIDTH / 8) * 8 + 8.

Definition fresh (busy : nat -> bool) (fault : nat -> Fault) (rot : Z)
  : EPD_2in13_B_V4 :=
  mkEPD false false false false
        internal_width EPD_HEIGHT
        (bytearray_zeros (EPD_HEIGHT * internal_width / 8))
        (bytearray_zeros (EPD_HEIGHT * internal_width / 8))
        rot busy 0%nat fault 0%nat [].

Definition __init__ (busy : nat -> bool) (fault : nat -> Fault) (rot : Z)
  : nat -> result Z :=
  fun fuel => init fuel (fresh busy fault rot).

(** ** What the controller sees *)

Inductive frame : Type :=
| Command (code : Z)
| Data (value : Z).

(** A byte written while DC is low is a command, while DC is high a data
    byte; [dc_level] is the level of the line before the events. *)
Fixpoint bus_view (dc_level : bool) (evs : list event) : list frame :=
  match evs with
  | [] => []
  | EvPin DC_PIN v :: evs' => bus_view v evs'
  | EvWrite bytes :: evs' =>
      map (if dc_level then Data else Command) bytes ++ bus_view dc_level evs'
  | _ :: evs' => bus_view dc_level evs'
  end.

Definition is_data (f : frame) : bool :=
  match f with Data _ => true | Command _ => false end.

Definition is_command (f : frame) : bool :=
  match f with Command _ => true | Data _ => false end.

Definition is_code (c : Z) (f : frame) : bool :=
  match f with Command c' => c' =? c | Data _ => false end.

Definition count_frames (p : frame -> bool) (fs : list frame) : nat :=
  List.length (filter p fs).

(** ** Event sequences of the protocol steps *)

(** One framed byte, as [send_command] ([dc_level = false]) and [send_data]
    ([dc_level = true]) produce it on a working bus. *)
Definition frame_events (dc_level : bool) (b : Z) : list event :=
  [EvPin DC_PIN dc_level; EvPin CS_PIN false;
   EvLock; EvConfigure 4000000 0 0; EvPin CS_PIN false; EvWrite [b];
   EvPin CS_PIN true; EvUnlock;
   EvPin CS_PIN true].

Definition command_events (c : Z) : list event := frame_events false c.
Definition data_events (d : Z) : list event := frame_events true d.

Definition reset_events : list event :=
  [EvPin RST_PIN true; EvDelay 50; EvPin RST_PIN false; EvDelay 2;
   EvPin RST_PIN true; EvDelay 50].

(** One turn of the polling loop: busy read asserted, the status command
    again, 10 ms. *)
Definition poll_events : list event :=
  EvBusy true :: command_events 0x71 ++ [EvDelay 10].

(** [ReadBusy] when the line reads asserted [n] times and then idle. *)
Definition ReadBusy_events (n : nat) : list event :=
  EvPrint "Display busy" :: command_events 0x71
  ++ concat (repeat poll_events n)
  ++ [EvBusy false; EvPrint "Display free"].

(** ** Assumptions on the environment *)

(** The bus is free and never reports a failure. *)
Definition bus_ready (self : EPD_2in13_B_V4) : Prop :=
  spi_locked self = false /\ forall k, bus_fault self k = NoFault.

(** Counted from the reads already made, the busy line reads asserted [n]
    times and idle at the read after them. *)
Definition first_idle_from (busy : nat -> bool) (start n : nat) : Prop :=
  (forall k, (k < n)%nat -> busy (start + k)%nat = true)
  /\ busy (start + n)%nat = false.

Definition first_idle_at (self : EPD_2in13_B_V4) (n : nat) : Prop :=
  first_idle_from (busy_line self) (busy_reads self) n.

(** [m] returns [a] after producing exactly [evs], and leaves the bus
    unlocked. *)
Definition yields {A} (m : M A) (fuel : nat) (self : EPD_2in13_B_V4)
           (a : A) (evs : list event) : Prop :=
  m fuel self = Ok a (replay evs self)
  /\ spi_locked (replay evs self) = false.

(** Fields no event touches. *)
Record same_setup (s s' : EPD_2in13_B_V4) : Prop := {
  same_width : width s' = width s;
  same_height : height s' = height s;
  same_black : framebuffer_black_array s' = framebuffer_black_array s;
  same_red : framebuffer_red_array s' = framebuffer_red_array s;
  same_busy_line : busy_line s' = busy_line s;
  same_bus_fault : bus_fault s' = bus_fault s
}.

Definition count_busy_reads (evs : list event) : nat :=
  List.length (filter (fun e => match e with EvBusy _ => true | _ => false end)
                      evs).

(** The events of a transaction up to the point where it stops. *)
Definition transaction_events (data : list Z) : list event :=
  [EvLock; EvConfigure 4000000 0 0; EvPin CS_PIN false; EvWrite data;
   EvPin CS_PIN true; EvUnlock].

Definition aborted_events : list event :=
  [EvLock; EvConfigure 4000000 0 0; EvPin CS_PIN false; EvUnlock].

Definition polling_events (n : nat) : list event :=
  concat (repeat poll_events n) ++ [EvBusy false].

Definition as_frame (dc_level : bool) (b : Z) : frame :=
  if dc_level then Data b else Command b.

Definition is_delay (e : event) : bool :=
  match e with EvDelay _ => true | _ => false end.

(** Whatever [m] does (return or raise), the object afterwards is the object
    before with some events replayed on it, each of them satisfying [P]. *)
Definition traced (P : event -> Prop) {A} (m : M A) : Prop :=
  forall fuel s,
    match m fuel s with
    | Ok _ s' | Raise _ s' => exists evs, s' = replay evs s /\ Forall P evs
    | Diverge => True
    end.

(** Events other than a write to the reset line. *)
Definition leaves_rst (e : event) : Prop :=
  match e with
  | EvPin RST_PIN _ => False
  | _ => True
  end.

Definition SetWindows_events (Xstart Ystart Xend Yend : Z) : list event :=
  command_events 0x44
  ++ data_events (Z.land (Z.shiftr Xstart 3) 0xFF)
  ++ data_events (Z.land (Z.shiftr Xend 3) 0xFF)
  ++ command_events 0x45
  ++ data_events (Z.land Ystart 0xFF)
  ++ data_events (Z.land (Z.shiftr Ystart 8) 0xFF)
  ++ data_events (Z.land Yend 0xFF)
  ++ data_events (Z.land (Z.shiftr Yend 8) 0xFF).

Definition SetCursor_events (Xstart Ystart : Z) : list event :=
  command_events 0x4E
  ++ data_events (Z.land Xstart 0xFF)
  ++ command_events 0x4F
  ++ data_events (Z.land Ystart 0xFF)
  ++ data_events (Z.land (Z.shiftr Ystart 8) 0xFF).

(** The events of a stream of data bytes. *)
Definition plane_events (bytes : list Z) : list event :=
  flat_map data_events bytes.

(** [height * int(width / 8)], the number of bytes streamed per plane. *)
Definition cells (self : EPD_2in13_B_V4) : nat :=
  (Z.to_nat (height self) * Z.to_nat (byte_stride self))%nat.

Definition TurnOnDisplay_events (n : nat) : list event :=
  command_events 0x20 ++ ReadBusy_events n.

(** Both planes and the refresh: [black] after 0x24, [red] after 0x26, then
    0x20 and the busy poll with [n] asserted reads. *)
Definition transfer_events (black red : list Z) (n : nat) : list event :=
  command_events 0x24 ++ plane_events black
  ++ command_events 0x26 ++ plane_events red
  ++ TurnOnDisplay_events n.

Definition transfer_frames (black red : list Z) (n : nat) : list frame :=
  Command 0x24 :: map Data black
  ++ Command 0x26 :: map Data red
  ++ Command 0x20 :: repeat (Command 0x71) (S n).

(** The object [__init__] leaves behind has the geometry of this panel;
    nothing the driver does changes it. *)
Definition model_geometry (self : EPD_2in13_B_V4) : Prop :=
  width self = internal_width
  /\ height self = EPD_HEIGHT
  /\ List.length (framebuffer_black_array self)
     = Z.to_nat (EPD_HEIGHT * internal_width / 8)
  /\ List.length (framebuffer_red_array self)
     = Z.to_nat (EPD_HEIGHT * internal_width / 8).

(** The frames seen before the first command [c]. *)
Fixpoint before_code (c : Z) (fs : list frame) : list frame :=
  match fs with
  | [] => []
  | f :: fs' => if is_code c f then [] else f :: before_code c fs'
  end.

Definition init_events (self : EPD_2in13_B_V4) (n1 n2 n3 : nat) : list event :=
  reset_events
  ++ ReadBusy_events n1
  ++ command_events 0x12
  ++ ReadBusy_events n2
  ++ command_events 0x01
  ++ data_events 0xf9 ++ data_events 0x00 ++ data_events 0x00
  ++ command_events 0x11
  ++ data_events 0x03
  ++ SetWindows_events 0 0 (width self - 1) (height self - 1)
  ++ SetCursor_events 0 0
  ++ command_events 0x3C
  ++ data_events 0x05
  ++ command_events 0x18
  ++ data_events 0x80
  ++ command_events 0x21
  ++ data_events 0x80 ++ data_events 0x80
  ++ ReadBusy_events n3
  ++ [EvPrint "Display initialized"].

(** The last two statements of [init] with the poll before them. *)
Definition init_tail : M Z :=
  ReadBusy ;; print "Display initialized" ;; ret 0.

(** [m] returns 0 and the last things it did are a complete busy poll and
    the final message; it never writes to the reset line. *)
Definition closes (m : M Z) : Prop :=
  forall fuel s,
    match m fuel s with
    | Ok v s' =>
        v = 0
        /\ exists evs k,
            s' = replay (evs ++ ReadBusy_events k
                             ++ [EvPrint "Display initialized"]) s
            /\ Forall leaves_rst evs
    | Raise _ s' => exists evs, s' = replay evs s /\ Forall leaves_rst evs
    | Diverge => True
    end.

(** [init] after its first statement. *)
Definition init_after_reset : M Z :=
  ReadBusy ;;
  send_command 0x12 ;;
  ReadBusy ;;
  send_command 0x01 ;;
  send_data 0xf9 ;;
  send_data 0x00 ;;
  send_data 0x00 ;;
  send_command 0x11 ;;
  send_data 0x03 ;;
  self <- get_self ;;
  SetWindows 0 0 (width self - 1) (height self - 1) ;;
  SetCursor 0 0 ;;
  send_command 0x3C ;;
  send_data 0x05 ;;
  send_command 0x18 ;;
  send_data 0x80 ;;
  send_command 0x21 ;;
  send_data 0x80 ;;
  send_data 0x80 ;;
  ReadBusy ;;
  print "Display initialized" ;;
  ret 0.

Definition no_fault : nat -> Fault := fun _ => NoFault.
Definition always_idle : nat -> bool := fun _ => false.

(** The busy line is idle except at read number [k]. *)
Definition busy_only_at (k : nat) : nat -> bool := fun i => Nat.eqb i k.

(** The object the constructor leaves behind. *)
Definition constructed (busy : nat -> bool) (fault : nat -> Fault) (rot : Z)
           (fuel : nat) : EPD_2in13_B_V4 :=
  match __init__ busy fault rot fuel with
  | Ok _ self => self
  | _ => fresh busy fault rot
  end.

(** A panel whose busy line is idle through construction and the first
    refresh and reads asserted once during the second. *)
Definition panel_busy_later : EPD_2in13_B_V4 :=
  constructed (busy_only_at 4) no_fault 0 2.

Definition sleep_events : list event :=
  command_events 0x10 ++ data_events 0x01
  ++ [EvDelay 2000] ++ [EvPin RST_PIN false].

Inductive operation : Type :=
| OpDisplay
| OpClear (colorblack colorred : Z)
| OpSetWindows (Xstart Ystart Xend Yend : Z)
| OpSetCursor (Xstart Ystart : Z)
| OpTurnOnDisplay.

Definition run_operation (op : operation) : M unit :=
  match op with
  | OpDisplay => display
  | OpClear b r => Clear b r
  | OpSetWindows xs ys xe ye => SetWindows xs ys xe ye
  | OpSetCursor x y => SetCursor x y
  | OpTurnOnDisplay => TurnOnDisplay
  end.

(** What the operation does on a working bus when the busy line goes idle
    after [n] asserted reads. *)
Definition operation_events (op : operation) (self : EPD_2in13_B_V4)
           (n : nat) : list event :=
  match op with
  | OpDisplay =>
      transfer_events
        (map byte_value (firstn (cells self) (framebuffer_black_array self)))
        (map byte_value (firstn (cells self) (framebuffer_red_array self)))
        n
  | OpClear b r =>
      transfer_events (repeat b (cells self)) (repeat r (cells self)) n
  | OpSetWindows xs ys xe ye => SetWindows_events xs ys xe ye
  | OpSetCursor x y => SetCursor_events x y
  | OpTurnOnDisplay => TurnOnDisplay_events n
  end.

(** The arguments are bytes where bytes are expected. *)
Definition bytes_ok (op : operation) : Prop :=
  match op with
  | OpClear b r => is_byte b = true /\ is_byte r = true
  | _ => True
  end.

Definition planes_fit (self : EPD_2in13_B_V4) : Prop :=
  (cells self <= List.length (framebuffer_black_array self))%nat
  /\ (cells self <= List.length (framebuffer_red_array self))%nat.

(** The constructed panel with a busy line that is always idle. *)
Definition panel_idle : EPD_2in13_B_V4 :=
  constructed always_idle no_fault 0 1.

(** The object before [init], on an idle panel and a working bus. *)
Definition idle_fresh : EPD_2in13_B_V4 := fresh always_idle no_fault 0.

(** The same with a busy line that reads asserted twice before going idle. *)
Definition busy_twice_fresh : EPD_2in13_B_V4 :=
  fresh (fun i => Nat.ltb i 2) no_fault 0.

(** The same on a bus whose write step fails. *)
Definition write_fails_fresh : EPD_2in13_B_V4 :=
  fresh always_idle (fun _ => WriteFails) 0.

(** A panel with an all-0xFF black plane and an all-zero red plane. *)
Definition uniform_panel : EPD_2in13_B_V4 :=
  mkEPD false false false false 128 250
        (repeat xff (Z.to_nat 4000)) (repeat x00 (Z.to_nat 4000))
        0 always_idle 0%nat no_fault 0%nat [].

(** ** The rest of the driver's surface *)

(** Lines 76 to 79 of the source for an arbitrary declared width. *)
Definition rounded_width (w : Z) : Z :=
  if w mod 8 =? 0 then w else (w / 8) * 8 + 8.

Definition any_event (e : event) : Prop := True.

(** Started with the bus free, [m] never comes back with the bus locked. *)
Definition releases {A} (m : M A) : Prop :=
  forall fuel s,
    spi_locked s = false ->
    match m fuel s with
    | Ok _ s' | Raise _ s' => spi_locked s' = false
    | Diverge => True
    end.

(** The methods of the class. *)
Inductive method : Type :=
| MInit
| MReset
| MSendCommand (command : Z)
| MDigitalWrite (pin : Pin) (value : bool)
| MDigitalRead (pin : Pin)
| MModuleExit
| MDelayMs (delaytime : Z)
| MSpiWritebyte (data : list Z)
| MReadBusy
| MSendData (data : Z)
| MClear (colorblack colorred : Z)
| MTurnOnDisplay
| MSetWindows (Xstart Ystart Xend Yend : Z)
| MSetCursor (Xstart Ystart : Z)
| MSleep
| MDisplay.

(** A call of a method, its return value dropped. *)
Definition run_method (m : method) : M unit :=
  match m with
  | MInit => init ;; ret tt
  | MReset => reset
  | MSendCommand c => send_command c
  | MDigitalWrite pin v => digital_write pin v
  | MDigitalRead pin => digital_read pin ;; ret tt
  | MModuleExit => module_exit
  | MDelayMs t => delay_ms t
  | MSpiWritebyte data => spi_writebyte data
  | MReadBusy => ReadBusy
  | MSendData d => send_data d
  | MClear b r => Clear b r
  | MTurnOnDisplay => TurnOnDisplay
  | MSetWindows xs ys xe ye => SetWindows xs ys xe ye
  | MSetCursor x y => SetCursor x y
  | MSleep => sleep
  | MDisplay => display
  end.

(** The methods that drive the reset line. *)
Definition drives_rst (m : method) : bool :=
  match m with
  | MInit | MReset | MModuleExit | MSleep => true
  | MDigitalWrite RST_PIN _ => true
  | _ => false
  end.

(** What the controller sees during [init] when the three polls find the
    busy line asserted [n1], [n2] and [n3] times. *)
Definition init_frames (self : EPD_2in13_B_V4) (n1 n2 n3 : nat) : list frame :=
  repeat (Command 0x71) (S n1)
  ++ [Command 0x12]
  ++ repeat (Command 0x71) (S n2)
  ++ [Command 0x01; Data 0xf9; Data 0x00; Data 0x00;
      Command 0x11; Data 0x03;
      Command 0x44; Data 0; Data (Z.land (Z.shiftr (width self - 1) 3) 0xFF);
      Command 0x45; Data 0; Data 0;
      Data (Z.land (height self - 1) 0xFF);
      Data (Z.land (Z.shiftr (height self - 1) 8) 0xFF);
      Command 0x4E; Data 0;
      Command 0x4F; Data 0; Data 0;
      Command 0x3C; Data 0x05;
      Command 0x18; Data 0x80;
      Command 0x21; Data 0x80; Data 0x80]
  ++ repeat (Command 0x71) (S n3).

(** A panel whose black plane has only two bytes. *)
Definition short_black_panel : EPD_2in13_B_V4 :=
  mkEPD false false false false 128 250
        [xff; x0f] (repeat x00 (Z.to_nat 4000))
        0 always_idle 0%nat no_fault 0%nat [].

(** A panel whose red plane has only one byte. *)
Definition short_red_panel : EPD_2in13_B_V4 :=
  mkEPD false false false false 128 250
        (repeat x00 (Z.to_nat 4000)) [x01]
        0 always_idle 0%nat no_fault 0%nat [].

(** ** Two objects that differ only in what no operation looks at *)

(** Same lock state, geometry, planes and busy line, and no fault on either
    bus; the pins, the log and the count of past transactions may differ. *)
Record alike (s t : EPD_2in13_B_V4) : Prop := {
  alike_locked : spi_locked s = spi_locked t;
  alike_width : width s = width t;
  alike_height : height s = height t;
  alike_black : framebuffer_black_array s = framebuffer_black_array t;
  alike_red : framebuffer_red_array s = framebuffer_red_array t;
  alike_busy_line : busy_line s = busy_line t;
  alike_busy_reads : busy_reads s = busy_reads t;
  alike_fault_l : forall k, bus_fault s k = NoFault;
  alike_fault_r : forall k, bus_fault t k = NoFault
}.

(** The two runs end the same way (same value, or same exception, or both
    without coming back) after the same events. *)
Definition mirrored {A} (r1 r2 : result A) (s t : EPD_2in13_B_V4) : Prop :=
  match r1, r2 with
  | Ok a s', Ok b t' =>
      a = b /\ exists evs, s' = replay evs s /\ t' = replay evs t
  | Raise e s', Raise e' t' =>
      e = e' /\ exists evs, s' = replay evs s /\ t' = replay evs t
  | Diverge, Diverge => True
  | _, _ => False
  end.

Definition mirrors {A} (m : M A) : Prop :=
  forall fuel s t, alike s t -> mirrored (m fuel s) (m fuel t) s t.

(** * Proofs *)

(** ** Replaying events *)

Lemma replay_app evs1 evs2 self :
  replay (evs1 ++ evs2) self = replay evs2 (replay evs1 self).
Proof. unfold replay. apply fold_left_app. Qed.

Lemma log_apply_event e self : log (apply_event e self) = log self ++ [e].
Proof. destruct e; reflexivity. Qed.

Lemma log_replay evs : forall self, log (replay evs self) = log self ++ evs.
Proof.
  induction evs as [|e evs IH]; intro self; simpl.
  - now rewrite app_nil_r.
  - fold (replay evs (apply_event e self)).
    rewrite IH, log_apply_event, <- app_assoc. reflexivity.
Qed.

Lemma same_setup_refl s : same_setup s s.
Proof. now constructor. Qed.

Lemma same_setup_trans s1 s2 s3 :
  same_setup s1 s2 -> same_setup s2 s3 -> same_setup s1 s3.
Proof.
  intros [] []; constructor; congruence.
Qed.

Lemma same_setup_apply_event e s : same_setup s (apply_event e s).
Proof. destruct e; now constructor. Qed.

Lemma same_setup_replay evs : forall s, same_setup s (replay evs s).
Proof.
  induction evs as [|e evs IH]; intro s; simpl.
  - apply same_setup_refl.
  - eapply same_setup_trans; [apply same_setup_apply_event | apply IH].
Qed.

Lemma busy_reads_replay evs : forall s,
  busy_reads (replay evs s) = (busy_reads s + count_busy_reads evs)%nat.
Proof.
  unfold count_busy_reads.
  induction evs as [|e evs IH]; intro s; simpl.
  - lia.
  - fold (replay evs (apply_event e s)). rewrite IH.
    destruct e; simpl; lia.
Qed.

Lemma bus_ready_replay evs s :
  bus_ready s -> spi_locked (replay evs s) = false -> bus_ready (replay evs s).
Proof.
  intros [_ Hf] Hl. split; [exact Hl|].
  intro k. rewrite (same_bus_fault _ _ (same_setup_replay evs s)). apply Hf.
Qed.

(** ** Sequencing *)

Lemma yields_ret {A} (a : A) fuel s :
  spi_locked s = false -> yields (ret a) fuel s a [].
Proof. intro H. split; [reflexivity | exact H]. Qed.

Lemma yields_bind {A B} (m : M A) (f : A -> M B) fuel s a b evs1 evs2 :
  yields m fuel s a evs1 ->
  yields (f a) fuel (replay evs1 s) b evs2 ->
  yields (bind m f) fuel s b (evs1 ++ evs2).
Proof.
  intros [H1 _] [H2 L2]. unfold yields, bind.
  rewrite H1, H2, replay_app. split; [reflexivity | exact L2].
Qed.

Lemma yields_ready {A} (m : M A) fuel s a evs :
  bus_ready s -> yields m fuel s a evs -> bus_ready (replay evs s).
Proof. intros Hr [_ Hl]. now apply bus_ready_replay. Qed.

(** ** One bus transaction *)

Lemma spin_locked k : forall fuel s,
  spi_locked s = true ->
  while_loop k (got <- spi_try_lock ;; ret (negb got)) (ret tt) fuel s
  = Diverge.
Proof.
  induction k as [|k IH]; intros fuel s Hl; simpl; [reflexivity|].
  unfold bind at 1, spi_try_lock at 1. rewrite Hl. simpl.
  now apply IH.
Qed.

(** [spi_writebyte] in closed form. *)
Lemma spi_writebyte_cases data fuel s :
  spi_writebyte data fuel s =
  match fuel with
  | O => Diverge
  | S _ =>
      if spi_locked s then Diverge
      else match bus_fault s (transfers s) with
           | ConfigureFails => Raise OSError (replay [EvLock; EvUnlock] s)
           | WriteFails =>
               if forallb is_byte data
               then Raise OSError (replay aborted_events s)
               else Raise ValueError (replay aborted_events s)
           | NoFault =>
               if forallb is_byte data
               then Ok tt (replay (transaction_events data) s)
               else Raise ValueError (replay aborted_events s)
           end
  end.
Proof.
  destruct fuel as [|fuel]; [reflexivity|].
  unfold spi_writebyte, while. unfold bind at 1.
  destruct (spi_locked s) eqn:Hl.
  - now rewrite spin_locked.
  - simpl. unfold bind at 1, spi_try_lock at 1. rewrite Hl. simpl.
    unfold try_finally, bind, spi_configure, bytearray. simpl.
    destruct (bus_fault s (transfers s)) eqn:Hf; simpl;
      try reflexivity;
      destruct (forallb is_byte data) eqn:Hb; simpl;
      unfold spi_write; simpl; rewrite ?Hf; reflexivity.
Qed.

Lemma send_frame_cases (dc_level : bool) b fuel s :
  (digital_write DC_PIN dc_level ;;
   digital_write CS_PIN false ;;
   spi_writebyte [b] ;;
   digital_write CS_PIN true) fuel s =
  match fuel with
  | O => Diverge
  | S _ =>
      if spi_locked s then Diverge
      else
        let pre := [EvPin DC_PIN dc_level; EvPin CS_PIN false] in
        match bus_fault s (transfers s) with
        | ConfigureFails =>
            Raise OSError (replay (pre ++ [EvLock; EvUnlock]) s)
        | WriteFails =>
            if is_byte b
            then Raise OSError (replay (pre ++ aborted_events) s)
            else Raise ValueError (replay (pre ++ aborted_events) s)
        | NoFault =>
            if is_byte b
            then Ok tt (replay (frame_events dc_level b) s)
            else Raise ValueError (replay (pre ++ aborted_events) s)
        end
  end.
Proof.
  unfold bind, digital_write. rewrite spi_writebyte_cases.
  destruct fuel as [|fuel]; [reflexivity|]. simpl.
  destruct (spi_locked s); [reflexivity|].
  destruct (bus_fault s (transfers s)); simpl; try reflexivity;
    rewrite andb_true_r; destruct (is_byte b); reflexivity.
Qed.

Lemma send_command_cases c fuel s :
  send_command c fuel s =
  match fuel with
  | O => Diverge
  | S _ =>
      if spi_locked s then Diverge
      else
        let pre := [EvPin DC_PIN false; EvPin CS_PIN false] in
        match bus_fault s (transfers s) with
        | ConfigureFails =>
            Raise OSError (replay (pre ++ [EvLock; EvUnlock]) s)
        | WriteFails =>
            if is_byte c
            then Raise OSError (replay (pre ++ aborted_events) s)
            else Raise ValueError (replay (pre ++ aborted_events) s)
        | NoFault =>
            if is_byte c
            then Ok tt (replay (command_events c) s)
            else Raise ValueError (replay (pre ++ aborted_events) s)
        end
  end.
Proof. apply (send_frame_cases false). Qed.

Lemma send_data_cases d fuel s :
  send_data d fuel s =
  match fuel with
  | O => Diverge
  | S _ =>
      if spi_locked s then Diverge
      else
        let pre := [EvPin DC_PIN true; EvPin CS_PIN false] in
        match bus_fault s (transfers s) with
        | ConfigureFails =>
            Raise OSError (replay (pre ++ [EvLock; EvUnlock]) s)
        | WriteFails =>
            if is_byte d
            then Raise OSError (replay (pre ++ aborted_events) s)
            else Raise ValueError (replay (pre ++ aborted_events) s)
        | NoFault =>
            if is_byte d
            then Ok tt (replay (data_events d) s)
            else Raise ValueError (replay (pre ++ aborted_events) s)
        end
  end.
Proof. apply (send_frame_cases true). Qed.

Lemma yields_send_command c fuel s :
  bus_ready s -> is_byte c = true -> (0 < fuel)%nat ->
  yields (send_command c) fuel s tt (command_events c).
Proof.
  intros [Hl Hf] Hc Hfuel. unfold yields. rewrite send_command_cases.
  destruct fuel; [lia|]. rewrite Hl, Hf, Hc. split; [reflexivity|].
  reflexivity.
Qed.

Lemma yields_send_data d fuel s :
  bus_ready s -> is_byte d = true -> (0 < fuel)%nat ->
  yields (send_data d) fuel s tt (data_events d).
Proof.
  intros [Hl Hf] Hd Hfuel. unfold yields. rewrite send_data_cases.
  destruct fuel; [lia|]. rewrite Hl, Hf, Hd. split; [reflexivity|].
  reflexivity.
Qed.

Lemma yields_delay_ms t fuel s :
  spi_locked s = false -> yields (delay_ms t) fuel s tt [EvDelay t].
Proof. intro H. split; [reflexivity | exact H]. Qed.

Lemma yields_print msg fuel s :
  spi_locked s = false -> yields (print msg) fuel s tt [EvPrint msg].
Proof. intro H. split; [reflexivity | exact H]. Qed.

(** ** The busy poll *)

Lemma first_idle_at_step s s2 n :
  busy_line s (busy_reads s) = true ->
  busy_line s2 = busy_line s ->
  busy_reads s2 = S (busy_reads s) ->
  first_idle_at s2 n <-> first_idle_at s (S n).
Proof.
  intros H0 Hl Hr. unfold first_idle_at, first_idle_from. rewrite Hl, Hr.
  split.
  - intros [Ha Hb]. split.
    + intros [|k] Hk.
      * now rewrite Nat.add_0_r.
      * replace (busy_reads s + S k)%nat with (S (busy_reads s) + k)%nat
          by lia.
        apply Ha. lia.
    + now replace (busy_reads s + S n)%nat with (S (busy_reads s) + n)%nat
        by lia.
  - intros [Ha Hb]. split.
    + intros k Hk.
      replace (S (busy_reads s) + k)%nat with (busy_reads s + S k)%nat by lia.
      apply Ha. lia.
    + now replace (S (busy_reads s) + n)%nat with (busy_reads s + S n)%nat
        by lia.
Qed.

Lemma first_idle_at_unique s n m :
  first_idle_at s n -> first_idle_at s m -> n = m.
Proof.
  intros [Hn1 Hn2] [Hm1 Hm2].
  destruct (Nat.lt_total n m) as [H|[H|H]]; [|exact H|].
  - specialize (Hm1 n H). congruence.
  - specialize (Hn1 m H). congruence.
Qed.

Lemma polling_events_S n :
  polling_events (S n) = poll_events ++ polling_events n.
Proof.
  unfold polling_events. cbn [repeat concat]. now rewrite <- app_assoc.
Qed.

Lemma while_loop_S k cond body fuel s :
  while_loop (S k) cond body fuel s =
  match cond fuel s with
  | Ok true s1 =>
      match body fuel s1 with
      | Ok _ s2 => while_loop k cond body fuel s2
      | Raise e s2 => Raise e s2
      | Diverge => Diverge
      end
  | Ok false s1 => Ok tt s1
  | Raise e s1 => Raise e s1
  | Diverge => Diverge
  end.
Proof. reflexivity. Qed.

Lemma digital_read_busy fuel s :
  digital_read BUSY_PIN fuel s
  = Ok (busy_line s (busy_reads s))
       (apply_event (EvBusy (busy_line s (busy_reads s))) s).
Proof. reflexivity. Qed.

(** One turn of the loop body on a working bus. *)
Lemma poll_body fuel s :
  bus_ready s -> (0 < fuel)%nat ->
  (send_command 0x71 ;; delay_ms 10) fuel (apply_event (EvBusy true) s)
  = Ok tt (replay poll_events s).
Proof.
  intros [Hl Hf] Hfuel. unfold bind. rewrite send_command_cases.
  destruct fuel as [|fuel]; [lia|].
  change (spi_locked (apply_event (EvBusy true) s)) with (spi_locked s).
  change (bus_fault (apply_event (EvBusy true) s)) with (bus_fault s).
  rewrite Hl, Hf. reflexivity.
Qed.

Lemma polling_loop n : forall k fuel s,
  bus_ready s -> first_idle_at s n -> (n < k)%nat -> (0 < fuel)%nat ->
  while_loop k (digital_read BUSY_PIN) (send_command 0x71 ;; delay_ms 10)
             fuel s
  = Ok tt (replay (polling_events n) s)
  /\ spi_locked (replay (polling_events n) s) = false.
Proof.
  induction n as [|n IH]; intros k fuel s Hr Hi Hk Hfuel;
    (destruct k as [|k]; [lia|]);
    rewrite while_loop_S, digital_read_busy.
  - destruct Hi as [_ Hi]. rewrite Nat.add_0_r in Hi. rewrite Hi.
    split; [reflexivity | apply Hr].
  - assert (H0 : busy_line s (busy_reads s) = true).
    { destruct Hi as [Hi _]. specialize (Hi 0%nat).
      rewrite Nat.add_0_r in Hi. apply Hi. lia. }
    rewrite H0, (poll_body fuel s Hr Hfuel).
    rewrite polling_events_S, replay_app.
    apply IH; try lia.
    + destruct Hr as [Hl Hf]. split; [reflexivity | exact Hf].
    + apply (first_idle_at_step s _ n H0); [reflexivity | reflexivity | exact Hi].
Qed.

Lemma ReadBusy_events_split n :
  ReadBusy_events n
  = [EvPrint "Display busy"] ++ command_events 0x71
    ++ polling_events n ++ [EvPrint "Display free"].
Proof.
  unfold ReadBusy_events, polling_events. now rewrite <- app_assoc.
Qed.

Lemma yields_ReadBusy n fuel s :
  bus_ready s -> first_idle_at s n -> (n < fuel)%nat ->
  yields ReadBusy fuel s tt (ReadBusy_events n).
Proof.
  intros Hr Hi Hfuel. rewrite ReadBusy_events_split. unfold ReadBusy.
  eapply yields_bind; [apply yields_print, Hr|].
  assert (Hr1 : bus_ready (replay [EvPrint "Display busy"] s)).
  { destruct Hr. split; assumption. }
  eapply yields_bind; [apply yields_send_command; [exact Hr1|reflexivity|lia]|].
  set (s1 := replay (command_events 113) _).
  assert (Hr2 : bus_ready s1).
  { destruct Hr. split; [reflexivity | assumption]. }
  assert (Hi1 : first_idle_at s1 n) by exact Hi.
  destruct (polling_loop n fuel fuel s1 Hr2 Hi1 Hfuel) as [Hw Hl]; [lia|].
  eapply yields_bind.
  - split; [exact Hw | exact Hl].
  - apply yields_print. exact Hl.
Qed.

Lemma yields_bind_ready {A B} (m : M A) (f : A -> M B) fuel s a b evs1 evs2 :
  bus_ready s ->
  yields m fuel s a evs1 ->
  (bus_ready (replay evs1 s) -> yields (f a) fuel (replay evs1 s) b evs2) ->
  yields (bind m f) fuel s b (evs1 ++ evs2).
Proof.
  intros Hr H1 H2. eapply yields_bind; [exact H1|].
  apply H2. eapply yields_ready; eassumption.
Qed.

(** ** Decoding the log *)

Lemma bus_view_frame d x b evs :
  bus_view d (frame_events x b ++ evs) = as_frame x b :: bus_view x evs.
Proof. destruct x; reflexivity. Qed.

Lemma bus_view_command d c evs :
  bus_view d (command_events c ++ evs) = Command c :: bus_view false evs.
Proof. apply (bus_view_frame d false). Qed.

Lemma bus_view_data d b evs :
  bus_view d (data_events b ++ evs) = Data b :: bus_view true evs.
Proof. apply (bus_view_frame d true). Qed.

Lemma bus_view_polls n : forall evs,
  bus_view false (concat (repeat poll_events n) ++ evs)
  = repeat (Command 0x71) n ++ bus_view false evs.
Proof.
  induction n as [|n IH]; intro evs; [reflexivity|].
  cbn [repeat concat]. rewrite <- app_assoc.
  unfold poll_events at 1. cbn [app bus_view].
  rewrite <- app_assoc, bus_view_command. cbn [app bus_view].
  now rewrite IH.
Qed.

Lemma bus_view_ReadBusy d n evs :
  bus_view d (ReadBusy_events n ++ evs)
  = repeat (Command 0x71) (S n) ++ bus_view false evs.
Proof.
  unfold ReadBusy_events. cbn [app bus_view].
  rewrite <- !app_assoc, bus_view_command, bus_view_polls.
  reflexivity.
Qed.

Lemma count_busy_reads_app evs1 evs2 :
  count_busy_reads (evs1 ++ evs2)
  = (count_busy_reads evs1 + count_busy_reads evs2)%nat.
Proof. unfold count_busy_reads. now rewrite filter_app, length_app. Qed.

Lemma count_busy_reads_polls n :
  count_busy_reads (concat (repeat poll_events n)) = n.
Proof.
  induction n as [|n IH]; [reflexivity|].
  cbn [repeat concat]. rewrite count_busy_reads_app, IH. reflexivity.
Qed.

Lemma count_busy_reads_ReadBusy n :
  count_busy_reads (ReadBusy_events n) = S n.
Proof.
  rewrite ReadBusy_events_split. unfold polling_events.
  rewrite !count_busy_reads_app, count_busy_reads_polls.
  cbn. lia.
Qed.

Lemma delays_polls n :
  filter is_delay (concat (repeat poll_events n)) = repeat (EvDelay 10) n.
Proof.
  induction n as [|n IH]; [reflexivity|].
  cbn [repeat concat]. rewrite filter_app, IH. reflexivity.
Qed.

Lemma delays_ReadBusy n :
  filter is_delay (ReadBusy_events n) = repeat (EvDelay 10) n.
Proof.
  rewrite ReadBusy_events_split. unfold polling_events.
  rewrite !filter_app, delays_polls. cbn. now rewrite !app_nil_r.
Qed.

(** C1.  If, counted from the reads already made, the busy line reads
    asserted [n] times and then idle, [ReadBusy] on a working bus returns
    after exactly [n + 1] reads of the line, the last one being the first
    idle read.  What it did is the status command 0x71 once before the loop
    and once for each asserted read ([n + 1] commands on the bus and nothing
    else), each re-issue followed by a 10 ms delay ([n] delays in all). *)
Theorem ReadBusy_polls_until_first_idle :
  forall (n fuel : nat) (self : EPD_2in13_B_V4),
    bus_ready self ->
    first_idle_at self n ->
    (n < fuel)%nat ->
    exists self',
      ReadBusy fuel self = Ok tt self'
      /\ log self' = log self ++ ReadBusy_events n
      /\ busy_reads self' = (busy_reads self + S n)%nat
      /\ busy_line self (busy_reads self' - 1) = false
      /\ bus_view (dc self) (ReadBusy_events n) = repeat (Command 0x71) (S n)
      /\ filter is_delay (ReadBusy_events n) = repeat (EvDelay 10) n.
Proof.
  intros n fuel self Hr Hi Hfuel.
  destruct (yields_ReadBusy n fuel self Hr Hi Hfuel) as [Hrun _].
  exists (replay (ReadBusy_events n) self).
  split; [exact Hrun|].
  split; [apply log_replay|].
  rewrite busy_reads_replay, count_busy_reads_ReadBusy.
  split; [reflexivity|].
  split.
  - destruct Hi as [_ Hi].
    now replace (busy_reads self + S n - 1)%nat with (busy_reads self + n)%nat
      by lia.
  - split; [|apply delays_ReadBusy].
    rewrite <- (app_nil_r (ReadBusy_events n)), bus_view_ReadBusy.
    apply app_nil_r.
Qed.

(** ** What any run does to the object *)

Lemma traced_now P s : exists evs, s = replay evs s /\ Forall P evs.
Proof. exists []. split; [reflexivity | constructor]. Qed.

Lemma traced_one P e s :
  P e -> exists evs, apply_event e s = replay evs s /\ Forall P evs.
Proof. intro H. exists [e]. split; [reflexivity | now repeat constructor]. Qed.

Lemma traced_then P s evs s' :
  (exists evs', s' = replay evs' (replay evs s) /\ Forall P evs') ->
  Forall P evs ->
  exists evs'', s' = replay evs'' s /\ Forall P evs''.
Proof.
  intros (evs' & -> & H') H. exists (evs ++ evs'). split.
  - now rewrite replay_app.
  - apply Forall_app. now split.
Qed.

Lemma traced_ret P {A} (a : A) : traced P (ret a).
Proof. intros fuel s. apply traced_now. Qed.

Lemma traced_raise P {A} e : traced P (@raise A e).
Proof. intros fuel s. apply traced_now. Qed.

Lemma traced_bind P {A B} (m : M A) (f : A -> M B) :
  traced P m -> (forall a, traced P (f a)) -> traced P (bind m f).
Proof.
  intros Hm Hf fuel s. unfold bind. specialize (Hm fuel s).
  destruct (m fuel s) as [a s1|e s1|]; [|exact Hm|exact I].
  destruct Hm as (evs & -> & Hevs). specialize (Hf a fuel (replay evs s)).
  destruct (f a fuel (replay evs s)); try exact I;
    now apply traced_then with evs.
Qed.

Lemma traced_try_finally P {A} (body : M A) (handler : M unit) :
  traced P body -> traced P handler -> traced P (try_finally body handler).
Proof.
  intros Hb Hh fuel s. unfold try_finally. specialize (Hb fuel s).
  destruct (body fuel s) as [a s1|e s1|]; [| |exact I];
    destruct Hb as (evs & -> & Hevs).
  - pose proof (traced_bind P handler (fun _ => ret a) Hh
                  (fun _ => traced_ret P a) fuel (replay evs s)) as H.
    destruct ((handler ;; ret a) fuel (replay evs s)); try exact I;
      now apply traced_then with evs.
  - pose proof (traced_bind P handler (fun _ => @raise A e) Hh
                  (fun _ => traced_raise P e) fuel (replay evs s)) as H.
    destruct ((handler ;; @raise A e) fuel (replay evs s)); try exact I;
      now apply traced_then with evs.
Qed.

Lemma traced_while_loop P cond body :
  traced P cond -> traced P body ->
  forall k, traced P (while_loop k cond body).
Proof.
  intros Hc Hb k. induction k as [|k IH]; intros fuel s; [exact I|].
  rewrite while_loop_S. specialize (Hc fuel s).
  destruct (cond fuel s) as [[|] s1|e s1|]; try exact Hc.
  destruct Hc as (evs & -> & Hevs). specialize (Hb fuel (replay evs s)).
  destruct (body fuel (replay evs s)) as [[] s2|e s2|]; [| |exact I].
  - destruct Hb as (evs2 & -> & Hevs2).
    specialize (IH fuel (replay evs2 (replay evs s))).
    destruct (while_loop k cond body fuel (replay evs2 (replay evs s)));
      try exact I;
      (apply traced_then with evs; [|exact Hevs]);
      now apply traced_then with evs2.
  - now apply traced_then with evs.
Qed.

Lemma traced_while P cond body :
  traced P cond -> traced P body -> traced P (while cond body).
Proof.
  intros Hc Hb fuel s. unfold while.
  apply (traced_while_loop P cond body Hc Hb fuel fuel s).
Qed.

Lemma traced_for_each P {A} (xs : list A) (body : A -> M unit) :
  (forall x, traced P (body x)) -> traced P (for_each xs body).
Proof.
  intro Hb. induction xs as [|x xs IH]; simpl.
  - apply traced_ret.
  - apply traced_bind; [apply Hb | intros _; exact IH].
Qed.

Lemma traced_get_self P {A} (f : EPD_2in13_B_V4 -> M A) :
  (forall s0, traced P (f s0)) -> traced P (bind get_self f).
Proof. intros Hf fuel s. unfold bind, get_self. apply Hf. Qed.

(** The primitives. *)

Lemma traced_print P msg : P (EvPrint msg) -> traced P (print msg).
Proof. intros H fuel s. now apply traced_one. Qed.

Lemma traced_delay_ms P t : P (EvDelay t) -> traced P (delay_ms t).
Proof. intros H fuel s. now apply traced_one. Qed.

Lemma traced_digital_write P pin v :
  P (EvPin pin v) -> traced P (digital_write pin v).
Proof.
  intros H fuel s. unfold digital_write.
  destruct pin; (apply traced_now || now apply traced_one).
Qed.

Lemma traced_digital_read P pin :
  (forall v, P (EvBusy v)) -> traced P (digital_read pin).
Proof.
  intros H fuel s. unfold digital_read.
  destruct pin; (apply traced_now || now apply traced_one).
Qed.

Lemma traced_spi_try_lock P : P EvLock -> traced P spi_try_lock.
Proof.
  intros H fuel s. unfold spi_try_lock.
  destruct (spi_locked s); [apply traced_now | now apply traced_one].
Qed.

Lemma traced_spi_configure P b ph po :
  P (EvConfigure b ph po) -> traced P (spi_configure b ph po).
Proof.
  intros H fuel s. unfold spi_configure.
  destruct (negb (spi_locked s)); [apply traced_now|].
  destruct (bus_fault s (transfers s));
    (apply traced_now || now apply traced_one).
Qed.

Lemma traced_spi_write P data :
  P (EvWrite data) -> traced P (spi_write data).
Proof.
  intros H fuel s. unfold spi_write.
  destruct (negb (spi_locked s)); [apply traced_now|].
  destruct (bus_fault s (transfers s));
    (apply traced_now || now apply traced_one).
Qed.

Lemma traced_spi_unlock P : P EvUnlock -> traced P spi_unlock.
Proof. intros H fuel s. now apply traced_one. Qed.

Lemma traced_bytearray P data : traced P (bytearray data).
Proof.
  intros fuel s. unfold bytearray.
  destruct (forallb is_byte data); apply traced_now.
Qed.

Lemma traced_getitem P buf idx : traced P (getitem buf idx).
Proof.
  intros fuel s. unfold getitem.
  destruct (_ && _); [|apply traced_now].
  destruct (nth_error _ _); apply traced_now.
Qed.

Ltac traced_step :=
  lazymatch goal with
  | |- traced _ (bind get_self _) => apply traced_get_self; intro
  | |- traced _ (bind _ _) => apply traced_bind; [|intro]
  | |- traced _ (for_each _ _) => apply traced_for_each; intro
  | |- traced _ (while _ _) => apply traced_while
  | |- traced _ (try_finally _ _) => apply traced_try_finally
  | |- traced _ (ret _) => apply traced_ret
  | |- traced _ (bytearray _) => apply traced_bytearray
  | |- traced _ (getitem _ _) => apply traced_getitem
  | |- traced _ (print _) => apply traced_print; exact I
  | |- traced _ (delay_ms _) => apply traced_delay_ms; exact I
  | |- traced _ (digital_write _ _) => apply traced_digital_write; exact I
  | |- traced _ (digital_read _) =>
      apply traced_digital_read; intro; exact I
  | |- traced _ spi_try_lock => apply traced_spi_try_lock; exact I
  | |- traced _ (spi_configure _ _ _) => apply traced_spi_configure; exact I
  | |- traced _ (spi_write _) => apply traced_spi_write; exact I
  | |- traced _ spi_unlock => apply traced_spi_unlock; exact I
  | |- traced _ _ => assumption
  end.

Lemma traced_spi_writebyte data : traced leaves_rst (spi_writebyte data).
Proof. unfold spi_writebyte. repeat traced_step. Qed.

Lemma traced_send_command c : traced leaves_rst (send_command c).
Proof.
  pose proof (traced_spi_writebyte [c]).
  unfold send_command. repeat traced_step.
Qed.

Lemma traced_send_data d : traced leaves_rst (send_data d).
Proof.
  pose proof (traced_spi_writebyte [d]).
  unfold send_data. repeat traced_step.
Qed.

Ltac traced_send :=
  repeat lazymatch goal with
         | |- traced _ (send_command _) => apply traced_send_command
         | |- traced _ (send_data _) => apply traced_send_data
         | |- traced _ _ => traced_step
         end.

Lemma traced_ReadBusy : traced leaves_rst ReadBusy.
Proof. unfold ReadBusy. traced_send. Qed.

Lemma traced_TurnOnDisplay : traced leaves_rst TurnOnDisplay.
Proof.
  pose proof traced_ReadBusy. unfold TurnOnDisplay. traced_send.
Qed.

Lemma traced_SetWindows xs ys xe ye :
  traced leaves_rst (SetWindows xs ys xe ye).
Proof. unfold SetWindows. traced_send. Qed.

Lemma traced_SetCursor x y : traced leaves_rst (SetCursor x y).
Proof. unfold SetCursor. traced_send. Qed.

Lemma traced_Clear b r : traced leaves_rst (Clear b r).
Proof.
  pose proof traced_TurnOnDisplay. unfold Clear. traced_send.
Qed.

Lemma traced_display : traced leaves_rst display.
Proof.
  pose proof traced_TurnOnDisplay. unfold display. traced_send.
Qed.

Lemma traced_same_setup {A} (m : M A) fuel s a s' :
  traced leaves_rst m -> m fuel s = Ok a s' -> same_setup s s'.
Proof.
  intros Hm Hrun. specialize (Hm fuel s). rewrite Hrun in Hm.
  destruct Hm as (evs & -> & _). apply same_setup_replay.
Qed.

(** C9.  Whenever [spi_writebyte] comes back, by returning or by raising,
    the bus lock is released and releasing it is the last thing it did.
    That holds when the configure step fails, when the write step fails and
    when [bytearray] rejects the data; in the last two cases chip-select is
    left low.  The call does come back whenever the lock is free at entry;
    it spins for ever only when somebody else holds the lock. *)
Theorem spi_writebyte_always_unlocks :
  forall (data : list Z) (fuel : nat) (self : EPD_2in13_B_V4),
    match spi_writebyte data fuel self with
    | Ok _ self' =>
        spi_locked self' = false
        /\ log self' = log self ++ transaction_events data
        /\ cs self' = true
    | Raise e self' =>
        spi_locked self' = false
        /\ (exists evs, log self' = log self ++ evs ++ [EvUnlock])
        /\ (bus_fault self (transfers self) <> ConfigureFails ->
            cs self' = false)
    | Diverge => fuel = 0%nat \/ spi_locked self = true
    end.
Proof.
  intros data fuel self. rewrite spi_writebyte_cases.
  destruct fuel as [|fuel]; [now left|].
  destruct (spi_locked self) eqn:Hl; [now right|].
  destruct (bus_fault self (transfers self)) eqn:Hf;
    [destruct (forallb is_byte data) | | destruct (forallb is_byte data)];
    rewrite log_replay;
    (split; [reflexivity|]); split;
    try reflexivity; try congruence;
    try (now exists [EvLock; EvConfigure 4000000 0 0; EvPin CS_PIN false]);
    try (now exists [EvLock]).
Qed.

(** C10.  A [send_command] or [send_data] that completes has produced exactly
    one framed byte: DC set, chip-select driven low, the one-byte bus
    transaction (inside which chip-select is driven low before the byte and
    high after it), chip-select driven high.  So chip-select is high when
    the call is over and is never held low across two bytes. *)
Theorem chip_select_frames_each_byte :
  forall (b : Z) (fuel : nat) (self self' : EPD_2in13_B_V4),
    (send_command b fuel self = Ok tt self' ->
     cs self' = true
     /\ log self' = log self ++
          [EvPin DC_PIN false; EvPin CS_PIN false;
           EvLock; EvConfigure 4000000 0 0; EvPin CS_PIN false; EvWrite [b];
           EvPin CS_PIN true; EvUnlock;
           EvPin CS_PIN true])
    /\ (send_data b fuel self = Ok tt self' ->
        cs self' = true
        /\ log self' = log self ++
             [EvPin DC_PIN true; EvPin CS_PIN false;
              EvLock; EvConfigure 4000000 0 0; EvPin CS_PIN false; EvWrite [b];
              EvPin CS_PIN true; EvUnlock;
              EvPin CS_PIN true]).
Proof.
  intros b fuel self self'. split; intro H.
  - rewrite send_command_cases in H.
    destruct fuel as [|fuel]; [discriminate H|].
    destruct (spi_locked self); [discriminate H|].
    destruct (bus_fault self (transfers self));
      [destruct (is_byte b)| |destruct (is_byte b)]; try discriminate H.
    assert (E : self' = replay (command_events b) self) by congruence.
    subst self'. split; [reflexivity|]. rewrite log_replay. reflexivity.
  - rewrite send_data_cases in H.
    destruct fuel as [|fuel]; [discriminate H|].
    destruct (spi_locked self); [discriminate H|].
    destruct (bus_fault self (transfers self));
      [destruct (is_byte b)| |destruct (is_byte b)]; try discriminate H.
    assert (E : self' = replay (data_events b) self) by congruence.
    subst self'. split; [reflexivity|]. rewrite log_replay. reflexivity.
Qed.

(** ** Window addressing *)

Lemma land_255 z : Z.land z 0xFF = z mod 256.
Proof. change 0xFF with (Z.ones 8). now rewrite Z.land_ones by lia. Qed.

Lemma is_byte_land z : is_byte (Z.land z 0xFF) = true.
Proof.
  rewrite land_255. unfold is_byte.
  pose proof (Z.mod_pos_bound z 256 ltac:(lia)).
  apply andb_true_intro. split; [apply Z.leb_le | apply Z.ltb_lt]; lia.
Qed.

Lemma is_byte_spec z : is_byte z = true <-> 0 <= z < 256.
Proof.
  unfold is_byte. rewrite andb_true_iff, Z.leb_le, Z.ltb_lt. reflexivity.
Qed.

(** Low byte and high byte together are the coordinate modulo 2^16. *)
Lemma low_high_bytes y :
  Z.land y 0xFF + 256 * Z.land (Z.shiftr y 8) 0xFF = y mod 65536.
Proof.
  rewrite !land_255, Z.shiftr_div_pow2 by lia.
  change (2 ^ 8) with 256.
  change 65536 with (256 * 256).
  rewrite Z.rem_mul_r by lia. reflexivity.
Qed.

Ltac byte_side :=
  lazymatch goal with
  | |- is_byte (Z.land _ _) = true => apply is_byte_land
  | |- is_byte _ = true => first [ assumption | reflexivity ]
  end.

Ltac send_one Hr :=
  lazymatch goal with
  | |- yields (send_command _) _ _ _ _ =>
      apply yields_send_command; [ exact Hr | byte_side | lia ]
  | |- yields (send_data _) _ _ _ _ =>
      apply yields_send_data; [ exact Hr | byte_side | lia ]
  end.

Ltac send_then Hr :=
  eapply yields_bind_ready; [ exact Hr | send_one Hr | clear Hr; intro Hr ].

Lemma yields_SetWindows xs ys xe ye fuel s :
  bus_ready s -> (0 < fuel)%nat ->
  yields (SetWindows xs ys xe ye) fuel s tt (SetWindows_events xs ys xe ye).
Proof.
  intros Hr Hfuel. unfold SetWindows, SetWindows_events.
  do 7 send_then Hr. send_one Hr.
Qed.

Lemma yields_SetCursor x y fuel s :
  bus_ready s -> (0 < fuel)%nat ->
  yields (SetCursor x y) fuel s tt (SetCursor_events x y).
Proof.
  intros Hr Hfuel. unfold SetCursor, SetCursor_events.
  do 4 send_then Hr. send_one Hr.
Qed.

Lemma bus_view_SetWindows d xs ys xe ye evs :
  bus_view d (SetWindows_events xs ys xe ye ++ evs)
  = [Command 0x44;
     Data (Z.land (Z.shiftr xs 3) 0xFF);
     Data (Z.land (Z.shiftr xe 3) 0xFF);
     Command 0x45;
     Data (Z.land ys 0xFF); Data (Z.land (Z.shiftr ys 8) 0xFF);
     Data (Z.land ye 0xFF); Data (Z.land (Z.shiftr ye 8) 0xFF)]
    ++ bus_view true evs.
Proof. reflexivity. Qed.

Lemma bus_view_SetCursor d x y evs :
  bus_view d (SetCursor_events x y ++ evs)
  = [Command 0x4E; Data (Z.land x 0xFF);
     Command 0x4F;
     Data (Z.land y 0xFF); Data (Z.land (Z.shiftr y 8) 0xFF)]
    ++ bus_view true evs.
Proof. reflexivity. Qed.

(** C4.  On a working bus [SetWindows] returns, for any four integers, and
    what the controller has seen is command 0x44 with the two X bytes
    [(x >> 3) & 0xFF], then command 0x45 with the four Y bytes, low byte
    before high byte for each coordinate: 2 commands and 6 data bytes.  Every
    data byte is in 0..255, an X byte is [x / 8] modulo 256, and low byte
    plus 256 times high byte is the Y coordinate modulo 2^16. *)
Theorem SetWindows_two_commands_six_data :
  forall (Xstart Ystart Xend Yend : Z) (fuel : nat) (self : EPD_2in13_B_V4),
    bus_ready self ->
    (0 < fuel)%nat ->
    exists self' emitted,
      SetWindows Xstart Ystart Xend Yend fuel self = Ok tt self'
      /\ log self' = log self ++ emitted
      /\ bus_view (dc self) emitted =
           [Command 0x44;
            Data (Z.land (Z.shiftr Xstart 3) 0xFF);
            Data (Z.land (Z.shiftr Xend 3) 0xFF);
            Command 0x45;
            Data (Z.land Ystart 0xFF); Data (Z.land (Z.shiftr Ystart 8) 0xFF);
            Data (Z.land Yend 0xFF); Data (Z.land (Z.shiftr Yend 8) 0xFF)]
      /\ count_frames is_command (bus_view (dc self) emitted) = 2%nat
      /\ count_frames is_data (bus_view (dc self) emitted) = 6%nat
      /\ Z.land (Z.shiftr Xstart 3) 0xFF = (Xstart / 8) mod 256
      /\ Z.land (Z.shiftr Xend 3) 0xFF = (Xend / 8) mod 256
      /\ Z.land Ystart 0xFF + 256 * Z.land (Z.shiftr Ystart 8) 0xFF
         = Ystart mod 65536
      /\ Z.land Yend 0xFF + 256 * Z.land (Z.shiftr Yend 8) 0xFF
         = Yend mod 65536.
Proof.
  intros xs ys xe ye fuel self Hr Hfuel.
  destruct (yields_SetWindows xs ys xe ye fuel self Hr Hfuel) as [Hrun _].
  exists (replay (SetWindows_events xs ys xe ye) self),
         (SetWindows_events xs ys xe ye).
  split; [exact Hrun|].
  split; [apply log_replay|].
  assert (Hview : bus_view (dc self) (SetWindows_events xs ys xe ye) =
           [Command 0x44;
            Data (Z.land (Z.shiftr xs 3) 0xFF);
            Data (Z.land (Z.shiftr xe 3) 0xFF);
            Command 0x45;
            Data (Z.land ys 0xFF); Data (Z.land (Z.shiftr ys 8) 0xFF);
            Data (Z.land ye 0xFF); Data (Z.land (Z.shiftr ye 8) 0xFF)])
    by reflexivity.
  rewrite Hview.
  split; [reflexivity|]. split; [reflexivity|]. split; [reflexivity|].
  split; [|split; [|split]].
  - rewrite land_255, Z.shiftr_div_pow2 by lia. reflexivity.
  - rewrite land_255, Z.shiftr_div_pow2 by lia. reflexivity.
  - apply low_high_bytes.
  - apply low_high_bytes.
Qed.

(** ** Streaming a plane *)

Lemma length_range stop : List.length (range stop) = Z.to_nat stop.
Proof. unfold range. now rewrite length_map, length_seq. Qed.

Lemma in_range i stop : In i (range stop) -> 0 <= i < stop.
Proof.
  unfold range. rewrite in_map_iff. intros (k & <- & Hk).
  apply in_seq in Hk. lia.
Qed.

Lemma yields_get_self {A} (f : EPD_2in13_B_V4 -> M A) fuel s a evs :
  yields (f s) fuel s a evs -> yields (bind get_self f) fuel s a evs.
Proof. intro H. exact H. Qed.

Lemma yields_for_each {A} (body : A -> M unit) (evs_of : A -> list event)
      fuel (xs : list A) :
  (forall x s', In x xs -> bus_ready s' ->
                yields (body x) fuel s' tt (evs_of x)) ->
  forall s, bus_ready s ->
            yields (for_each xs body) fuel s tt (flat_map evs_of xs).
Proof.
  induction xs as [|x xs IH]; intros Hbody s Hr.
  - apply yields_ret, Hr.
  - cbn [for_each flat_map].
    eapply yields_bind_ready; [exact Hr | apply Hbody; [now left | exact Hr]|].
    intro Hr'. apply IH; [|exact Hr'].
    intros y s' Hy. apply Hbody. now right.
Qed.

Lemma plane_events_app bs1 bs2 :
  plane_events (bs1 ++ bs2) = plane_events bs1 ++ plane_events bs2.
Proof. apply flat_map_app. Qed.

Lemma plane_events_map {A} (f : A -> Z) (xs : list A) :
  flat_map (fun x => data_events (f x)) xs = plane_events (map f xs).
Proof.
  unfold plane_events. induction xs as [|x xs IH]; [reflexivity|].
  cbn [flat_map map]. now rewrite IH.
Qed.

Lemma plane_events_rows {A} (row : A -> list Z) (xs : list A) :
  flat_map (fun x => plane_events (row x)) xs
  = plane_events (flat_map row xs).
Proof.
  induction xs as [|x xs IH]; [reflexivity|].
  cbn [flat_map]. now rewrite IH, plane_events_app.
Qed.

Lemma flat_map_const_rows {A} (b : Z) (m : nat) (xs : list A) :
  flat_map (fun _ => repeat b m) xs = repeat b (List.length xs * m).
Proof.
  induction xs as [|x xs IH]; [reflexivity|].
  cbn [flat_map List.length Nat.mul]. now rewrite IH, repeat_app.
Qed.

Lemma map_const_repeat {A} (b : Z) (xs : list A) :
  map (fun _ => b) xs = repeat b (List.length xs).
Proof.
  induction xs as [|x xs IH]; [reflexivity|].
  cbn [map List.length repeat]. now rewrite IH.
Qed.

(** The two nested loops of [Clear] for one plane. *)
Lemma yields_fill b fuel s :
  bus_ready s -> is_byte b = true -> (0 < fuel)%nat ->
  yields (self <- get_self ;;
          for_each (range (height self)) (fun j =>
            for_each (range (byte_stride self)) (fun i =>
              send_data b)))
         fuel s tt (plane_events (repeat b (cells s))).
Proof.
  intros Hr Hb Hfuel. apply yields_get_self.
  replace (plane_events (repeat b (cells s)))
    with (flat_map (fun _ : Z =>
                      flat_map (fun _ : Z => data_events b)
                               (range (byte_stride s)))
                   (range (height s))).
  - apply yields_for_each; [|exact Hr].
    intros j s1 _ Hr1. apply yields_for_each; [|exact Hr1].
    intros i s2 _ Hr2. now apply yields_send_data.
  - rewrite (flat_map_ext _ (fun _ : Z =>
               plane_events (repeat b (Z.to_nat (byte_stride s))))).
    + rewrite plane_events_rows, flat_map_const_rows, length_range.
      reflexivity.
    + intros _. rewrite (plane_events_map (fun _ : Z => b)).
      now rewrite map_const_repeat, length_range.
Qed.

(** Row-major reading of a buffer. *)
Lemma row_firstn {A} (buf : list A) (d : A) k n :
  (k + n <= List.length buf)%nat ->
  map (fun i => nth (i + k) buf d) (seq 0 n) = firstn n (skipn k buf).
Proof.
  intro Hlen.
  apply (nth_ext _ _ (nth (0 + k) buf d) d).
  - rewrite length_map, length_seq, length_firstn, length_skipn. lia.
  - intros m Hm. rewrite length_map, length_seq in Hm.
    rewrite (map_nth (fun i => nth (i + k) buf d)), seq_nth by exact Hm.
    rewrite nth_firstn. destruct (Nat.ltb_spec m n); [|lia].
    rewrite nth_skipn. f_equal. lia.
Qed.

Lemma firstn_plus {A} (l : list A) a b :
  firstn (a + b) l = firstn a l ++ firstn b (skipn a l).
Proof.
  revert l. induction a as [|a IH]; intro l; [reflexivity|].
  destruct l as [|x l]; cbn [Nat.add firstn skipn app].
  - now rewrite firstn_nil.
  - now rewrite IH.
Qed.

Lemma rows_firstn {A} (buf : list A) (d : A) ns : forall nh j0,
  ((j0 + nh) * ns <= List.length buf)%nat ->
  flat_map (fun j => map (fun i => nth (i + j * ns) buf d) (seq 0 ns))
           (seq j0 nh)
  = firstn (nh * ns) (skipn (j0 * ns) buf).
Proof.
  induction nh as [|nh IH]; intros j0 Hlen; [reflexivity|].
  cbn [seq flat_map]. rewrite IH by lia.
  rewrite row_firstn by lia.
  change (S nh * ns)%nat with (ns + nh * ns)%nat.
  rewrite firstn_plus, skipn_skipn.
  reflexivity.
Qed.

Lemma is_byte_byte_value b : is_byte (byte_value b) = true.
Proof.
  apply is_byte_spec. unfold byte_value.
  pose proof (Byte.to_N_bounded b). lia.
Qed.

Lemma getitem_in_bounds buf idx fuel s :
  0 <= idx < Z.of_nat (List.length buf) ->
  getitem buf idx fuel s
  = Ok (byte_value (nth (Z.to_nat idx) buf x00)) s.
Proof.
  intro H. unfold getitem.
  destruct (Z.ltb_spec idx 0) as [Hneg|_]; [lia|].
  destruct (Z.leb_spec 0 idx) as [_|Hneg]; [|lia].
  destruct (Z.ltb_spec idx (Z.of_nat (List.length buf))) as [_|Hbig]; [|lia].
  cbn [andb].
  rewrite (nth_error_nth' buf x00) by lia. reflexivity.
Qed.

Lemma flat_map_of_map {A B C} (g : A -> B) (f : B -> list C) (xs : list A) :
  flat_map f (map g xs) = flat_map (fun x => f (g x)) xs.
Proof.
  induction xs as [|x xs IH]; [reflexivity|].
  cbn [map flat_map]. now rewrite IH.
Qed.

Lemma flat_map_ext_in {A B} (f g : A -> list B) (xs : list A) :
  (forall x, In x xs -> f x = g x) -> flat_map f xs = flat_map g xs.
Proof.
  induction xs as [|x xs IH]; intro H; [reflexivity|].
  cbn [flat_map]. rewrite (H x) by now left.
  rewrite IH; [reflexivity|]. intros y Hy. apply H. now right.
Qed.

(** Reading [buf[i + j * stride]] row by row gives the buffer in order. *)
Lemma row_major_read (buf : list byte) (h st : Z) :
  (Z.to_nat h * Z.to_nat st <= List.length buf)%nat ->
  flat_map (fun j =>
              map (fun i => byte_value (nth (Z.to_nat (i + j * st)) buf x00))
                  (range st))
           (range h)
  = map byte_value (firstn (Z.to_nat h * Z.to_nat st) buf).
Proof.
  intro Hlen. unfold range. rewrite flat_map_of_map.
  rewrite <- firstn_map.
  transitivity (firstn (Z.to_nat h * Z.to_nat st)
                       (skipn (0 * Z.to_nat st) (map byte_value buf)));
    [|reflexivity].
  rewrite <- (rows_firstn (map byte_value buf) (byte_value x00)
                (Z.to_nat st) (Z.to_nat h) 0)
    by (rewrite length_map; lia).
  apply flat_map_ext_in. intros nj Hj.
  rewrite map_map. apply map_ext_in. intros ni Hi.
  apply in_seq in Hi.
  rewrite (map_nth byte_value). f_equal. f_equal.
  rewrite <- (Z2Nat.id st) at 1 by lia.
  rewrite <- Nat2Z.inj_mul, <- Nat2Z.inj_add, Nat2Z.id. reflexivity.
Qed.

(** The two nested loops of [display] for one plane. *)
Lemma yields_plane (buf : list byte) (h st : Z) fuel s :
  bus_ready s ->
  (Z.to_nat h * Z.to_nat st <= List.length buf)%nat ->
  (0 < fuel)%nat ->
  yields (for_each (range h) (fun j =>
            for_each (range st) (fun i =>
              b <- getitem buf (i + j * st) ;;
              send_data b)))
         fuel s tt
         (plane_events (map byte_value
                            (firstn (Z.to_nat h * Z.to_nat st) buf))).
Proof.
  intros Hr Hlen Hfuel.
  rewrite <- (row_major_read buf h st Hlen), <- plane_events_rows.
  apply yields_for_each; [|exact Hr].
  intros j s1 Hj Hr1. rewrite <- plane_events_map.
  apply yields_for_each; [|exact Hr1].
  intros i s2 Hi Hr2.
  apply in_range in Hj. apply in_range in Hi.
  assert (Hidx : 0 <= i + j * st < Z.of_nat (List.length buf)).
  { assert (i + j * st < Z.of_nat (Z.to_nat h * Z.to_nat st)).
    { rewrite Nat2Z.inj_mul, !Z2Nat.id by lia. nia. }
    split; [nia | lia]. }
  unfold yields, bind. rewrite (getitem_in_bounds buf _ fuel s2 Hidx).
  apply yields_send_data; [exact Hr2 | apply is_byte_byte_value | exact Hfuel].
Qed.

Lemma bus_view_plane bytes : forall d c evs,
  bus_view d (plane_events bytes ++ command_events c ++ evs)
  = map Data bytes ++ Command c :: bus_view false evs.
Proof.
  induction bytes as [|b bytes IH]; intros d c evs.
  - apply bus_view_command.
  - unfold plane_events. cbn [flat_map]. fold (plane_events bytes).
    rewrite <- app_assoc, bus_view_data, IH. reflexivity.
Qed.

Lemma count_busy_reads_plane bytes : count_busy_reads (plane_events bytes) = 0%nat.
Proof.
  induction bytes as [|b bytes IH]; [reflexivity|].
  unfold plane_events. cbn [flat_map]. fold (plane_events bytes).
  rewrite count_busy_reads_app, IH. reflexivity.
Qed.

Lemma first_idle_at_replay evs s n :
  count_busy_reads evs = 0%nat ->
  first_idle_at s n -> first_idle_at (replay evs s) n.
Proof.
  intros Hc Hi. unfold first_idle_at.
  rewrite busy_reads_replay, Hc, Nat.add_0_r.
  now rewrite (same_busy_line _ _ (same_setup_replay evs s)).
Qed.

(** ** Full-frame operations *)

Lemma cells_replay evs s : cells (replay evs s) = cells s.
Proof.
  unfold cells, byte_stride.
  destruct (same_setup_replay evs s) as [Hw Hh _ _ _ _].
  now rewrite Hw, Hh.
Qed.

Ltac quiet_events :=
  repeat (apply first_idle_at_replay;
          [first [ apply count_busy_reads_plane | reflexivity ]|]).

Lemma yields_TurnOnDisplay n fuel s :
  bus_ready s -> first_idle_at s n -> (n < fuel)%nat ->
  yields TurnOnDisplay fuel s tt (TurnOnDisplay_events n).
Proof.
  intros Hr Hi Hfuel. unfold TurnOnDisplay, TurnOnDisplay_events.
  send_then Hr.
  apply yields_ReadBusy; [exact Hr | | exact Hfuel].
  quiet_events. exact Hi.
Qed.

Lemma yields_fill_cells b k fuel s :
  bus_ready s -> is_byte b = true -> (0 < fuel)%nat -> cells s = k ->
  yields (self <- get_self ;;
          for_each (range (height self)) (fun j =>
            for_each (range (byte_stride self)) (fun i =>
              send_data b)))
         fuel s tt (plane_events (repeat b k)).
Proof. intros Hr Hb Hfuel <-. now apply yields_fill. Qed.

Lemma yields_Clear b r n fuel s :
  bus_ready s -> is_byte b = true -> is_byte r = true ->
  first_idle_at s n -> (n < fuel)%nat ->
  yields (Clear b r) fuel s tt
         (transfer_events (repeat b (cells s)) (repeat r (cells s)) n).
Proof.
  intros Hr Hb Hc Hi Hfuel. unfold Clear, transfer_events.
  send_then Hr.
  eapply yields_bind_ready;
    [ exact Hr
    | apply yields_fill_cells;
      [exact Hr | exact Hb | lia | now rewrite !cells_replay]
    | clear Hr; intro Hr ].
  send_then Hr.
  eapply yields_bind_ready;
    [ exact Hr
    | apply yields_fill_cells;
      [exact Hr | exact Hc | lia | now rewrite !cells_replay]
    | clear Hr; intro Hr ].
  apply yields_TurnOnDisplay; [exact Hr | | exact Hfuel].
  quiet_events. exact Hi.
Qed.

Lemma yields_display_plane (plane : EPD_2in13_B_V4 -> list byte)
      (buf : list byte) k fuel s :
  bus_ready s -> (0 < fuel)%nat ->
  cells s = k -> plane s = buf -> (k <= List.length buf)%nat ->
  yields (self <- get_self ;;
          for_each (range (height self)) (fun j =>
            for_each (range (byte_stride self)) (fun i =>
              b <- getitem (plane self) (i + j * byte_stride self) ;;
              send_data b)))
         fuel s tt (plane_events (map byte_value (firstn k buf))).
Proof.
  intros Hr Hfuel <- <- Hlen. apply yields_get_self.
  now apply yields_plane.
Qed.

Lemma yields_display n fuel s :
  bus_ready s ->
  (cells s <= List.length (framebuffer_black_array s))%nat ->
  (cells s <= List.length (framebuffer_red_array s))%nat ->
  first_idle_at s n -> (n < fuel)%nat ->
  yields display fuel s tt
         (transfer_events
            (map byte_value (firstn (cells s) (framebuffer_black_array s)))
            (map byte_value (firstn (cells s) (framebuffer_red_array s)))
            n).
Proof.
  intros Hr Hb Hc Hi Hfuel. unfold display, transfer_events.
  send_then Hr.
  eapply yields_bind_ready;
    [ exact Hr
    | apply (yields_display_plane framebuffer_black_array);
      [ exact Hr | lia | now rewrite !cells_replay
      | now rewrite !(same_black _ _ (same_setup_replay _ _))
      | exact Hb ]
    | clear Hr; intro Hr ].
  send_then Hr.
  eapply yields_bind_ready;
    [ exact Hr
    | apply (yields_display_plane framebuffer_red_array);
      [ exact Hr | lia | now rewrite !cells_replay
      | now rewrite !(same_red _ _ (same_setup_replay _ _))
      | exact Hc ]
    | clear Hr; intro Hr ].
  apply yields_TurnOnDisplay; [exact Hr | | exact Hfuel].
  quiet_events. exact Hi.
Qed.

Lemma bus_view_transfer d black red n :
  bus_view d (transfer_events black red n) = transfer_frames black red n.
Proof.
  unfold transfer_events, transfer_frames, TurnOnDisplay_events.
  rewrite bus_view_command, !bus_view_plane.
  rewrite <- (app_nil_r (ReadBusy_events n)), bus_view_ReadBusy.
  cbn [bus_view]. now rewrite app_nil_r.
Qed.

Lemma count_frames_app p fs1 fs2 :
  count_frames p (fs1 ++ fs2)
  = (count_frames p fs1 + count_frames p fs2)%nat.
Proof. unfold count_frames. now rewrite filter_app, length_app. Qed.

Lemma count_data_map_Data bytes :
  count_frames is_data (map Data bytes) = List.length bytes.
Proof.
  unfold count_frames. induction bytes as [|b bytes IH]; [reflexivity|].
  cbn [map filter is_data List.length]. now rewrite IH.
Qed.

Lemma count_data_status n :
  count_frames is_data (repeat (Command 0x71) n) = 0%nat.
Proof.
  unfold count_frames. induction n as [|n IH]; [reflexivity|].
  cbn [repeat filter is_data]. exact IH.
Qed.

Lemma count_data_transfer black red n :
  count_frames is_data (transfer_frames black red n)
  = (List.length black + List.length red)%nat.
Proof.
  unfold transfer_frames.
  change (Command 36 :: map Data black
          ++ Command 38 :: map Data red
          ++ Command 32 :: repeat (Command 113) (S n))
    with ([Command 36] ++ map Data black
          ++ [Command 38] ++ map Data red
          ++ [Command 32] ++ repeat (Command 113) (S n)).
  rewrite !count_frames_app, !count_data_map_Data, count_data_status.
  cbn. lia.
Qed.

Lemma before_code_data c bytes fs :
  before_code c (map Data bytes ++ fs) = map Data bytes ++ before_code c fs.
Proof.
  induction bytes as [|b bytes IH]; [reflexivity|].
  cbn [map app before_code is_code]. now rewrite IH.
Qed.

Lemma before_trigger_transfer black red n :
  before_code 0x20 (transfer_frames black red n)
  = Command 0x24 :: map Data black ++ Command 0x26 :: map Data red.
Proof.
  unfold transfer_frames. cbn [before_code is_code Z.eqb Pos.eqb].
  rewrite before_code_data. cbn [before_code is_code Z.eqb Pos.eqb].
  rewrite before_code_data. cbn [before_code is_code Z.eqb Pos.eqb].
  now rewrite app_nil_r.
Qed.

Lemma count_command_map_Data bytes :
  count_frames is_command (map Data bytes) = 0%nat.
Proof.
  unfold count_frames. induction bytes as [|b bytes IH]; [reflexivity|].
  cbn [map filter is_command]. exact IH.
Qed.

Lemma fresh_model_geometry busy fault rot :
  model_geometry (fresh busy fault rot).
Proof.
  unfold model_geometry, fresh, bytearray_zeros. cbn [width height
    framebuffer_black_array framebuffer_red_array].
  rewrite repeat_length. repeat split.
Qed.

Lemma model_geometry_cells self :
  model_geometry self -> cells self = Z.to_nat 4000.
Proof.
  intros (Hw & Hh & _). unfold cells, byte_stride. rewrite Hw, Hh.
  reflexivity.
Qed.

(** C3.  For fill bytes [colorblack] and [colorred], on a working bus whose
    busy line goes idle after [n] asserted reads, [Clear] returns and the
    controller has seen: command 0x24, then [height * int(width / 8)] data
    bytes all equal to [colorblack], command 0x26, then as many data bytes
    all equal to [colorred], then command 0x20 and the [n + 1] status
    commands of the busy poll.  That is [2 * height * int(width / 8)] data
    bytes in all. *)
Theorem Clear_streams_both_fills :
  forall (colorblack colorred : Z) (n fuel : nat) (self : EPD_2in13_B_V4),
    bus_ready self ->
    0 <= colorblack < 256 ->
    0 <= colorred < 256 ->
    first_idle_at self n ->
    (n < fuel)%nat ->
    exists self' emitted,
      Clear colorblack colorred fuel self = Ok tt self'
      /\ log self' = log self ++ emitted
      /\ bus_view (dc self) emitted =
           Command 0x24 :: repeat (Data colorblack) (cells self)
           ++ Command 0x26 :: repeat (Data colorred) (cells self)
           ++ Command 0x20 :: repeat (Command 0x71) (S n)
      /\ count_frames is_data (bus_view (dc self) emitted)
         = (2 * cells self)%nat
      /\ cells self
         = (Z.to_nat (height self) * Z.to_nat (byte_stride self))%nat
      /\ emitted =
           command_events 0x24
           ++ plane_events (repeat colorblack (cells self))
           ++ command_events 0x26
           ++ plane_events (repeat colorred (cells self))
           ++ command_events 0x20 ++ ReadBusy_events n.
Proof.
  intros b r n fuel self Hr Hb Hc Hi Hfuel.
  apply is_byte_spec in Hb. apply is_byte_spec in Hc.
  destruct (yields_Clear b r n fuel self Hr Hb Hc Hi Hfuel) as [Hrun _].
  eexists. eexists. split; [exact Hrun|].
  split; [apply log_replay|].
  rewrite bus_view_transfer.
  split; [|split; [|split; reflexivity]].
  - unfold transfer_frames. now rewrite !map_repeat.
  - rewrite count_data_transfer, !repeat_length. lia.
Qed.

(** C5.  The constants 122 and 250 give an internal width of 128, a stride
    of 16 bytes and two planes of 4000 bytes each.  On an object with that
    geometry, whatever the planes hold, [display] on a working bus returns
    and the controller has seen 0x24, the 4000 black bytes in order, 0x26,
    the 4000 red bytes in order, 0x20 and the status commands of the busy
    poll: 8000 data bytes in all, and before the trigger 0x20 exactly the
    two commands 0x24 and 0x26. *)
Theorem display_emits_8000_data_bytes :
  forall (busy : nat -> bool) (fault : nat -> Fault) (rot : Z),
    width (fresh busy fault rot) = 128
    /\ byte_stride (fresh busy fault rot) = 16
    /\ Z.of_nat (List.length (framebuffer_black_array (fresh busy fault rot)))
       = 4000
    /\ Z.of_nat (List.length (framebuffer_red_array (fresh busy fault rot)))
       = 4000
    /\ forall (n fuel : nat) (self : EPD_2in13_B_V4),
        model_geometry self ->
        bus_ready self ->
        first_idle_at self n ->
        (n < fuel)%nat ->
        exists self' emitted,
          display fuel self = Ok tt self'
          /\ log self' = log self ++ emitted
          /\ bus_view (dc self) emitted =
               Command 0x24
               :: map Data (map byte_value (framebuffer_black_array self))
               ++ Command 0x26
               :: map Data (map byte_value (framebuffer_red_array self))
               ++ Command 0x20 :: repeat (Command 0x71) (S n)
          /\ Z.of_nat (count_frames is_data (bus_view (dc self) emitted))
             = 8000
          /\ filter is_command
                    (before_code 0x20 (bus_view (dc self) emitted))
             = [Command 0x24; Command 0x26].
Proof.
  intros busy fault rot.
  split; [reflexivity|]. split; [reflexivity|].
  split; [unfold fresh, bytearray_zeros; cbn [framebuffer_black_array];
          rewrite repeat_length; reflexivity|].
  split; [unfold fresh, bytearray_zeros; cbn [framebuffer_red_array];
          rewrite repeat_length; reflexivity|].
  intros n fuel self Hg Hr Hi Hfuel.
  pose proof (model_geometry_cells self Hg) as Hcells.
  destruct Hg as (Hw & Hh & Hb & Hc).
  change (Z.to_nat (EPD_HEIGHT * internal_width / 8)) with (Z.to_nat 4000)
    in Hb, Hc.
  destruct (yields_display n fuel self Hr) as [Hrun _];
    [rewrite Hcells, Hb; apply Nat.le_refl
    |rewrite Hcells, Hc; apply Nat.le_refl
    |exact Hi | exact Hfuel |].
  exists (replay
            (transfer_events
               (map byte_value
                    (firstn (cells self) (framebuffer_black_array self)))
               (map byte_value
                    (firstn (cells self) (framebuffer_red_array self)))
               n) self).
  eexists. split; [exact Hrun|].
  split; [apply log_replay|].
  rewrite bus_view_transfer, Hcells.
  rewrite (firstn_all2 (framebuffer_black_array self))
    by (rewrite Hb; apply Nat.le_refl).
  rewrite (firstn_all2 (framebuffer_red_array self))
    by (rewrite Hc; apply Nat.le_refl).
  split; [reflexivity|]. split.
  - rewrite count_data_transfer, !length_map, Hb, Hc.
    rewrite Nat2Z.inj_add, Z2Nat.id by lia. reflexivity.
  - rewrite before_trigger_transfer.
    change (Command 36 :: map Data (map byte_value (framebuffer_black_array self))
            ++ Command 38
            :: map Data (map byte_value (framebuffer_red_array self)))
      with ([Command 36]
            ++ map Data (map byte_value (framebuffer_black_array self))
            ++ [Command 38]
            ++ map Data (map byte_value (framebuffer_red_array self))).
    rewrite !filter_app.
    pose proof (count_command_map_Data
                  (map byte_value (framebuffer_black_array self))) as H1.
    pose proof (count_command_map_Data
                  (map byte_value (framebuffer_red_array self))) as H2.
    unfold count_frames in H1, H2.
    apply length_zero_iff_nil in H1. apply length_zero_iff_nil in H2.
    rewrite H1, H2. reflexivity.
Qed.

(** ** Clear as a transfer of uniform planes *)

Lemma bind_cong {A B} (m1 m2 : M A) (f1 f2 : A -> M B) fuel s :
  m1 fuel s = m2 fuel s ->
  (forall a s', m2 fuel s = Ok a s' -> f1 a fuel s' = f2 a fuel s') ->
  bind m1 f1 fuel s = bind m2 f2 fuel s.
Proof.
  intros Hm Hf. unfold bind. rewrite Hm.
  destruct (m2 fuel s) as [a s'| |]; [now apply Hf | reflexivity..].
Qed.

Lemma for_each_cong {A} (body1 body2 : A -> M unit) fuel (xs : list A) :
  (forall x s, In x xs -> body1 x fuel s = body2 x fuel s) ->
  forall s, for_each xs body1 fuel s = for_each xs body2 fuel s.
Proof.
  induction xs as [|x xs IH]; intros H s; [reflexivity|].
  cbn [for_each]. apply bind_cong.
  - apply H. now left.
  - intros _ s' _. apply IH. intros y s0 Hy. apply H. now right.
Qed.

(** On a plane that holds [k] copies of [b], reading the cells is sending
    [b]. *)
Lemma uniform_plane (plane : EPD_2in13_B_V4 -> list byte) b k fuel s :
  plane s = repeat b k -> (cells s <= k)%nat ->
  (self <- get_self ;;
   for_each (range (height self)) (fun j =>
     for_each (range (byte_stride self)) (fun i =>
       x <- getitem (plane self) (i + j * byte_stride self) ;;
       send_data x))) fuel s
  = (self <- get_self ;;
     for_each (range (height self)) (fun j =>
       for_each (range (byte_stride self)) (fun i =>
         send_data (byte_value b)))) fuel s.
Proof.
  intros Hp Hk. unfold bind at 1 3, get_self. rewrite Hp.
  apply for_each_cong. intros j s1 Hj.
  apply for_each_cong. intros i s2 Hi.
  apply in_range in Hj. apply in_range in Hi.
  assert (Hidx : (Z.to_nat (i + j * byte_stride s) < k)%nat).
  { unfold cells in Hk.
    assert (i + j * byte_stride s
            < Z.of_nat (Z.to_nat (height s) * Z.to_nat (byte_stride s))).
    { rewrite Nat2Z.inj_mul, !Z2Nat.id by lia. nia. }
    lia. }
  unfold bind. rewrite getitem_in_bounds.
  - now rewrite nth_repeat_lt.
  - rewrite repeat_length. split; [nia | lia].
Qed.

Lemma traced_fill b :
  traced leaves_rst
    (self <- get_self ;;
     for_each (range (height self)) (fun j =>
       for_each (range (byte_stride self)) (fun i => send_data b))).
Proof. traced_send. Qed.

(** C8.  When the black plane holds 4000 copies of [b] and the red plane
    4000 copies of [r] (width 128, height 250), [display] and
    [Clear(b, r)] are the same computation: from the same object they end
    the same way with the same log, whatever the bus and the busy line do.
    On a working bus whose busy line goes idle both return, and the
    controller has seen 0x24, 4000 times [b], 0x26, 4000 times [r], 0x20 and
    the status commands. *)
Theorem display_of_uniform_planes_is_Clear :
  forall (b r : byte) (n fuel : nat) (self : EPD_2in13_B_V4),
    width self = 128 ->
    height self = 250 ->
    framebuffer_black_array self = repeat b (Z.to_nat 4000) ->
    framebuffer_red_array self = repeat r (Z.to_nat 4000) ->
    display fuel self = Clear (byte_value b) (byte_value r) fuel self
    /\ (bus_ready self -> first_idle_at self n -> (n < fuel)%nat ->
        exists self' emitted,
          display fuel self = Ok tt self'
          /\ Clear (byte_value b) (byte_value r) fuel self = Ok tt self'
          /\ log self' = log self ++ emitted
          /\ bus_view (dc self) emitted =
               Command 0x24 :: repeat (Data (byte_value b)) (Z.to_nat 4000)
               ++ Command 0x26 :: repeat (Data (byte_value r)) (Z.to_nat 4000)
               ++ Command 0x20 :: repeat (Command 0x71) (S n)).
Proof.
  intros b r n fuel self Hw Hh Hb Hc.
  assert (Hcells : cells self = Z.to_nat 4000).
  { unfold cells, byte_stride. rewrite Hw, Hh. reflexivity. }
  assert (Heq : display fuel self
                = Clear (byte_value b) (byte_value r) fuel self).
  { unfold display, Clear.
    apply bind_cong; [reflexivity|]. intros [] s1 H1.
    pose proof (traced_same_setup _ _ _ _ _ (traced_send_command _) H1) as S1.
    assert (C1 : cells s1 = cells self).
    { unfold cells, byte_stride.
      now rewrite (same_width _ _ S1), (same_height _ _ S1). }
    apply bind_cong.
    { apply (uniform_plane framebuffer_black_array b (Z.to_nat 4000)).
      - now rewrite (same_black _ _ S1).
      - rewrite C1, Hcells. apply Nat.le_refl. }
    intros [] s2 H2.
    pose proof (traced_same_setup _ _ _ _ _ (traced_fill _) H2) as S2.
    apply bind_cong; [reflexivity|]. intros [] s3 H3.
    pose proof (traced_same_setup _ _ _ _ _ (traced_send_command _) H3) as S3.
    pose proof (same_setup_trans _ _ _ S1 (same_setup_trans _ _ _ S2 S3))
      as S13.
    apply bind_cong; [|reflexivity].
    apply (uniform_plane framebuffer_red_array r (Z.to_nat 4000)).
    - now rewrite (same_red _ _ S13).
    - unfold cells, byte_stride.
      rewrite (same_width _ _ S13), (same_height _ _ S13), Hw, Hh.
      apply Nat.le_refl. }
  split; [exact Heq|].
  intros Hr Hi Hfuel.
  destruct (yields_Clear (byte_value b) (byte_value r) n fuel self Hr
              (is_byte_byte_value b) (is_byte_byte_value r) Hi Hfuel)
    as [Hrun _].
  eexists. eexists. split; [rewrite Heq; exact Hrun|].
  split; [exact Hrun|].
  split; [apply log_replay|].
  rewrite bus_view_transfer, Hcells. unfold transfer_frames.
  now rewrite !map_repeat.
Qed.

(** ** Initialisation *)

Lemma first_idle_from_eq busy a b n :
  first_idle_from busy a n -> a = b -> first_idle_from busy b n.
Proof. now intros H <-. Qed.

Lemma first_idle_at_replay_from evs s n :
  first_idle_from (busy_line s) (busy_reads s + count_busy_reads evs) n ->
  first_idle_at (replay evs s) n.
Proof.
  intro H. unfold first_idle_at.
  now rewrite busy_reads_replay, (same_busy_line _ _ (same_setup_replay evs s)).
Qed.

Lemma count_busy_reads_frame d b : count_busy_reads (frame_events d b) = 0%nat.
Proof. reflexivity. Qed.

Lemma width_replay evs s : width (replay evs s) = width s.
Proof. apply (same_width _ _ (same_setup_replay evs s)). Qed.

Lemma height_replay evs s : height (replay evs s) = height s.
Proof. apply (same_height _ _ (same_setup_replay evs s)). Qed.

Lemma yields_then_ret {A B} (m : M A) (b : B) fuel s a evs :
  yields m fuel s a evs -> yields (m ;; ret b) fuel s b evs.
Proof.
  intros [H L]. unfold yields, bind. rewrite H. split; [reflexivity | exact L].
Qed.

Lemma yields_reset fuel s :
  spi_locked s = false -> yields reset fuel s tt reset_events.
Proof. intro H. split; [reflexivity | exact H]. Qed.

Ltac count_reads :=
  repeat first
    [ rewrite count_busy_reads_app
    | rewrite count_busy_reads_ReadBusy
    | rewrite count_busy_reads_plane ];
  unfold command_events, data_events;
  rewrite ?count_busy_reads_frame.

Ltac poll_then Hr Hidle :=
  eapply yields_bind_ready;
  [ exact Hr
  | apply yields_ReadBusy;
    [ exact Hr
    | rewrite <- ?replay_app; apply first_idle_at_replay_from;
      eapply first_idle_from_eq; [exact Hidle | count_reads; cbn; lia]
    | lia ]
  | clear Hr; intro Hr ].

Lemma yields_init n1 n2 n3 fuel s :
  bus_ready s ->
  first_idle_at s n1 ->
  first_idle_from (busy_line s) (busy_reads s + S n1) n2 ->
  first_idle_from (busy_line s) (busy_reads s + S n1 + S n2) n3 ->
  (n1 < fuel)%nat -> (n2 < fuel)%nat -> (n3 < fuel)%nat ->
  yields init fuel s 0 (init_events s n1 n2 n3).
Proof.
  intros Hr H1 H2 H3 F1 F2 F3. unfold init, init_events.
  eapply yields_bind_ready;
    [exact Hr | apply yields_reset, Hr | clear Hr; intro Hr].
  poll_then Hr H1.
  send_then Hr.
  poll_then Hr H2.
  do 6 send_then Hr.
  apply yields_get_self. rewrite !width_replay, !height_replay.
  eapply yields_bind_ready;
    [exact Hr | apply yields_SetWindows; [exact Hr | lia]
    | clear Hr; intro Hr].
  eapply yields_bind_ready;
    [exact Hr | apply yields_SetCursor; [exact Hr | lia]
    | clear Hr; intro Hr].
  do 7 send_then Hr.
  poll_then Hr H3.
  apply (yields_then_ret _ _ _ _ tt), yields_print, Hr.
Qed.

(** A poll that returns stopped at the first idle read. *)
Lemma polling_loop_inv k : forall fuel s s',
  while_loop k (digital_read BUSY_PIN) (send_command 0x71 ;; delay_ms 10)
             fuel s = Ok tt s' ->
  exists n, s' = replay (polling_events n) s
            /\ first_idle_at s n /\ (n < k)%nat.
Proof.
  induction k as [|k IH]; intros fuel s s' H; [discriminate H|].
  rewrite while_loop_S, digital_read_busy in H.
  destruct (busy_line s (busy_reads s)) eqn:Hb.
  - unfold bind in H. rewrite send_command_cases in H.
    destruct fuel as [|fuel]; [discriminate H|].
    change (spi_locked (apply_event (EvBusy true) s)) with (spi_locked s) in H.
    change (bus_fault (apply_event (EvBusy true) s)) with (bus_fault s) in H.
    change (transfers (apply_event (EvBusy true) s)) with (transfers s) in H.
    destruct (spi_locked s); [discriminate H|].
    destruct (bus_fault s (transfers s)); try discriminate H.
    change (is_byte 113) with true in H. cbv iota in H.
    change (delay_ms 10 (S fuel)
              (replay (command_events 113) (apply_event (EvBusy true) s)))
      with (@Ok unit tt (replay poll_events s)) in H.
    cbv iota in H.
    destruct (IH _ _ _ H) as (n & -> & Hi & Hn).
    exists (S n). split; [|split; [|lia]].
    + now rewrite polling_events_S, replay_app.
    + apply (first_idle_at_step s (replay poll_events s) n Hb);
        [reflexivity | reflexivity | exact Hi].
  - exists 0%nat.
    assert (E : apply_event (EvBusy false) s = s') by congruence.
    split; [now rewrite <- E|]. split; [|lia].
    split; [intros k' Hk'; lia | now rewrite Nat.add_0_r].
Qed.

Lemma bind_inv {A B} (m : M A) (f : A -> M B) fuel s b s' :
  bind m f fuel s = Ok b s' ->
  exists a s1, m fuel s = Ok a s1 /\ f a fuel s1 = Ok b s'.
Proof.
  unfold bind. destruct (m fuel s) as [a s1|e s1|]; try discriminate.
  intro H. now exists a, s1.
Qed.

Lemma Ok_inv {A} (a b : A) s s' : Ok a s = Ok b s' -> a = b /\ s = s'.
Proof. intro H. split; congruence. Qed.

Lemma print_inv msg fuel s u s' :
  print msg fuel s = Ok u s' -> s' = replay [EvPrint msg] s.
Proof. intro H. apply Ok_inv in H. symmetry. apply H. Qed.

Lemma send_command_inv c fuel s u s' :
  send_command c fuel s = Ok u s' ->
  s' = replay (command_events c) s
  /\ spi_locked s = false /\ (0 < fuel)%nat.
Proof.
  rewrite send_command_cases.
  destruct fuel as [|fuel]; [discriminate|].
  destruct (spi_locked s); [discriminate|].
  destruct (bus_fault s (transfers s));
    [destruct (is_byte c)| |destruct (is_byte c)]; try discriminate.
  intro H. apply Ok_inv in H. split; [symmetry; apply H|]. split; [reflexivity|lia].
Qed.

Lemma send_data_inv d fuel s u s' :
  send_data d fuel s = Ok u s' ->
  s' = replay (data_events d) s
  /\ spi_locked s = false /\ (0 < fuel)%nat.
Proof.
  rewrite send_data_cases.
  destruct fuel as [|fuel]; [discriminate|].
  destruct (spi_locked s); [discriminate|].
  destruct (bus_fault s (transfers s));
    [destruct (is_byte d)| |destruct (is_byte d)]; try discriminate.
  intro H. apply Ok_inv in H. split; [symmetry; apply H|]. split; [reflexivity|lia].
Qed.

Lemma ReadBusy_inv fuel s s' :
  ReadBusy fuel s = Ok tt s' ->
  exists n, s' = replay (ReadBusy_events n) s
            /\ first_idle_at s n /\ (n < fuel)%nat.
Proof.
  intro H. unfold ReadBusy in H.
  apply bind_inv in H. destruct H as (u1 & s1 & H1 & H).
  apply bind_inv in H. destruct H as (u2 & s2 & H2 & H).
  apply bind_inv in H. destruct H as (u3 & s3 & H3 & H4).
  apply print_inv in H1. apply print_inv in H4.
  apply send_command_inv in H2. destruct H2 as (H2 & _ & _).
  destruct u3. apply polling_loop_inv in H3.
  destruct H3 as (n & H3 & Hi & Hn).
  exists n. split; [|split; [|exact Hn]].
  - rewrite ReadBusy_events_split, !replay_app. congruence.
  - subst s2 s1. exact Hi.
Qed.

Lemma closes_tail : closes init_tail.
Proof.
  intros fuel s. unfold init_tail, bind.
  pose proof (traced_ReadBusy fuel s) as Ht.
  destruct (ReadBusy fuel s) as [[] s1|e s1|] eqn:Hrun;
    [|exact Ht|exact I].
  destruct (ReadBusy_inv _ _ _ Hrun) as (n & -> & _ & _).
  split; [reflexivity|]. exists [], n. split; [|constructor].
  cbn [app]. now rewrite replay_app.
Qed.

Lemma closes_bind {A} (m : M A) (f : A -> M Z) :
  traced leaves_rst m -> (forall a, closes (f a)) -> closes (bind m f).
Proof.
  intros Hm Hf fuel s. unfold bind. specialize (Hm fuel s).
  destruct (m fuel s) as [a s1|e s1|]; [|exact Hm|exact I].
  destruct Hm as (evs & -> & Hevs). specialize (Hf a fuel (replay evs s)).
  destruct (f a fuel (replay evs s)) as [v s2|e s2|]; [| |exact I].
  - destruct Hf as (-> & evs2 & k & -> & Hevs2).
    split; [reflexivity|]. exists (evs ++ evs2), k. split.
    + now rewrite <- app_assoc, <- replay_app.
    + apply Forall_app. now split.
  - now apply traced_then with evs.
Qed.

Lemma closes_get_self (f : EPD_2in13_B_V4 -> M Z) :
  (forall s0, closes (f s0)) -> closes (bind get_self f).
Proof. intros Hf fuel s. unfold bind, get_self. apply Hf. Qed.

Lemma init_unfold fuel s :
  init fuel s = init_after_reset fuel (replay reset_events s).
Proof. reflexivity. Qed.

Lemma closes_init_after_reset : closes init_after_reset.
Proof.
  pose proof traced_ReadBusy. unfold init_after_reset.
  repeat first
    [ exact closes_tail
    | apply closes_get_self; intro
    | apply closes_bind;
      [ first [ apply traced_SetWindows | apply traced_SetCursor
              | traced_send ]
      | intro ] ].
Qed.

Lemma leaves_rst_frame d b : Forall leaves_rst (frame_events d b).
Proof. unfold frame_events. repeat constructor. Qed.

Lemma leaves_rst_polls n : Forall leaves_rst (concat (repeat poll_events n)).
Proof.
  induction n as [|n IH]; [constructor|].
  cbn [repeat concat]. apply Forall_app. split; [|exact IH].
  unfold poll_events. constructor; [exact I|].
  apply Forall_app. split; [apply leaves_rst_frame | repeat constructor].
Qed.

Lemma leaves_rst_ReadBusy n : Forall leaves_rst (ReadBusy_events n).
Proof.
  unfold ReadBusy_events. constructor; [exact I|].
  apply Forall_app. split; [apply leaves_rst_frame|].
  apply Forall_app. split; [apply leaves_rst_polls | repeat constructor].
Qed.

Lemma rst_replay_leaves evs : forall s,
  Forall leaves_rst evs -> rst (replay evs s) = rst s.
Proof.
  induction evs as [|e evs IH]; intros s H; [reflexivity|].
  inversion H as [|e' evs' He Hevs]; subst.
  cbn [replay fold_left]. fold (replay evs (apply_event e s)).
  rewrite IH by exact Hevs.
  destruct e as [[] v| | | | | | |]; try reflexivity. destruct He.
Qed.

(** C2.  Whenever [init] comes back, the first thing it did was the reset
    sequence (rst high, 50 ms, low, 2 ms, high, 50 ms), during which nothing
    is written on the bus, and nothing it did afterwards touches the reset
    line: the sequence runs exactly once and before any command byte.  When
    [init] returns, it returns 0 and the last things it did are a complete
    busy poll followed by the message.  On a working bus whose busy line goes
    idle at each of the three polls, [init] does return. *)
Theorem init_resets_once_first_and_ends_with_poll :
  forall (fuel : nat) (self : EPD_2in13_B_V4),
    match init fuel self with
    | Ok v self' =>
        v = 0
        /\ exists rest before k,
            log self' = log self ++ reset_events ++ rest
            /\ Forall leaves_rst rest
            /\ rest = before ++ ReadBusy_events k
                      ++ [EvPrint "Display initialized"]
    | Raise _ self' =>
        exists rest,
          log self' = log self ++ reset_events ++ rest
          /\ Forall leaves_rst rest
    | Diverge => True
    end
    /\ bus_view (dc self) reset_events = []
    /\ (forall n1 n2 n3 : nat,
          bus_ready self ->
          first_idle_at self n1 ->
          first_idle_from (busy_line self) (busy_reads self + S n1) n2 ->
          first_idle_from (busy_line self) (busy_reads self + S n1 + S n2) n3 ->
          (n1 < fuel)%nat -> (n2 < fuel)%nat -> (n3 < fuel)%nat ->
          exists self',
            init fuel self = Ok 0 self'
            /\ log self' = log self ++ init_events self n1 n2 n3).
Proof.
  intros fuel self. split; [|split; [reflexivity|]].
  - rewrite init_unfold.
    pose proof (closes_init_after_reset fuel (replay reset_events self)) as H.
    destruct (init_after_reset fuel (replay reset_events self))
      as [v s'|e s'|]; [| |exact I].
    + destruct H as (-> & evs & k & -> & Hevs).
      split; [reflexivity|].
      exists (evs ++ ReadBusy_events k ++ [EvPrint "Display initialized"]),
             evs, k.
      split; [|split; [|reflexivity]].
      * now rewrite <- replay_app, log_replay.
      * apply Forall_app. split; [exact Hevs|].
        apply Forall_app. split; [apply leaves_rst_ReadBusy|].
        repeat constructor.
    + destruct H as (evs & -> & Hevs). exists evs. split; [|exact Hevs].
      now rewrite <- replay_app, log_replay.
  - intros n1 n2 n3 Hr H1 H2 H3 F1 F2 F3.
    destruct (yields_init n1 n2 n3 fuel self Hr H1 H2 H3 F1 F2 F3)
      as [Hrun _].
    eexists. split; [exact Hrun | apply log_replay].
Qed.

(** ** Objects to run the driver on *)

Lemma first_idle_now busy start :
  busy start = false -> first_idle_from busy start 0.
Proof.
  intro H. split; [intros k Hk; lia | now rewrite Nat.add_0_r].
Qed.

Lemma first_idle_next busy start :
  busy start = true -> busy (S start) = false -> first_idle_from busy start 1.
Proof.
  intros H0 H1. split.
  - intros k Hk. replace k with 0%nat by lia. now rewrite Nat.add_0_r.
  - now replace (start + 1)%nat with (S start) by lia.
Qed.

Lemma count_busy_reads_init s :
  count_busy_reads (init_events s 0 0 0) = 3%nat.
Proof. reflexivity. Qed.

(** With the busy line idle at its first three reads the constructor
    succeeds and leaves a ready object with the geometry of the panel. *)
Lemma constructed_ready busy rot fuel :
  busy 0%nat = false -> busy 1%nat = false -> busy 2%nat = false ->
  (0 < fuel)%nat ->
  let self := constructed busy no_fault rot fuel in
  bus_ready self /\ model_geometry self
  /\ busy_line self = busy /\ busy_reads self = 3%nat.
Proof.
  intros H0 H1 H2 Hfuel.
  assert (Hr : bus_ready (fresh busy no_fault rot)) by (split; reflexivity).
  destruct (yields_init 0 0 0 fuel (fresh busy no_fault rot) Hr)
    as [Hrun Hl]; try lia;
    try (apply first_idle_now; assumption).
  unfold constructed, __init__. rewrite Hrun. cbv zeta.
  pose proof (same_setup_replay
                (init_events (fresh busy no_fault rot) 0 0 0)
                (fresh busy no_fault rot)) as [Hw Hh Hb Hc Hbl Hbf].
  split; [|split; [|split]].
  - split; [exact Hl|]. intro k. now rewrite Hbf.
  - unfold model_geometry. rewrite Hw, Hh, Hb, Hc.
    apply fresh_model_geometry.
  - exact Hbl.
  - now rewrite busy_reads_replay, count_busy_reads_init.
Qed.

(** ** Two transfers in a row *)

Lemma count_busy_reads_transfer black red n :
  count_busy_reads (transfer_events black red n) = S n.
Proof.
  unfold transfer_events, TurnOnDisplay_events. count_reads. reflexivity.
Qed.

Lemma length_transfer_frames black red n :
  List.length (transfer_frames black red n)
  = (List.length black + List.length red + 4 + n)%nat.
Proof.
  unfold transfer_frames. cbn [List.length].
  rewrite length_app, length_map. cbn [List.length].
  rewrite length_app, length_map. cbn [List.length].
  rewrite repeat_length. lia.
Qed.

Lemma transfer_frames_polls black red n :
  transfer_frames black red n
  = (Command 0x24 :: map Data black ++ Command 0x26 :: map Data red
     ++ [Command 0x20; Command 0x71])
    ++ repeat (Command 0x71) n.
Proof.
  unfold transfer_frames. cbn [repeat app].
  rewrite <- !app_assoc. cbn [app]. rewrite <- !app_assoc. reflexivity.
Qed.

Lemma yields_display_twice n1 n2 fuel s :
  bus_ready s ->
  (cells s <= List.length (framebuffer_black_array s))%nat ->
  (cells s <= List.length (framebuffer_red_array s))%nat ->
  first_idle_at s n1 ->
  first_idle_from (busy_line s) (busy_reads s + S n1) n2 ->
  (n1 < fuel)%nat -> (n2 < fuel)%nat ->
  exists s1 s2,
    display fuel s = Ok tt s1
    /\ s1 = replay (transfer_events
                      (map byte_value
                           (firstn (cells s) (framebuffer_black_array s)))
                      (map byte_value
                           (firstn (cells s) (framebuffer_red_array s)))
                      n1) s
    /\ display fuel s1 = Ok tt s2
    /\ s2 = replay (transfer_events
                      (map byte_value
                           (firstn (cells s) (framebuffer_black_array s)))
                      (map byte_value
                           (firstn (cells s) (framebuffer_red_array s)))
                      n2) s1.
Proof.
  intros Hr Hb Hc H1 H2 F1 F2.
  pose proof (yields_display n1 fuel s Hr Hb Hc H1 F1) as Y1.
  pose proof (yields_ready _ _ _ _ _ Hr Y1) as Hr1.
  set (e1 := transfer_events _ _ n1) in *.
  destruct (same_setup_replay e1 s) as [Sw Sh Sb Sc Sbl Sbf].
  assert (C1 : cells (replay e1 s) = cells s) by apply cells_replay.
  assert (Y2 : yields display fuel (replay e1 s) tt
                 (transfer_events
                    (map byte_value
                         (firstn (cells s) (framebuffer_black_array s)))
                    (map byte_value
                         (firstn (cells s) (framebuffer_red_array s)))
                    n2)).
  { rewrite <- C1 at 1 2. rewrite <- Sb at 1. rewrite <- Sc at 1.
    apply yields_display; try assumption.
    - rewrite C1, Sb. exact Hb.
    - rewrite C1, Sc. exact Hc.
    - apply first_idle_at_replay_from.
      unfold e1. now rewrite count_busy_reads_transfer. }
  exists (replay e1 s), (replay (transfer_events
                      (map byte_value
                           (firstn (cells s) (framebuffer_black_array s)))
                      (map byte_value
                           (firstn (cells s) (framebuffer_red_array s)))
                      n2) (replay e1 s)).
  split; [apply Y1|]. split; [reflexivity|].
  split; [apply Y2 | reflexivity].
Qed.

(** C7, as the code has it.  Two [display] calls in a row with unchanged
    planes, on a working bus, show the controller the same bytes up to and
    including the trigger 0x20 and the first status command 0x71; after that
    each call sends one more 0x71 for every asserted read of the busy line.
    The two sequences are identical exactly when the busy line takes the
    same number of reads to go idle in both calls. *)
Theorem display_twice_same_up_to_polls :
  forall (n1 n2 fuel : nat) (self : EPD_2in13_B_V4),
    bus_ready self ->
    (cells self <= List.length (framebuffer_black_array self))%nat ->
    (cells self <= List.length (framebuffer_red_array self))%nat ->
    first_idle_at self n1 ->
    first_idle_from (busy_line self) (busy_reads self + S n1) n2 ->
    (n1 < fuel)%nat ->
    (n2 < fuel)%nat ->
    exists self1 self2 emitted1 emitted2 common,
      display fuel self = Ok tt self1
      /\ log self1 = log self ++ emitted1
      /\ framebuffer_black_array self1 = framebuffer_black_array self
      /\ framebuffer_red_array self1 = framebuffer_red_array self
      /\ display fuel self1 = Ok tt self2
      /\ log self2 = log self1 ++ emitted2
      /\ common =
           Command 0x24
           :: map Data (map byte_value
                (firstn (cells self) (framebuffer_black_array self)))
           ++ Command 0x26
           :: map Data (map byte_value
                (firstn (cells self) (framebuffer_red_array self)))
           ++ [Command 0x20; Command 0x71]
      /\ bus_view (dc self) emitted1 = common ++ repeat (Command 0x71) n1
      /\ bus_view (dc self1) emitted2 = common ++ repeat (Command 0x71) n2
      /\ (bus_view (dc self) emitted1 = bus_view (dc self1) emitted2
          <-> n1 = n2).
Proof.
  intros n1 n2 fuel self Hr Hb Hc H1 H2 F1 F2.
  destruct (yields_display_twice n1 n2 fuel self Hr Hb Hc H1 H2 F1 F2)
    as (s1 & s2 & R1 & E1 & R2 & E2).
  exists s1, s2. eexists. eexists. eexists.
  split; [exact R1|].
  split; [rewrite E1; apply log_replay|].
  split; [rewrite E1; apply (same_black _ _ (same_setup_replay _ _))|].
  split; [rewrite E1; apply (same_red _ _ (same_setup_replay _ _))|].
  split; [exact R2|].
  split; [rewrite E2; apply log_replay|].
  split; [reflexivity|].
  rewrite !bus_view_transfer.
  split; [apply transfer_frames_polls|].
  split; [apply transfer_frames_polls|].
  split.
  - intro H. apply (f_equal (@List.length frame)) in H.
    rewrite !length_transfer_frames in H. lia.
  - now intros ->.
Qed.

(** C7, counterexample.  Two [display] calls in a row on the constructed
    panel, planes untouched in between: the first refresh finds the busy line
    idle at once, the second finds it asserted once, so the second call puts
    one more status command on the bus than the first. *)
Lemma display_twice_differs :
  exists self1 self2 emitted1 emitted2,
    display 2%nat panel_busy_later = Ok tt self1
    /\ log self1 = log panel_busy_later ++ emitted1
    /\ framebuffer_black_array self1
       = framebuffer_black_array panel_busy_later
    /\ framebuffer_red_array self1 = framebuffer_red_array panel_busy_later
    /\ display 2%nat self1 = Ok tt self2
    /\ log self2 = log self1 ++ emitted2
    /\ bus_view (dc panel_busy_later) emitted1
       <> bus_view (dc self1) emitted2.
Proof.
  unfold panel_busy_later.
  pose proof (constructed_ready (busy_only_at 4) 0 2
                eq_refl eq_refl eq_refl (Nat.lt_0_succ 1)) as H.
  cbv zeta in H. revert H.
  generalize (constructed (busy_only_at 4) no_fault 0 2) as panel.
  intros panel (Hr & Hg & Hbl & Hbr).
  pose proof (model_geometry_cells _ Hg) as Hcells.
  destruct Hg as (_ & _ & Hb & Hc).
  change (Z.to_nat (EPD_HEIGHT * internal_width / 8)) with (Z.to_nat 4000)
    in Hb, Hc.
  destruct (yields_display_twice 0 1 2 panel Hr)
    as (s1 & s2 & R1 & E1 & R2 & E2).
  - rewrite Hcells, Hb. apply Nat.le_refl.
  - rewrite Hcells, Hc. apply Nat.le_refl.
  - unfold first_idle_at. rewrite Hbl, Hbr. now apply first_idle_now.
  - rewrite Hbl, Hbr. now apply first_idle_next.
  - lia.
  - lia.
  - exists s1, s2. eexists. eexists.
    split; [exact R1|].
    split; [rewrite E1; apply log_replay|].
    split; [rewrite E1; apply (same_black _ _ (same_setup_replay _ _))|].
    split; [rewrite E1; apply (same_red _ _ (same_setup_replay _ _))|].
    split; [exact R2|].
    split; [rewrite E2; apply log_replay|].
    rewrite !bus_view_transfer. intro H.
    apply (f_equal (@List.length frame)) in H.
    rewrite !length_transfer_frames in H. lia.
Qed.

(** ** Sleep *)

Lemma yields_module_exit fuel s :
  spi_locked s = false -> yields module_exit fuel s tt [EvPin RST_PIN false].
Proof. intro H. split; [reflexivity | exact H]. Qed.

Lemma yields_sleep fuel s :
  bus_ready s -> (0 < fuel)%nat -> yields sleep fuel s tt sleep_events.
Proof.
  intros Hr Hfuel. unfold sleep, sleep_events.
  do 2 send_then Hr.
  eapply yields_bind_ready;
    [exact Hr | apply yields_delay_ms, (proj1 Hr) | clear Hr; intro Hr].
  apply yields_module_exit, (proj1 Hr).
Qed.

Lemma yields_run_operation op n fuel s :
  bus_ready s -> bytes_ok op -> planes_fit s ->
  first_idle_at s n -> (n < fuel)%nat ->
  yields (run_operation op) fuel s tt (operation_events op s n).
Proof.
  intros Hr Hop [Hb Hc] Hi Hfuel.
  destruct op as [|b r|xs ys xe ye|x y|]; cbn [run_operation operation_events].
  - now apply yields_display.
  - destruct Hop. now apply yields_Clear.
  - apply yields_SetWindows; [exact Hr | lia].
  - apply yields_SetCursor; [exact Hr | lia].
  - now apply yields_TurnOnDisplay.
Qed.

Lemma traced_run_operation op : traced leaves_rst (run_operation op).
Proof.
  destruct op; cbn [run_operation];
    [ apply traced_display | apply traced_Clear | apply traced_SetWindows
    | apply traced_SetCursor | apply traced_TurnOnDisplay ].
Qed.

Lemma operation_events_replay op evs s n :
  operation_events op (replay evs s) n = operation_events op s n.
Proof.
  destruct op; cbn [operation_events]; try reflexivity;
    rewrite ?cells_replay,
      ?(same_black _ _ (same_setup_replay evs s)),
      ?(same_red _ _ (same_setup_replay evs s)); reflexivity.
Qed.

(** A sleep followed by an operation, on a working bus. *)
Lemma yields_sleep_then op n fuel s :
  bus_ready s -> bytes_ok op -> planes_fit s ->
  first_idle_at s n -> (n < fuel)%nat ->
  exists s1 s2,
    sleep fuel s = Ok tt s1
    /\ s1 = replay sleep_events s
    /\ run_operation op fuel s1 = Ok tt s2
    /\ s2 = replay (operation_events op s n) s1
    /\ rst s1 = false /\ rst s2 = false.
Proof.
  intros Hr Hop [Hb Hc] Hi Hfuel.
  assert (Y1 : yields sleep fuel s tt sleep_events)
    by (apply yields_sleep; [exact Hr | lia]).
  pose proof (yields_ready _ _ _ _ _ Hr Y1) as Hr1.
  destruct (same_setup_replay sleep_events s) as [Sw Sh Sb Sc Sbl Sbf].
  assert (Y2 : yields (run_operation op) fuel (replay sleep_events s) tt
                 (operation_events op (replay sleep_events s) n)).
  { apply yields_run_operation;
      [ exact Hr1 | exact Hop
      | split; rewrite cells_replay, ?Sb, ?Sc; assumption
      | apply first_idle_at_replay; [reflexivity | exact Hi]
      | exact Hfuel ]. }
  rewrite operation_events_replay in Y2.
  exists (replay sleep_events s),
         (replay (operation_events op s n) (replay sleep_events s)).
  split; [apply Y1|]. split; [reflexivity|].
  split; [apply Y2|]. split; [reflexivity|].
  split; [reflexivity|].
  pose proof (traced_run_operation op fuel (replay sleep_events s)) as T.
  destruct Y2 as [Y2 _]. rewrite Y2 in T.
  destruct T as (evs & -> & Hevs).
  now rewrite rst_replay_leaves.
Qed.

(** C6, counterexample.  On the constructed panel, [sleep] followed directly
    by [display] (no [init] in between): [display] is not rejected, it
    returns normally with the reset line still low and has put its 8000 data
    bytes on the bus. *)
Lemma display_runs_after_sleep :
  exists self1 self2 emitted,
    sleep 1%nat panel_idle = Ok tt self1
    /\ rst self1 = false
    /\ display 1%nat self1 = Ok tt self2
    /\ log self2 = log self1 ++ emitted
    /\ Z.of_nat (count_frames is_data (bus_view (dc self1) emitted)) = 8000.
Proof.
  unfold panel_idle.
  pose proof (constructed_ready always_idle 0 1
                eq_refl eq_refl eq_refl (Nat.lt_0_succ 0)) as H.
  cbv zeta in H. revert H.
  generalize (constructed always_idle no_fault 0 1) as panel.
  intros panel (Hr & Hg & Hbl & Hbr).
  pose proof (model_geometry_cells _ Hg) as Hcells.
  destruct Hg as (_ & _ & Hb & Hc).
  change (Z.to_nat (EPD_HEIGHT * internal_width / 8)) with (Z.to_nat 4000)
    in Hb, Hc.
  assert (Hfit : planes_fit panel).
  { split; rewrite Hcells, ?Hb, ?Hc; apply Nat.le_refl. }
  assert (Hi : first_idle_at panel 0).
  { unfold first_idle_at. rewrite Hbl. now apply first_idle_now. }
  destruct (yields_sleep_then OpDisplay 0 1 panel Hr I Hfit Hi
              (Nat.lt_0_succ 0))
    as (s1 & s2 & R1 & E1 & R2 & E2 & L1 & L2).
  exists s1, s2. eexists.
  split; [exact R1|]. split; [exact L1|]. split; [exact R2|].
  split; [rewrite E2; apply log_replay|].
  cbn [operation_events].
  rewrite bus_view_transfer, count_data_transfer, !length_map.
  rewrite !firstn_all2 by (rewrite Hcells, ?Hb, ?Hc; apply Nat.le_refl).
  rewrite Hb, Hc, Nat2Z.inj_add, Z2Nat.id by lia. reflexivity.
Qed.

(** ** Concrete runs *)

Lemma ReadBusy_polls_until_first_idle_witness :
  exists self',
    ReadBusy 3%nat busy_twice_fresh = Ok tt self'
    /\ log self' = log busy_twice_fresh ++ ReadBusy_events 2
    /\ busy_reads self' = (busy_reads busy_twice_fresh + 3)%nat
    /\ busy_line busy_twice_fresh (busy_reads self' - 1) = false
    /\ bus_view (dc busy_twice_fresh) (ReadBusy_events 2)
       = repeat (Command 0x71) 3
    /\ filter is_delay (ReadBusy_events 2) = repeat (EvDelay 10) 2.
Proof.
  apply (ReadBusy_polls_until_first_idle 2 3 busy_twice_fresh).
  - split; [reflexivity | intro k; reflexivity].
  - split; [|reflexivity].
    intros k Hk. destruct k as [|[|k]]; [reflexivity | reflexivity | lia].
  - lia.
Defined.

Lemma init_resets_once_first_and_ends_with_poll_witness :
  exists self',
    init 1%nat idle_fresh = Ok 0 self'
    /\ log self' = log idle_fresh ++ init_events idle_fresh 0 0 0.
Proof.
  destruct (init_resets_once_first_and_ends_with_poll 1 idle_fresh)
    as (_ & _ & H).
  apply (H 0%nat 0%nat 0%nat).
  - split; [reflexivity | intro k; reflexivity].
  - split; [intros k Hk; lia | reflexivity].
  - split; [intros k Hk; lia | reflexivity].
  - split; [intros k Hk; lia | reflexivity].
  - lia.
  - lia.
  - lia.
Defined.

Lemma Clear_streams_both_fills_witness :
  exists self' emitted,
    Clear 0xFF 0x00 1%nat idle_fresh = Ok tt self'
    /\ log self' = log idle_fresh ++ emitted
    /\ bus_view (dc idle_fresh) emitted =
         Command 0x24 :: repeat (Data 0xFF) (cells idle_fresh)
         ++ Command 0x26 :: repeat (Data 0x00) (cells idle_fresh)
         ++ Command 0x20 :: repeat (Command 0x71) 1
    /\ count_frames is_data (bus_view (dc idle_fresh) emitted)
       = (2 * cells idle_fresh)%nat
    /\ cells idle_fresh
       = (Z.to_nat (height idle_fresh)
          * Z.to_nat (byte_stride idle_fresh))%nat
    /\ emitted =
         command_events 0x24
         ++ plane_events (repeat 0xFF (cells idle_fresh))
         ++ command_events 0x26
         ++ plane_events (repeat 0x00 (cells idle_fresh))
         ++ command_events 0x20 ++ ReadBusy_events 0.
Proof.
  apply (Clear_streams_both_fills 0xFF 0x00 0 1 idle_fresh).
  - split; [reflexivity | intro k; reflexivity].
  - lia.
  - lia.
  - split; [intros k Hk; lia | reflexivity].
  - lia.
Defined.

Lemma SetWindows_two_commands_six_data_witness :
  exists self' emitted,
    SetWindows 0 0 127 249 1%nat idle_fresh = Ok tt self'
    /\ log self' = log idle_fresh ++ emitted
    /\ bus_view (dc idle_fresh) emitted =
         [Command 0x44;
          Data (Z.land (Z.shiftr 0 3) 0xFF);
          Data (Z.land (Z.shiftr 127 3) 0xFF);
          Command 0x45;
          Data (Z.land 0 0xFF); Data (Z.land (Z.shiftr 0 8) 0xFF);
          Data (Z.land 249 0xFF); Data (Z.land (Z.shiftr 249 8) 0xFF)]
    /\ count_frames is_command (bus_view (dc idle_fresh) emitted) = 2%nat
    /\ count_frames is_data (bus_view (dc idle_fresh) emitted) = 6%nat
    /\ Z.land (Z.shiftr 0 3) 0xFF = (0 / 8) mod 256
    /\ Z.land (Z.shiftr 127 3) 0xFF = (127 / 8) mod 256
    /\ Z.land 0 0xFF + 256 * Z.land (Z.shiftr 0 8) 0xFF = 0 mod 65536
    /\ Z.land 249 0xFF + 256 * Z.land (Z.shiftr 249 8) 0xFF = 249 mod 65536.
Proof.
  apply (SetWindows_two_commands_six_data 0 0 127 249 1 idle_fresh).
  - split; [reflexivity | intro k; reflexivity].
  - lia.
Defined.

Lemma display_emits_8000_data_bytes_witness :
  exists self' emitted,
    display 1%nat idle_fresh = Ok tt self'
    /\ log self' = log idle_fresh ++ emitted
    /\ bus_view (dc idle_fresh) emitted =
         Command 0x24
         :: map Data (map byte_value (framebuffer_black_array idle_fresh))
         ++ Command 0x26
         :: map Data (map byte_value (framebuffer_red_array idle_fresh))
         ++ Command 0x20 :: repeat (Command 0x71) 1
    /\ Z.of_nat (count_frames is_data (bus_view (dc idle_fresh) emitted))
       = 8000
    /\ filter is_command (before_code 0x20 (bus_view (dc idle_fresh) emitted))
       = [Command 0x24; Command 0x26].
Proof.
  destruct (display_emits_8000_data_bytes always_idle no_fault 0)
    as (_ & _ & _ & _ & H).
  apply (H 0%nat 1%nat idle_fresh).
  - apply fresh_model_geometry.
  - split; [reflexivity | intro k; reflexivity].
  - split; [intros k Hk; lia | reflexivity].
  - lia.
Defined.

Lemma idle_fresh_ready : bus_ready idle_fresh.
Proof. split; [reflexivity | intro k; reflexivity]. Defined.

Lemma idle_fresh_planes_fit : planes_fit idle_fresh.
Proof.
  split; vm_compute; apply Nat.le_refl.
Defined.

Lemma display_twice_same_up_to_polls_witness :
  exists self1 self2 emitted1 emitted2 common,
    display 1%nat idle_fresh = Ok tt self1
    /\ log self1 = log idle_fresh ++ emitted1
    /\ framebuffer_black_array self1 = framebuffer_black_array idle_fresh
    /\ framebuffer_red_array self1 = framebuffer_red_array idle_fresh
    /\ display 1%nat self1 = Ok tt self2
    /\ log self2 = log self1 ++ emitted2
    /\ common =
         Command 0x24
         :: map Data (map byte_value
              (firstn (cells idle_fresh) (framebuffer_black_array idle_fresh)))
         ++ Command 0x26
         :: map Data (map byte_value
              (firstn (cells idle_fresh) (framebuffer_red_array idle_fresh)))
         ++ [Command 0x20; Command 0x71]
    /\ bus_view (dc idle_fresh) emitted1 = common ++ repeat (Command 0x71) 0
    /\ bus_view (dc self1) emitted2 = common ++ repeat (Command 0x71) 0
    /\ (bus_view (dc idle_fresh) emitted1 = bus_view (dc self1) emitted2
        <-> 0%nat = 0%nat).
Proof.
  apply (display_twice_same_up_to_polls 0 0 1 idle_fresh).
  - exact idle_fresh_ready.
  - exact (proj1 idle_fresh_planes_fit).
  - exact (proj2 idle_fresh_planes_fit).
  - split; [intros k Hk; lia | reflexivity].
  - split; [intros k Hk; lia | reflexivity].
  - lia.
  - lia.
Defined.

Lemma display_of_uniform_planes_is_Clear_witness :
  display 1%nat uniform_panel
  = Clear (byte_value xff) (byte_value x00) 1%nat uniform_panel
  /\ exists self' emitted,
      display 1%nat uniform_panel = Ok tt self'
      /\ Clear (byte_value xff) (byte_value x00) 1%nat uniform_panel
         = Ok tt self'
      /\ log self' = log uniform_panel ++ emitted
      /\ bus_view (dc uniform_panel) emitted =
           Command 0x24 :: repeat (Data (byte_value xff)) (Z.to_nat 4000)
           ++ Command 0x26 :: repeat (Data (byte_value x00)) (Z.to_nat 4000)
           ++ Command 0x20 :: repeat (Command 0x71) 1.
Proof.
  destruct (display_of_uniform_planes_is_Clear xff x00 0 1 uniform_panel
              eq_refl eq_refl eq_refl eq_refl) as [H1 H2].
  split; [exact H1|]. apply H2.
  - split; [reflexivity | intro k; reflexivity].
  - split; [intros k Hk; lia | reflexivity].
  - lia.
Defined.

Lemma spi_writebyte_always_unlocks_witness :
  exists self',
    spi_writebyte [0x24] 1%nat write_fails_fresh = Raise OSError self'
    /\ spi_locked self' = false
    /\ cs self' = false.
Proof.
  pose proof (spi_writebyte_always_unlocks [0x24] 1 write_fails_fresh) as H.
  rewrite spi_writebyte_cases in H. rewrite spi_writebyte_cases.
  change (spi_locked write_fails_fresh) with false in *.
  change (bus_fault write_fails_fresh (transfers write_fails_fresh))
    with WriteFails in *.
  change (forallb is_byte [36]) with true in *.
  cbv beta iota in *.
  destruct H as (Hl & _ & Hcs).
  exists (replay aborted_events write_fails_fresh).
  split; [reflexivity|]. split; [exact Hl|].
  apply Hcs. discriminate.
Defined.

Lemma chip_select_frames_each_byte_witness :
  (cs (replay (command_events 0x24) idle_fresh) = true
   /\ log (replay (command_events 0x24) idle_fresh)
      = log idle_fresh ++
        [EvPin DC_PIN false; EvPin CS_PIN false;
         EvLock; EvConfigure 4000000 0 0; EvPin CS_PIN false; EvWrite [0x24];
         EvPin CS_PIN true; EvUnlock;
         EvPin CS_PIN true])
  /\ (cs (replay (data_events 0x24) idle_fresh) = true
      /\ log (replay (data_events 0x24) idle_fresh)
         = log idle_fresh ++
           [EvPin DC_PIN true; EvPin CS_PIN false;
            EvLock; EvConfigure 4000000 0 0; EvPin CS_PIN false;
            EvWrite [0x24];
            EvPin CS_PIN true; EvUnlock;
            EvPin CS_PIN true]).
Proof.
  split.
  - apply (proj1 (chip_select_frames_each_byte
                    0x24 1 idle_fresh
                    (replay (command_events 0x24) idle_fresh))).
    exact (proj1 (yields_send_command 0x24 1 idle_fresh idle_fresh_ready
                    eq_refl (Nat.lt_0_succ 0))).
  - apply (proj2 (chip_select_frames_each_byte
                    0x24 1 idle_fresh
                    (replay (data_events 0x24) idle_fresh))).
    exact (proj1 (yields_send_data 0x24 1 idle_fresh idle_fresh_ready
                    eq_refl (Nat.lt_0_succ 0))).
Defined.

(** * Further properties of the driver *)

(** ** Cursor addressing *)

(** X1.  On a working bus [SetCursor] returns for any two integers, and the
    controller has seen command 0x4E with the byte [x & 0xFF] (the X address
    is not divided by 8 here, unlike in [SetWindows]) and command 0x4F with
    the low and the high byte of Y: 2 commands and 3 data bytes, the Y bytes
    giving Y modulo 2^16 and the X byte X modulo 256. *)
Theorem SetCursor_two_commands_three_data :
  forall (Xstart Ystart : Z) (fuel : nat) (self : EPD_2in13_B_V4),
    bus_ready self ->
    (0 < fuel)%nat ->
    exists self' emitted,
      SetCursor Xstart Ystart fuel self = Ok tt self'
      /\ log self' = log self ++ emitted
      /\ bus_view (dc self) emitted =
           [Command 0x4E; Data (Z.land Xstart 0xFF);
            Command 0x4F;
            Data (Z.land Ystart 0xFF); Data (Z.land (Z.shiftr Ystart 8) 0xFF)]
      /\ Z.land Xstart 0xFF = Xstart mod 256
      /\ Z.land Ystart 0xFF + 256 * Z.land (Z.shiftr Ystart 8) 0xFF
         = Ystart mod 65536.
Proof.
  intros x y fuel self Hr Hfuel.
  destruct (yields_SetCursor x y fuel self Hr Hfuel) as [Hrun _].
  exists (replay (SetCursor_events x y) self), (SetCursor_events x y).
  split; [exact Hrun|]. split; [apply log_replay|].
  split; [reflexivity|]. split; [apply land_255 | apply low_high_bytes].
Qed.

Lemma SetCursor_two_commands_three_data_witness :
  exists self' emitted,
    SetCursor 300 (-1) 1%nat idle_fresh = Ok tt self'
    /\ log self' = log idle_fresh ++ emitted
    /\ bus_view (dc idle_fresh) emitted =
         [Command 0x4E; Data (Z.land 300 0xFF);
          Command 0x4F;
          Data (Z.land (-1) 0xFF); Data (Z.land (Z.shiftr (-1) 8) 0xFF)]
    /\ Z.land 300 0xFF = 300 mod 256
    /\ Z.land (-1) 0xFF + 256 * Z.land (Z.shiftr (-1) 8) 0xFF
       = (-1) mod 65536.
Proof.
  apply (SetCursor_two_commands_three_data 300 (-1) 1 idle_fresh).
  - exact idle_fresh_ready.
  - lia.
Defined.

(** ** Sleep *)

(** X2.  On a working bus [sleep] returns after: command 0x10 with the data
    byte 0x01, a 2000 ms delay, and, as the last thing it does, the reset
    line driven low.  It leaves reset low, chip-select high and the bus
    unlocked, and it never reads the busy line. *)
Theorem sleep_sends_deep_sleep_then_holds_reset_low :
  forall (fuel : nat) (self : EPD_2in13_B_V4),
    bus_ready self ->
    (0 < fuel)%nat ->
    exists self',
      sleep fuel self = Ok tt self'
      /\ log self' = log self
                     ++ command_events 0x10 ++ data_events 0x01
                     ++ [EvDelay 2000; EvPin RST_PIN false]
      /\ bus_view (dc self) (command_events 0x10 ++ data_events 0x01
                             ++ [EvDelay 2000; EvPin RST_PIN false])
         = [Command 0x10; Data 0x01]
      /\ rst self' = false
      /\ cs self' = true
      /\ spi_locked self' = false
      /\ busy_reads self' = busy_reads self.
Proof.
  intros fuel self Hr Hfuel.
  destruct (yields_sleep fuel self Hr Hfuel) as [Hrun Hl].
  exists (replay sleep_events self).
  split; [exact Hrun|]. split; [apply log_replay|].
  split; [reflexivity|]. split; [reflexivity|]. split; [reflexivity|].
  split; [exact Hl | reflexivity].
Qed.

Lemma sleep_sends_deep_sleep_then_holds_reset_low_witness :
  exists self',
    sleep 1%nat idle_fresh = Ok tt self'
    /\ log self' = log idle_fresh
                   ++ command_events 0x10 ++ data_events 0x01
                   ++ [EvDelay 2000; EvPin RST_PIN false]
    /\ bus_view (dc idle_fresh) (command_events 0x10 ++ data_events 0x01
                                 ++ [EvDelay 2000; EvPin RST_PIN false])
       = [Command 0x10; Data 0x01]
    /\ rst self' = false
    /\ cs self' = true
    /\ spi_locked self' = false
    /\ busy_reads self' = busy_reads idle_fresh.
Proof.
  apply (sleep_sends_deep_sleep_then_holds_reset_low 1 idle_fresh).
  - exact idle_fresh_ready.
  - lia.
Defined.

(** ** The busy poll has no timeout *)

Lemma bind_Ok {A B} (m : M A) (f : A -> M B) fuel s a s1 :
  m fuel s = Ok a s1 -> bind m f fuel s = f a fuel s1.
Proof. intro H. unfold bind. now rewrite H. Qed.

Lemma bind_Diverge {A B} (m : M A) (f : A -> M B) fuel s :
  m fuel s = Diverge -> bind m f fuel s = Diverge.
Proof. intro H. unfold bind. now rewrite H. Qed.

Lemma bind_Raise {A B} (m : M A) (f : A -> M B) fuel s e s1 :
  m fuel s = Raise e s1 -> bind m f fuel s = Raise e s1.
Proof. intro H. unfold bind. now rewrite H. Qed.

Lemma polling_stuck k : forall fuel s,
  bus_ready s -> (0 < fuel)%nat ->
  (forall i, (i < k)%nat -> busy_line s (busy_reads s + i) = true) ->
  while_loop k (digital_read BUSY_PIN) (send_command 0x71 ;; delay_ms 10)
             fuel s = Diverge.
Proof.
  induction k as [|k IH]; intros fuel s Hr Hfuel Hb; [reflexivity|].
  rewrite while_loop_S, digital_read_busy.
  assert (H0 : busy_line s (busy_reads s) = true).
  { specialize (Hb 0%nat). rewrite Nat.add_0_r in Hb. apply Hb. lia. }
  rewrite H0, (poll_body fuel s Hr Hfuel).
  apply IH; [|exact Hfuel|].
  - destruct Hr as [Hl Hf]. split; [reflexivity | exact Hf].
  - intros i Hi.
    change (busy_line (replay poll_events s)) with (busy_line s).
    change (busy_reads (replay poll_events s)) with (S (busy_reads s)).
    replace (S (busy_reads s) + i)%nat with (busy_reads s + S i)%nat by lia.
    apply Hb. lia.
Qed.

(** X3.  On a working bus, as long as the busy line reads asserted at each
    of the next [fuel] reads, [ReadBusy] has not returned after [fuel] tests
    of its loop condition.  With a line stuck asserted that holds for every
    bound: the poll never ends. *)
Theorem ReadBusy_blocks_while_busy :
  forall (fuel : nat) (self : EPD_2in13_B_V4),
    bus_ready self ->
    (forall i, (i < fuel)%nat ->
               busy_line self (busy_reads self + i) = true) ->
    ReadBusy fuel self = Diverge.
Proof.
  intros fuel self Hr Hb. unfold ReadBusy.
  rewrite (bind_Ok _ _ fuel self tt (replay [EvPrint "Display busy"] self))
    by reflexivity.
  destruct fuel as [|fuel].
  - apply bind_Diverge. now rewrite send_command_cases.
  - assert (Hr1 : bus_ready (replay [EvPrint "Display busy"] self)).
    { destruct Hr as [Hl Hf]. split; [exact Hl | exact Hf]. }
    rewrite (bind_Ok _ _ _ _ tt _
               (proj1 (yields_send_command 0x71 (S fuel) _ Hr1 eq_refl
                         (Nat.lt_0_succ fuel)))).
    apply bind_Diverge. unfold while.
    apply polling_stuck; [|lia|exact Hb].
    destruct Hr as [Hl Hf]. split; [reflexivity | exact Hf].
Qed.

Lemma ReadBusy_blocks_while_busy_witness :
  ReadBusy 5%nat (fresh (fun _ => true) no_fault 0) = Diverge.
Proof.
  apply (ReadBusy_blocks_while_busy 5 (fresh (fun _ => true) no_fault 0)).
  - split; [reflexivity | intro k; reflexivity].
  - intros i Hi. reflexivity.
Defined.

(** X4.  A [ReadBusy] that returns, whatever the bus did, has read the busy
    line asserted some [n] times and then idle, with [n] below the loop
    bound, and did exactly the events of such a poll.  On a working bus the
    converse holds as well: it returns if and only if the line goes idle
    within the bound. *)
Theorem ReadBusy_returns_iff_line_goes_idle :
  forall (fuel : nat) (self : EPD_2in13_B_V4),
    (forall self',
        ReadBusy fuel self = Ok tt self' ->
        exists n, (n < fuel)%nat /\ first_idle_at self n
                  /\ log self' = log self ++ ReadBusy_events n
                  /\ busy_reads self' = (busy_reads self + S n)%nat)
    /\ (bus_ready self ->
        ((exists self', ReadBusy fuel self = Ok tt self')
         <-> exists n, (n < fuel)%nat /\ first_idle_at self n)).
Proof.
  intros fuel self. split.
  - intros self' H. destruct (ReadBusy_inv _ _ _ H) as (n & -> & Hi & Hn).
    exists n. split; [exact Hn|]. split; [exact Hi|].
    split; [apply log_replay|].
    now rewrite busy_reads_replay, count_busy_reads_ReadBusy.
  - intro Hr. split.
    + intros (self' & H). destruct (ReadBusy_inv _ _ _ H) as (n & _ & Hi & Hn).
      now exists n.
    + intros (n & Hn & Hi).
      exists (replay (ReadBusy_events n) self).
      apply (yields_ReadBusy n fuel self Hr Hi Hn).
Qed.

Lemma ReadBusy_returns_iff_line_goes_idle_witness :
  (exists self', ReadBusy 3%nat busy_twice_fresh = Ok tt self')
  /\ exists n, (n < 3)%nat /\ first_idle_at busy_twice_fresh n
               /\ log (replay (ReadBusy_events 2) busy_twice_fresh)
                  = log busy_twice_fresh ++ ReadBusy_events n
               /\ busy_reads (replay (ReadBusy_events 2) busy_twice_fresh)
                  = (busy_reads busy_twice_fresh + S n)%nat.
Proof.
  assert (Hr : bus_ready busy_twice_fresh)
    by (split; [reflexivity | intro k; reflexivity]).
  assert (Hi : first_idle_at busy_twice_fresh 2).
  { split; [|reflexivity].
    intros k Hk. destruct k as [|[|k]]; [reflexivity | reflexivity | lia]. }
  destruct (ReadBusy_returns_iff_line_goes_idle 3 busy_twice_fresh)
    as [Hinv Hiff].
  assert (Hret : exists self', ReadBusy 3%nat busy_twice_fresh = Ok tt self').
  { apply (Hiff Hr). exists 2%nat. split; [lia | exact Hi]. }
  split; [exact Hret|].
  apply Hinv.
  exact (proj1 (yields_ReadBusy 2 3 busy_twice_fresh Hr Hi
                  (Nat.lt_succ_diag_r 2))).
Defined.

(** ** A held lock and a failed transfer *)

(** X5.  Acquiring the bus is a spin on [try_lock] with no way out: while
    somebody else holds the lock, [spi_writebyte], [send_command] and
    [send_data] do not come back, whatever the bound on the spin. *)
Theorem held_lock_blocks_every_transfer :
  forall (fuel : nat) (self : EPD_2in13_B_V4),
    spi_locked self = true ->
    (forall data, spi_writebyte data fuel self = Diverge)
    /\ (forall c, send_command c fuel self = Diverge)
    /\ (forall d, send_data d fuel self = Diverge).
Proof.
  intros fuel self Hl. split; [|split].
  - intro data. rewrite spi_writebyte_cases, Hl. now destruct fuel.
  - intro c. rewrite send_command_cases, Hl. now destruct fuel.
  - intro d. rewrite send_data_cases, Hl. now destruct fuel.
Qed.

Lemma held_lock_blocks_every_transfer_witness :
  (forall data, spi_writebyte data 7%nat (apply_event EvLock idle_fresh)
                = Diverge)
  /\ (forall c, send_command c 7%nat (apply_event EvLock idle_fresh) = Diverge)
  /\ (forall d, send_data d 7%nat (apply_event EvLock idle_fresh) = Diverge).
Proof.
  apply (held_lock_blocks_every_transfer 7 (apply_event EvLock idle_fresh)).
  reflexivity.
Defined.

(** X6.  When [send_command] or [send_data] raises (the bus reports a
    failure, or the value is not a byte), the exception passes through the
    [finally] that releases the lock but skips the statement that would
    deassert chip-select: the bus is unlocked, chip-select is left low and
    DC keeps the level just set. *)
Theorem failed_transfer_leaves_chip_select_low :
  forall (b : Z) (fuel : nat) (e : Exn) (self self' : EPD_2in13_B_V4),
    (send_command b fuel self = Raise e self' ->
     cs self' = false /\ spi_locked self' = false /\ dc self' = false
     /\ (e = OSError \/ e = ValueError))
    /\ (send_data b fuel self = Raise e self' ->
        cs self' = false /\ spi_locked self' = false /\ dc self' = true
        /\ (e = OSError \/ e = ValueError)).
Proof.
  assert (Raise_inv : forall (e1 e2 : Exn) (s1 s2 : EPD_2in13_B_V4),
             @Raise unit e1 s1 = Raise e2 s2 -> e1 = e2 /\ s1 = s2).
  { intros e1 e2 s1 s2 H. split; congruence. }
  intros b fuel e self self'. split; intro H.
  - rewrite send_command_cases in H.
    destruct fuel as [|fuel]; [discriminate H|].
    destruct (spi_locked self); [discriminate H|].
    destruct (bus_fault self (transfers self));
      [destruct (is_byte b)| |destruct (is_byte b)]; try discriminate H;
      apply Raise_inv in H; destruct H as [<- <-];
      (split; [reflexivity|]); (split; [reflexivity|]);
      (split; [reflexivity|]); auto.
  - rewrite send_data_cases in H.
    destruct fuel as [|fuel]; [discriminate H|].
    destruct (spi_locked self); [discriminate H|].
    destruct (bus_fault self (transfers self));
      [destruct (is_byte b)| |destruct (is_byte b)]; try discriminate H;
      apply Raise_inv in H; destruct H as [<- <-];
      (split; [reflexivity|]); (split; [reflexivity|]);
      (split; [reflexivity|]); auto.
Qed.

Lemma failed_transfer_leaves_chip_select_low_witness :
  (cs (replay ([EvPin DC_PIN false; EvPin CS_PIN false] ++ aborted_events)
              write_fails_fresh) = false
   /\ spi_locked (replay ([EvPin DC_PIN false; EvPin CS_PIN false]
                          ++ aborted_events) write_fails_fresh) = false
   /\ dc (replay ([EvPin DC_PIN false; EvPin CS_PIN false] ++ aborted_events)
                 write_fails_fresh) = false
   /\ (OSError = OSError \/ OSError = ValueError))
  /\ (cs (replay ([EvPin DC_PIN true; EvPin CS_PIN false] ++ aborted_events)
                 write_fails_fresh) = false
      /\ spi_locked (replay ([EvPin DC_PIN true; EvPin CS_PIN false]
                             ++ aborted_events) write_fails_fresh) = false
      /\ dc (replay ([EvPin DC_PIN true; EvPin CS_PIN false] ++ aborted_events)
                    write_fails_fresh) = true
      /\ (OSError = OSError \/ OSError = ValueError)).
Proof.
  split.
  - apply (proj1 (failed_transfer_leaves_chip_select_low
                    0x24 1 OSError write_fails_fresh _)).
    rewrite send_command_cases. reflexivity.
  - apply (proj2 (failed_transfer_leaves_chip_select_low
                    0x24 1 OSError write_fails_fresh _)).
    rewrite send_data_cases. reflexivity.
Defined.

(** ** What no method does *)

Lemma traced_weaken (P Q : event -> Prop) {A} (m : M A) :
  (forall e, P e -> Q e) -> traced P m -> traced Q m.
Proof.
  intros HPQ Hm fuel s. specialize (Hm fuel s).
  destruct (m fuel s) as [a s'|e s'|]; [| |exact I];
    destruct Hm as (evs & -> & Hevs); exists evs;
    (split; [reflexivity|]);
    (eapply Forall_impl; [exact HPQ | exact Hevs]).
Qed.

Lemma traced_any {A} (m : M A) : traced leaves_rst m -> traced any_event m.
Proof. apply traced_weaken. intros e _. exact I. Qed.

Ltac traced_any_step :=
  repeat lazymatch goal with
         | |- traced any_event (send_command _) =>
             apply traced_any, traced_send_command
         | |- traced any_event (send_data _) =>
             apply traced_any, traced_send_data
         | |- traced any_event ReadBusy => apply traced_any, traced_ReadBusy
         | |- traced any_event (SetWindows _ _ _ _) =>
             apply traced_any, traced_SetWindows
         | |- traced any_event (SetCursor _ _) =>
             apply traced_any, traced_SetCursor
         | |- traced _ _ => traced_step
         end.

Lemma traced_reset : traced any_event reset.
Proof. unfold reset. traced_any_step. Qed.

Lemma traced_init : traced any_event init.
Proof. unfold init. pose proof traced_reset. traced_any_step. Qed.

Lemma traced_sleep : traced any_event sleep.
Proof. unfold sleep, module_exit. traced_any_step. Qed.

Lemma traced_run_method m : traced any_event (run_method m).
Proof.
  pose proof traced_init. pose proof traced_reset. pose proof traced_sleep.
  destruct m; cbn [run_method]; unfold module_exit;
    try (apply traced_any;
         first [ apply traced_spi_writebyte | apply traced_Clear
               | apply traced_TurnOnDisplay | apply traced_display ]);
    traced_any_step.
Qed.

Lemma traced_quiet_method m :
  drives_rst m = false -> traced leaves_rst (run_method m).
Proof.
  intro H. destruct m; try discriminate H; cbn [run_method];
    try first [ apply traced_spi_writebyte | apply traced_Clear
              | apply traced_TurnOnDisplay | apply traced_display
              | apply traced_ReadBusy | apply traced_SetWindows
              | apply traced_SetCursor ];
    try traced_send.
  destruct pin; try discriminate H;
    apply traced_digital_write; exact I.
Qed.

(** X7.  Whatever a method of the driver does, and however it ends (return
    or exception), it leaves the width, the height and the contents of both
    plane buffers as they were, and it only adds to what has been done to
    the outside world.  The driver reads the planes; it never writes them. *)
Theorem no_method_changes_geometry_or_planes :
  forall (m : method) (fuel : nat) (self : EPD_2in13_B_V4),
    match run_method m fuel self with
    | Ok _ self' | Raise _ self' =>
        width self' = width self
        /\ height self' = height self
        /\ framebuffer_black_array self' = framebuffer_black_array self
        /\ framebuffer_red_array self' = framebuffer_red_array self
        /\ exists emitted, log self' = log self ++ emitted
    | Diverge => True
    end.
Proof.
  intros m fuel self.
  pose proof (traced_run_method m fuel self) as H.
  destruct (run_method m fuel self) as [a s'|e s'|]; [| |exact I];
    destruct H as (evs & -> & _);
    destruct (same_setup_replay evs self) as [Hw Hh Hb Hc _ _];
    (repeat split; try assumption);
    exists evs; apply log_replay.
Qed.

(** X8.  The reset line is driven only by [init], [reset], [module_exit],
    [sleep] and an explicit [digital_write] to it.  Every other method,
    however it ends, leaves the reset line at the level it had. *)
Theorem only_reset_paths_drive_rst :
  forall (m : method) (fuel : nat) (self : EPD_2in13_B_V4),
    drives_rst m = false ->
    match run_method m fuel self with
    | Ok _ self' | Raise _ self' => rst self' = rst self
    | Diverge => True
    end.
Proof.
  intros m fuel self Hm.
  pose proof (traced_quiet_method m Hm fuel self) as H.
  destruct (run_method m fuel self) as [a s'|e s'|]; [| |exact I];
    destruct H as (evs & -> & Hevs); now apply rst_replay_leaves.
Qed.

Lemma only_reset_paths_drive_rst_witness :
  match run_method MDisplay 1%nat (replay sleep_events idle_fresh) with
  | Ok _ self' | Raise _ self' =>
      rst self' = rst (replay sleep_events idle_fresh)
  | Diverge => True
  end.
Proof.
  apply (only_reset_paths_drive_rst
           MDisplay 1 (replay sleep_events idle_fresh)).
  reflexivity.
Defined.

(** ** The bus lock *)

Lemma releases_ret {A} (a : A) : releases (ret a).
Proof. intros fuel s H. exact H. Qed.

Lemma releases_bind {A B} (m : M A) (f : A -> M B) :
  releases m -> (forall a, releases (f a)) -> releases (bind m f).
Proof.
  intros Hm Hf fuel s Hl. unfold bind. specialize (Hm fuel s Hl).
  destruct (m fuel s) as [a s1|e s1|]; [|exact Hm|exact I].
  apply Hf. exact Hm.
Qed.

Lemma releases_get_self {A} (f : EPD_2in13_B_V4 -> M A) :
  (forall s0, releases (f s0)) -> releases (bind get_self f).
Proof. intros Hf fuel s Hl. unfold bind, get_self. now apply Hf. Qed.

Lemma releases_for_each {A} (xs : list A) (body : A -> M unit) :
  (forall x, releases (body x)) -> releases (for_each xs body).
Proof.
  intro Hb. induction xs as [|x xs IH]; cbn [for_each].
  - apply releases_ret.
  - apply releases_bind; [apply Hb | intros _; exact IH].
Qed.

Lemma releases_while cond body :
  releases cond -> releases body -> releases (while cond body).
Proof.
  intros Hc Hb fuel s. unfold while. generalize fuel at 1 as k.
  intro k. revert s. induction k as [|k IH]; intros s Hl; [exact I|].
  rewrite while_loop_S. specialize (Hc fuel s Hl).
  destruct (cond fuel s) as [[|] s1|e s1|]; try exact Hc.
  specialize (Hb fuel s1 Hc).
  destruct (body fuel s1) as [[] s2|e s2|]; [|exact Hb|exact I].
  now apply IH.
Qed.

Lemma releases_quiet {A} (m : M A) :
  (forall fuel s, match m fuel s with
                  | Ok _ s' | Raise _ s' => spi_locked s' = spi_locked s
                  | Diverge => True
                  end) ->
  releases m.
Proof.
  intros H fuel s Hl. specialize (H fuel s).
  destruct (m fuel s); try exact I; congruence.
Qed.

Lemma releases_print msg : releases (print msg).
Proof. apply releases_quiet. reflexivity. Qed.

Lemma releases_delay_ms t : releases (delay_ms t).
Proof. apply releases_quiet. reflexivity. Qed.

Lemma releases_digital_write pin v : releases (digital_write pin v).
Proof. apply releases_quiet. intros fuel s. destruct pin; reflexivity. Qed.

Lemma releases_digital_read pin : releases (digital_read pin).
Proof. apply releases_quiet. intros fuel s. destruct pin; reflexivity. Qed.

Lemma releases_getitem buf idx : releases (getitem buf idx).
Proof.
  apply releases_quiet. intros fuel s. unfold getitem.
  destruct (_ && _); [|reflexivity].
  destruct (nth_error _ _); reflexivity.
Qed.

Lemma releases_spi_writebyte data : releases (spi_writebyte data).
Proof.
  intros fuel s Hl. rewrite spi_writebyte_cases, Hl.
  destruct fuel as [|fuel]; [exact I|].
  destruct (bus_fault s (transfers s)); try reflexivity;
    destruct (forallb is_byte data); reflexivity.
Qed.

Ltac releases_step :=
  repeat lazymatch goal with
         | |- releases (bind get_self _) => apply releases_get_self; intro
         | |- releases (bind _ _) => apply releases_bind; [|intro]
         | |- releases (for_each _ _) => apply releases_for_each; intro
         | |- releases (while _ _) => apply releases_while
         | |- releases (ret _) => apply releases_ret
         | |- releases (print _) => apply releases_print
         | |- releases (delay_ms _) => apply releases_delay_ms
         | |- releases (digital_write _ _) => apply releases_digital_write
         | |- releases (digital_read _) => apply releases_digital_read
         | |- releases (getitem _ _) => apply releases_getitem
         | |- releases (spi_writebyte _) => apply releases_spi_writebyte
         | |- releases _ => assumption
         end.

Lemma releases_send_command c : releases (send_command c).
Proof. unfold send_command. releases_step. Qed.

Lemma releases_send_data d : releases (send_data d).
Proof. unfold send_data. releases_step. Qed.

Ltac releases_send :=
  repeat lazymatch goal with
         | |- releases (send_command _) => apply releases_send_command
         | |- releases (send_data _) => apply releases_send_data
         | |- releases _ => progress releases_step
         end.

Lemma releases_ReadBusy : releases ReadBusy.
Proof. unfold ReadBusy. releases_send. Qed.

Lemma releases_TurnOnDisplay : releases TurnOnDisplay.
Proof. pose proof releases_ReadBusy. unfold TurnOnDisplay. releases_send. Qed.

Lemma releases_SetWindows xs ys xe ye : releases (SetWindows xs ys xe ye).
Proof. unfold SetWindows. releases_send. Qed.

Lemma releases_SetCursor x y : releases (SetCursor x y).
Proof. unfold SetCursor. releases_send. Qed.

Ltac releases_all :=
  repeat lazymatch goal with
         | |- releases (send_command _) => apply releases_send_command
         | |- releases (send_data _) => apply releases_send_data
         | |- releases ReadBusy => apply releases_ReadBusy
         | |- releases TurnOnDisplay => apply releases_TurnOnDisplay
         | |- releases (SetWindows _ _ _ _) => apply releases_SetWindows
         | |- releases (SetCursor _ _) => apply releases_SetCursor
         | |- releases _ => progress releases_step
         end.

Lemma releases_init : releases init.
Proof. unfold init, reset. releases_all. Qed.

(** X9.  No method leaks the bus lock: called with the bus free, a method
    that comes back, by returning or by raising (a bus failure, a value that
    is not a byte, an index out of range), comes back with the bus free. *)
Theorem no_method_leaves_bus_locked :
  forall (m : method) (fuel : nat) (self : EPD_2in13_B_V4),
    spi_locked self = false ->
    match run_method m fuel self with
    | Ok _ self' | Raise _ self' => spi_locked self' = false
    | Diverge => True
    end.
Proof.
  intros m. change (releases (run_method m)).
  pose proof releases_init.
  destruct m; cbn [run_method];
    unfold reset, Clear, sleep, display; unfold module_exit; releases_all.
Qed.

Lemma no_method_leaves_bus_locked_witness :
  match run_method (MClear 0x00 0xFF) 1%nat write_fails_fresh with
  | Ok _ self' | Raise _ self' => spi_locked self' = false
  | Diverge => True
  end.
Proof.
  apply (no_method_leaves_bus_locked (MClear 0x00 0xFF) 1 write_fails_fresh).
  reflexivity.
Defined.

(** ** The configuration sequence *)

Lemma bus_view_reset d evs : bus_view d (reset_events ++ evs) = bus_view d evs.
Proof. reflexivity. Qed.

Lemma bus_view_init d s n1 n2 n3 :
  bus_view d (init_events s n1 n2 n3) = init_frames s n1 n2 n3.
Proof.
  unfold init_events, init_frames.
  rewrite bus_view_reset, bus_view_ReadBusy, bus_view_command,
    bus_view_ReadBusy.
  rewrite bus_view_command, !bus_view_data, bus_view_command, bus_view_data.
  rewrite bus_view_SetWindows, bus_view_SetCursor.
  rewrite bus_view_command, bus_view_data, bus_view_command, bus_view_data,
    bus_view_command, !bus_view_data.
  rewrite bus_view_ReadBusy. cbn [bus_view]. rewrite app_nil_r.
  reflexivity.
Qed.

Lemma settled_polls n : forall s,
  cs s = true /\ dc s = false ->
  cs (replay (concat (repeat poll_events n)) s) = true
  /\ dc (replay (concat (repeat poll_events n)) s) = false.
Proof.
  induction n as [|n IH]; intros s H; [exact H|].
  cbn [repeat concat]. rewrite replay_app. apply IH.
  split; reflexivity.
Qed.

(** After a complete poll chip-select is high and DC is low. *)
Lemma settled_ReadBusy n s :
  cs (replay (ReadBusy_events n) s) = true
  /\ dc (replay (ReadBusy_events n) s) = false.
Proof.
  rewrite ReadBusy_events_split. unfold polling_events.
  rewrite !replay_app.
  destruct (settled_polls n
              (replay (command_events 113)
                      (replay [EvPrint "Display busy"] s)))
    as [Hc Hd]; [split; reflexivity|].
  revert Hc Hd.
  generalize (replay (concat (repeat poll_events n))
                     (replay (command_events 113)
                             (replay [EvPrint "Display busy"] s))) as y.
  intros y Hc Hd. split; [exact Hc | exact Hd].
Qed.

Lemma leaves_rst_SetWindows xs ys xe ye :
  Forall leaves_rst (SetWindows_events xs ys xe ye).
Proof.
  unfold SetWindows_events, command_events, data_events.
  repeat (apply Forall_app; split; [apply leaves_rst_frame|]).
  apply leaves_rst_frame.
Qed.

Lemma leaves_rst_SetCursor x y : Forall leaves_rst (SetCursor_events x y).
Proof.
  unfold SetCursor_events, command_events, data_events.
  repeat (apply Forall_app; split; [apply leaves_rst_frame|]).
  apply leaves_rst_frame.
Qed.

Lemma count_busy_reads_init_events s n1 n2 n3 :
  count_busy_reads (init_events s n1 n2 n3) = (S n1 + S n2 + S n3)%nat.
Proof.
  unfold init_events.
  rewrite !count_busy_reads_app, !count_busy_reads_ReadBusy.
  unfold command_events, data_events. rewrite !count_busy_reads_frame.
  change (count_busy_reads reset_events) with 0%nat.
  change (count_busy_reads (SetWindows_events 0 0 (width s - 1) (height s - 1)))
    with 0%nat.
  change (count_busy_reads (SetCursor_events 0 0)) with 0%nat.
  change (count_busy_reads [EvPrint "Display initialized"]) with 0%nat.
  lia.
Qed.

(** The state [init] leaves on a working bus. *)
Lemma init_run n1 n2 n3 fuel s :
  bus_ready s ->
  first_idle_at s n1 ->
  first_idle_from (busy_line s) (busy_reads s + S n1) n2 ->
  first_idle_from (busy_line s) (busy_reads s + S n1 + S n2) n3 ->
  (n1 < fuel)%nat -> (n2 < fuel)%nat -> (n3 < fuel)%nat ->
  let s' := replay (init_events s n1 n2 n3) s in
  init fuel s = Ok 0 s'
  /\ rst s' = true /\ cs s' = true /\ dc s' = false
  /\ spi_locked s' = false.
Proof.
  intros Hr H1 H2 H3 F1 F2 F3 s'.
  destruct (yields_init n1 n2 n3 fuel s Hr H1 H2 H3 F1 F2 F3) as [Hrun Hl].
  split; [exact Hrun|].
  assert (Hpins : rst s' = true /\ cs s' = true /\ dc s' = false).
  { unfold s', init_events. rewrite !replay_app.
    match goal with
    | |- context [replay (ReadBusy_events n3) ?y] =>
        destruct (settled_ReadBusy n3 y) as [Hc Hd];
        assert (Hrst : rst (replay (ReadBusy_events n3) y) = true);
        [ repeat (rewrite rst_replay_leaves
                    by first [ apply leaves_rst_ReadBusy
                             | apply leaves_rst_frame
                             | apply leaves_rst_SetWindows
                             | apply leaves_rst_SetCursor ]);
          reflexivity
        | revert Hc Hd Hrst;
          generalize (replay (ReadBusy_events n3) y) as z ]
    end.
    intros z Hc Hd Hrst. split; [exact Hrst|]. split; [exact Hc | exact Hd]. }
  destruct Hpins as (Hrst & Hcs & Hdc).
  split; [exact Hrst|]. split; [exact Hcs|]. split; [exact Hdc | exact Hl].
Qed.

(** X10.  On a working bus whose busy line goes idle at each of the three
    polls, [init] returns 0 and what the controller has seen, after the
    hardware reset, is: the first poll, software reset 0x12, the second
    poll, 0x01 with f9 00 00, 0x11 with 03, the window 0x44 with
    [0, (width-1)>>3] and 0x45 with [0, 0, (height-1) low, high], the cursor
    0x4E with 0 and 0x4F with 0 0, 0x3C with 05, 0x18 with 80, 0x21 with
    80 80, and the third poll.  It leaves reset and chip-select high, DC low
    and the bus unlocked, and has read the busy line once per poll turn. *)
Theorem init_configures_the_controller :
  forall (n1 n2 n3 fuel : nat) (self : EPD_2in13_B_V4),
    bus_ready self ->
    first_idle_at self n1 ->
    first_idle_from (busy_line self) (busy_reads self + S n1) n2 ->
    first_idle_from (busy_line self) (busy_reads self + S n1 + S n2) n3 ->
    (n1 < fuel)%nat -> (n2 < fuel)%nat -> (n3 < fuel)%nat ->
    exists self' emitted,
      init fuel self = Ok 0 self'
      /\ log self' = log self ++ emitted
      /\ bus_view (dc self) emitted = init_frames self n1 n2 n3
      /\ rst self' = true
      /\ cs self' = true
      /\ dc self' = false
      /\ spi_locked self' = false
      /\ busy_reads self' = (busy_reads self + (S n1 + S n2 + S n3))%nat.
Proof.
  intros n1 n2 n3 fuel self Hr H1 H2 H3 F1 F2 F3.
  destruct (init_run n1 n2 n3 fuel self Hr H1 H2 H3 F1 F2 F3)
    as (Hrun & Hrst & Hcs & Hdc & Hl).
  exists (replay (init_events self n1 n2 n3) self),
         (init_events self n1 n2 n3).
  split; [exact Hrun|]. split; [apply log_replay|].
  split; [apply bus_view_init|].
  split; [exact Hrst|]. split; [exact Hcs|]. split; [exact Hdc|].
  split; [exact Hl|].
  now rewrite busy_reads_replay, count_busy_reads_init_events.
Qed.

Lemma init_configures_the_controller_witness :
  exists self' emitted,
    init 1%nat idle_fresh = Ok 0 self'
    /\ log self' = log idle_fresh ++ emitted
    /\ bus_view (dc idle_fresh) emitted = init_frames idle_fresh 0 0 0
    /\ rst self' = true
    /\ cs self' = true
    /\ dc self' = false
    /\ spi_locked self' = false
    /\ busy_reads self' = (busy_reads idle_fresh + (1 + 1 + 1))%nat.
Proof.
  apply (init_configures_the_controller 0 0 0 1 idle_fresh).
  - exact idle_fresh_ready.
  - split; [intros k Hk; lia | reflexivity].
  - split; [intros k Hk; lia | reflexivity].
  - split; [intros k Hk; lia | reflexivity].
  - lia.
  - lia.
  - lia.
Defined.

(** X11.  The constructor, on a bus that never fails and a busy line that
    goes idle at each of the three polls of [init]: it returns, and the
    object it leaves has width 128, height 250, both planes 4000 zero bytes,
    reset and chip-select high and the bus unlocked.  The controller has
    seen the configuration sequence with the window set to the whole panel:
    X bytes 00 and 0F, Y bytes 00 00 and F9 00. *)
Theorem constructor_leaves_a_configured_panel :
  forall (busy : nat -> bool) (fault : nat -> Fault) (rot : Z)
         (n1 n2 n3 fuel : nat),
    (forall k, fault k = NoFault) ->
    first_idle_from busy 0 n1 ->
    first_idle_from busy (S n1) n2 ->
    first_idle_from busy (S n1 + S n2) n3 ->
    (n1 < fuel)%nat -> (n2 < fuel)%nat -> (n3 < fuel)%nat ->
    exists self',
      __init__ busy fault rot fuel = Ok 0 self'
      /\ width self' = 128
      /\ height self' = 250
      /\ framebuffer_black_array self' = repeat x00 (Z.to_nat 4000)
      /\ framebuffer_red_array self' = repeat x00 (Z.to_nat 4000)
      /\ rst self' = true
      /\ cs self' = true
      /\ spi_locked self' = false
      /\ bus_view false (log self') =
           repeat (Command 0x71) (S n1)
           ++ [Command 0x12]
           ++ repeat (Command 0x71) (S n2)
           ++ [Command 0x01; Data 0xf9; Data 0x00; Data 0x00;
               Command 0x11; Data 0x03;
               Command 0x44; Data 0x00; Data 0x0F;
               Command 0x45; Data 0x00; Data 0x00; Data 0xF9; Data 0x00;
               Command 0x4E; Data 0x00;
               Command 0x4F; Data 0x00; Data 0x00;
               Command 0x3C; Data 0x05;
               Command 0x18; Data 0x80;
               Command 0x21; Data 0x80; Data 0x80]
           ++ repeat (Command 0x71) (S n3).
Proof.
  intros busy fault rot n1 n2 n3 fuel Hf H1 H2 H3 F1 F2 F3.
  assert (Hr : bus_ready (fresh busy fault rot)) by (split; [reflexivity|exact Hf]).
  destruct (init_run n1 n2 n3 fuel (fresh busy fault rot) Hr H1 H2 H3 F1 F2 F3)
    as (Hrun & Hrst & Hcs & _ & Hl).
  pose proof (same_setup_replay
                (init_events (fresh busy fault rot) n1 n2 n3)
                (fresh busy fault rot)) as [Hw Hh Hb Hc _ _].
  pose proof (log_replay (init_events (fresh busy fault rot) n1 n2 n3)
                         (fresh busy fault rot)) as Hlog.
  revert Hrun Hrst Hcs Hl Hw Hh Hb Hc Hlog.
  generalize (replay (init_events (fresh busy fault rot) n1 n2 n3)
                     (fresh busy fault rot)) as s'.
  intros s' Hrun Hrst Hcs Hl Hw Hh Hb Hc Hlog.
  exists s'. split; [exact Hrun|].
  split; [rewrite Hw; reflexivity|]. split; [rewrite Hh; reflexivity|].
  split; [rewrite Hb; reflexivity|]. split; [rewrite Hc; reflexivity|].
  split; [exact Hrst|]. split; [exact Hcs|]. split; [exact Hl|].
  rewrite Hlog. change (log (fresh busy fault rot)) with (@nil event).
  cbn [app]. rewrite bus_view_init. reflexivity.
Qed.

Lemma constructor_leaves_a_configured_panel_witness :
  exists self',
    __init__ (busy_only_at 0) no_fault 0 2 = Ok 0 self'
    /\ width self' = 128
    /\ height self' = 250
    /\ framebuffer_black_array self' = repeat x00 (Z.to_nat 4000)
    /\ framebuffer_red_array self' = repeat x00 (Z.to_nat 4000)
    /\ rst self' = true
    /\ cs self' = true
    /\ spi_locked self' = false
    /\ bus_view false (log self') =
         repeat (Command 0x71) 2
         ++ [Command 0x12]
         ++ repeat (Command 0x71) 1
         ++ [Command 0x01; Data 0xf9; Data 0x00; Data 0x00;
             Command 0x11; Data 0x03;
             Command 0x44; Data 0x00; Data 0x0F;
             Command 0x45; Data 0x00; Data 0x00; Data 0xF9; Data 0x00;
             Command 0x4E; Data 0x00;
             Command 0x4F; Data 0x00; Data 0x00;
             Command 0x3C; Data 0x05;
             Command 0x18; Data 0x80;
             Command 0x21; Data 0x80; Data 0x80]
         ++ repeat (Command 0x71) 1.
Proof.
  apply (constructor_leaves_a_configured_panel
           (busy_only_at 0) no_fault 0 1 0 0 2).
  - intro k. reflexivity.
  - apply first_idle_next; reflexivity.
  - apply first_idle_now; reflexivity.
  - apply first_idle_now; reflexivity.
  - lia.
  - lia.
  - lia.
Defined.

(** X12.  [sleep] is undone by [init]: on a working bus, [sleep] leaves the
    reset line low, and a following [init] starts with the reset sequence,
    returns 0 and leaves the reset line high again, having put the whole
    configuration sequence on the bus after the deep-sleep command. *)
Theorem init_after_sleep_wakes_the_panel :
  forall (n1 n2 n3 fuel : nat) (self : EPD_2in13_B_V4),
    bus_ready self ->
    first_idle_at self n1 ->
    first_idle_from (busy_line self) (busy_reads self + S n1) n2 ->
    first_idle_from (busy_line self) (busy_reads self + S n1 + S n2) n3 ->
    (n1 < fuel)%nat -> (n2 < fuel)%nat -> (n3 < fuel)%nat ->
    exists self1 self2,
      sleep fuel self = Ok tt self1
      /\ rst self1 = false
      /\ init fuel self1 = Ok 0 self2
      /\ rst self2 = true
      /\ log self2 = log self ++ sleep_events ++ init_events self n1 n2 n3
      /\ bus_view (dc self) (sleep_events ++ init_events self n1 n2 n3)
         = [Command 0x10; Data 0x01] ++ init_frames self n1 n2 n3.
Proof.
  intros n1 n2 n3 fuel self Hr H1 H2 H3 F1 F2 F3.
  assert (Y1 : yields sleep fuel self tt sleep_events)
    by (apply yields_sleep; [exact Hr | lia]).
  pose proof (yields_ready _ _ _ _ _ Hr Y1) as Hr1.
  assert (E : init_events (replay sleep_events self) n1 n2 n3
              = init_events self n1 n2 n3).
  { unfold init_events. now rewrite width_replay, height_replay. }
  destruct (init_run n1 n2 n3 fuel (replay sleep_events self) Hr1)
    as (Hrun & Hrst & _); try assumption.
  cbv zeta in Hrun, Hrst. rewrite E in Hrun, Hrst.
  exists (replay sleep_events self),
         (replay (init_events self n1 n2 n3) (replay sleep_events self)).
  split; [apply Y1|]. split; [reflexivity|].
  split; [exact Hrun|]. split; [exact Hrst|].
  split; [now rewrite !log_replay, <- app_assoc|].
  unfold sleep_events. rewrite <- !app_assoc.
  rewrite bus_view_command, bus_view_data.
  cbn [app bus_view]. now rewrite bus_view_init.
Qed.

Lemma init_after_sleep_wakes_the_panel_witness :
  exists self1 self2,
    sleep 1%nat idle_fresh = Ok tt self1
    /\ rst self1 = false
    /\ init 1%nat self1 = Ok 0 self2
    /\ rst self2 = true
    /\ log self2
       = log idle_fresh ++ sleep_events ++ init_events idle_fresh 0 0 0
    /\ bus_view (dc idle_fresh) (sleep_events ++ init_events idle_fresh 0 0 0)
       = [Command 0x10; Data 0x01] ++ init_frames idle_fresh 0 0 0.
Proof.
  apply (init_after_sleep_wakes_the_panel 0 0 0 1 idle_fresh).
  - exact idle_fresh_ready.
  - split; [intros k Hk; lia | reflexivity].
  - split; [intros k Hk; lia | reflexivity].
  - split; [intros k Hk; lia | reflexivity].
  - lia.
  - lia.
  - lia.
Defined.

(** ** Rounding the width *)

(** X13.  The width the constructor computes from a declared width [w] is
    the least multiple of 8 that is not below [w], and a plane of
    [height * width // 8] bytes is exactly [height] rows of [width // 8]
    bytes; all of this is integer arithmetic and holds for every [w].  For
    the declared width 122 the width is 128 and the stride
    [int(width / 8)] is 16. *)
Theorem rounded_width_is_least_multiple_of_8 :
  forall w : Z,
    rounded_width w mod 8 = 0
    /\ w <= rounded_width w < w + 8
    /\ (forall m, m mod 8 = 0 -> w <= m -> rounded_width w <= m)
    /\ (forall h, h * rounded_width w / 8 = h * (rounded_width w / 8))
    /\ internal_width = rounded_width EPD_WIDTH
    /\ rounded_width EPD_WIDTH = 128
    /\ Z.quot (rounded_width EPD_WIDTH) 8 = 16.
Proof.
  intro w.
  assert (Hmod : rounded_width w mod 8 = 0).
  { unfold rounded_width. destruct (Z.eqb_spec (w mod 8) 0) as [H|H].
    - exact H.
    - replace (w / 8 * 8 + 8) with ((w / 8 + 1) * 8) by lia.
      apply Z_mod_mult. }
  assert (Hrange : w <= rounded_width w < w + 8).
  { unfold rounded_width. pose proof (Z.div_mod w 8 ltac:(lia)) as Hdm.
    pose proof (Z.mod_pos_bound w 8 ltac:(lia)) as Hb.
    destruct (Z.eqb_spec (w mod 8) 0) as [H|H]; lia. }
  split; [exact Hmod|]. split; [exact Hrange|].
  split; [|split; [|split; [reflexivity|split; reflexivity]]].
  - intros m Hm Hle.
    pose proof (Z.div_mod m 8 ltac:(lia)) as Hdm.
    pose proof (Z.div_mod (rounded_width w) 8 ltac:(lia)) as Hdr.
    rewrite Hm in Hdm. rewrite Hmod in Hdr. lia.
  - intro h.
    pose proof (Z.div_mod (rounded_width w) 8 ltac:(lia)) as Hdr.
    rewrite Hmod in Hdr.
    replace (h * rounded_width w) with ((h * (rounded_width w / 8)) * 8)
      by lia.
    now rewrite Z.div_mul by lia.
Qed.

Lemma rounded_width_is_least_multiple_of_8_witness :
  rounded_width 122 = 128 /\ rounded_width 122 <= 136.
Proof.
  split; [reflexivity|].
  apply (proj1 (proj2 (proj2 (rounded_width_is_least_multiple_of_8 122)))).
  - reflexivity.
  - lia.
Defined.

(** ** Planes that do not have the expected length *)

(** X14.  [display] streams of each plane exactly the first
    [height * int(width / 8)] bytes, in buffer order (row after row, byte
    after byte within a row); on a working bus with planes at least that
    long it returns, and bytes of a plane beyond that length are never
    sent. *)
Theorem display_streams_the_leading_cells_in_order :
  forall (n fuel : nat) (self : EPD_2in13_B_V4),
    bus_ready self ->
    (cells self <= List.length (framebuffer_black_array self))%nat ->
    (cells self <= List.length (framebuffer_red_array self))%nat ->
    first_idle_at self n ->
    (n < fuel)%nat ->
    exists self' emitted,
      display fuel self = Ok tt self'
      /\ log self' = log self ++ emitted
      /\ bus_view (dc self) emitted =
           Command 0x24
           :: map Data (map byte_value
                (firstn (cells self) (framebuffer_black_array self)))
           ++ Command 0x26
           :: map Data (map byte_value
                (firstn (cells self) (framebuffer_red_array self)))
           ++ Command 0x20 :: repeat (Command 0x71) (S n)
      /\ count_frames is_data (bus_view (dc self) emitted)
         = (2 * cells self)%nat.
Proof.
  intros n fuel self Hr Hb Hc Hi Hfuel.
  destruct (yields_display n fuel self Hr Hb Hc Hi Hfuel) as [Hrun _].
  eexists. eexists. split; [exact Hrun|]. split; [apply log_replay|].
  rewrite bus_view_transfer. split; [reflexivity|].
  rewrite count_data_transfer, !length_map, !length_firstn. lia.
Qed.

Lemma display_streams_the_leading_cells_in_order_witness :
  exists self' emitted,
    display 1%nat idle_fresh = Ok tt self'
    /\ log self' = log idle_fresh ++ emitted
    /\ bus_view (dc idle_fresh) emitted =
         Command 0x24
         :: map Data (map byte_value
              (firstn (cells idle_fresh) (framebuffer_black_array idle_fresh)))
         ++ Command 0x26
         :: map Data (map byte_value
              (firstn (cells idle_fresh) (framebuffer_red_array idle_fresh)))
         ++ Command 0x20 :: repeat (Command 0x71) 1
    /\ count_frames is_data (bus_view (dc idle_fresh) emitted)
       = (2 * cells idle_fresh)%nat.
Proof.
  apply (display_streams_the_leading_cells_in_order 0 1 idle_fresh).
  - exact idle_fresh_ready.
  - exact (proj1 idle_fresh_planes_fit).
  - exact (proj2 idle_fresh_planes_fit).
  - split; [intros k Hk; lia | reflexivity].
  - lia.
Defined.

Lemma for_each_app {A} (body : A -> M unit) fuel (xs ys : list A) : forall s,
  for_each (xs ++ ys) body fuel s
  = (for_each xs body ;; for_each ys body) fuel s.
Proof.
  induction xs as [|x xs IH]; intro s; [reflexivity|].
  cbn [app for_each]. unfold bind.
  destruct (body x fuel s) as [[] s1|e s1|]; [|reflexivity..].
  rewrite IH. reflexivity.
Qed.

Lemma for_each_map {A B} (f : A -> B) (body : B -> M unit) fuel (xs : list A) :
  forall s,
    for_each (map f xs) body fuel s = for_each xs (fun x => body (f x)) fuel s.
Proof.
  induction xs as [|x xs IH]; intro s; [reflexivity|].
  cbn [map for_each]. apply bind_cong; [reflexivity|].
  intros _ s' _. apply IH.
Qed.

Lemma for_each_flat {A B} (g : A -> list B) (body : B -> M unit) fuel
      (xs : list A) : forall s,
  for_each xs (fun x => for_each (g x) body) fuel s
  = for_each (flat_map g xs) body fuel s.
Proof.
  induction xs as [|x xs IH]; intro s; [reflexivity|].
  cbn [for_each flat_map]. rewrite for_each_app.
  apply bind_cong; [reflexivity|]. intros _ s' _. apply IH.
Qed.

(** The cells in the order the two loops visit them. *)
Lemma cells_in_order (h st : Z) :
  flat_map (fun j => map (fun i => i + j * st) (range st)) (range h)
  = map Z.of_nat (seq 0 (Z.to_nat h * Z.to_nat st)).
Proof.
  unfold range. rewrite flat_map_of_map.
  set (N := (Z.to_nat h * Z.to_nat st)%nat).
  transitivity (firstn N (skipn (0 * Z.to_nat st) (map Z.of_nat (seq 0 N)))).
  - assert (HN : N = (Z.to_nat h * Z.to_nat st)%nat) by reflexivity.
    clearbody N. rewrite HN at 1.
    rewrite <- (rows_firstn (map Z.of_nat (seq 0 N)) (Z.of_nat 0)
                  (Z.to_nat st) (Z.to_nat h) 0)
      by (rewrite length_map, length_seq; lia).
    apply flat_map_ext_in. intros nj Hj. apply in_seq in Hj.
    rewrite map_map. apply map_ext_in. intros ni Hi. apply in_seq in Hi.
    rewrite (map_nth Z.of_nat), seq_nth by nia.
    rewrite <- (Z2Nat.id st) at 1 by lia. lia.
  - cbn [Nat.mul skipn]. apply firstn_all2.
    rewrite length_map, length_seq. apply Nat.le_refl.
Qed.

Lemma getitem_past_the_end buf idx fuel s :
  Z.of_nat (List.length buf) <= idx ->
  getitem buf idx fuel s = Raise IndexError s.
Proof.
  intro H. unfold getitem.
  destruct (Z.ltb_spec idx 0) as [Hneg|_]; [lia|].
  destruct (Z.ltb_spec idx (Z.of_nat (List.length buf))) as [Hin|_]; [lia|].
  now rewrite andb_false_r.
Qed.

Lemma buffer_by_index (buf : list byte) :
  map (fun k => byte_value (nth (Z.to_nat (Z.of_nat k)) buf x00))
      (seq 0 (List.length buf))
  = map byte_value buf.
Proof.
  transitivity (map byte_value (firstn (List.length buf) (skipn 0 buf))).
  - rewrite <- (row_firstn buf x00 0 (List.length buf)) by lia.
    rewrite map_map. apply map_ext. intro k.
    now rewrite Nat2Z.id, Nat.add_0_r.
  - cbn [skipn]. now rewrite firstn_all.
Qed.

(** The two loops of [display] on a plane that is too short: every byte of
    the plane goes out, then the index is out of range. *)
Lemma short_plane_raises (buf : list byte) (h st : Z) fuel s :
  bus_ready s -> (0 < fuel)%nat ->
  (List.length buf < Z.to_nat h * Z.to_nat st)%nat ->
  for_each (range h) (fun j =>
    for_each (range st) (fun i =>
      b <- getitem buf (i + j * st) ;;
      send_data b)) fuel s
  = Raise IndexError (replay (plane_events (map byte_value buf)) s).
Proof.
  intros Hr Hfuel Hshort.
  rewrite (for_each_cong _
             (fun j => for_each (map (fun i => i + j * st) (range st))
                                (fun k => b <- getitem buf k ;; send_data b)))
    by (intros j s1 _; symmetry; apply for_each_map).
  rewrite for_each_flat, cells_in_order.
  set (L := List.length buf) in *.
  replace (Z.to_nat h * Z.to_nat st)%nat with (L + S (Z.to_nat h * Z.to_nat st - S L))%nat
    by lia.
  rewrite seq_app, map_app. cbn [seq map Nat.add].
  rewrite for_each_app.
  assert (Y : yields (for_each (map Z.of_nat (seq 0 L))
                               (fun k => b <- getitem buf k ;; send_data b))
                     fuel s tt (plane_events (map byte_value buf))).
  { rewrite <- buffer_by_index. fold L.
    rewrite <- (map_map Z.of_nat
                  (fun z => byte_value (nth (Z.to_nat z) buf x00))).
    rewrite <- plane_events_map.
    apply yields_for_each; [|exact Hr].
    intros z s1 Hz Hr1. apply in_map_iff in Hz.
    destruct Hz as (k & <- & Hk). apply in_seq in Hk.
    unfold yields, bind. rewrite getitem_in_bounds by (unfold L in Hk; lia).
    apply yields_send_data;
      [exact Hr1 | apply is_byte_byte_value | exact Hfuel]. }
  rewrite (bind_Ok _ _ _ _ tt _ (proj1 Y)).
  cbn [for_each]. apply bind_Raise. apply bind_Raise.
  apply getitem_past_the_end. unfold L. lia.
Qed.

Lemma bus_view_plane_end bytes : forall d,
  bus_view d (plane_events bytes) = map Data bytes.
Proof.
  induction bytes as [|b bytes IH]; intro d; [reflexivity|].
  unfold plane_events. cbn [flat_map]. fold (plane_events bytes).
  now rewrite bus_view_data, IH.
Qed.

Lemma get_self_run {A} (f : EPD_2in13_B_V4 -> M A) fuel s :
  bind get_self f fuel s = f s fuel s.
Proof. reflexivity. Qed.

Lemma releases_display : releases display.
Proof. unfold display. releases_all. Qed.

(** The plane loops of [display] on the object itself, too short a plane. *)
Lemma short_plane_of_self_raises (plane : EPD_2in13_B_V4 -> list byte)
      fuel s :
  bus_ready s -> (0 < fuel)%nat ->
  (List.length (plane s) < cells s)%nat ->
  (self <- get_self ;;
   for_each (range (height self)) (fun j =>
     for_each (range (byte_stride self)) (fun i =>
       b <- getitem (plane self) (i + j * byte_stride self) ;;
       send_data b))) fuel s
  = Raise IndexError (replay (plane_events (map byte_value (plane s))) s).
Proof.
  intros Hr Hfuel Hshort. rewrite get_self_run.
  now apply short_plane_raises.
Qed.

(** X15.  A plane shorter than [height * int(width / 8)] bytes makes
    [display] raise [IndexError], and only after it has streamed every byte
    the plane has.  With a short black plane the controller has seen 0x24
    and the whole black plane; with a good black plane and a short red one,
    0x24, the black cells, 0x26 and the whole red plane.  In both cases the
    trigger 0x20 is never sent, and the bus is left unlocked. *)
Theorem display_of_a_short_plane_raises_IndexError :
  forall (fuel : nat) (self : EPD_2in13_B_V4),
    bus_ready self ->
    (0 < fuel)%nat ->
    ((List.length (framebuffer_black_array self) < cells self)%nat ->
     exists self',
       display fuel self = Raise IndexError self'
       /\ log self' = log self ++ command_events 0x24
            ++ plane_events (map byte_value (framebuffer_black_array self))
       /\ bus_view (dc self)
            (command_events 0x24
             ++ plane_events (map byte_value (framebuffer_black_array self)))
          = Command 0x24
            :: map Data (map byte_value (framebuffer_black_array self))
       /\ spi_locked self' = false)
    /\ ((cells self <= List.length (framebuffer_black_array self))%nat ->
        (List.length (framebuffer_red_array self) < cells self)%nat ->
        exists self',
          display fuel self = Raise IndexError self'
          /\ log self' = log self ++ command_events 0x24
               ++ plane_events
                    (map byte_value
                         (firstn (cells self) (framebuffer_black_array self)))
               ++ command_events 0x26
               ++ plane_events (map byte_value (framebuffer_red_array self))
          /\ bus_view (dc self)
               (command_events 0x24
                ++ plane_events
                     (map byte_value
                          (firstn (cells self) (framebuffer_black_array self)))
                ++ command_events 0x26
                ++ plane_events (map byte_value (framebuffer_red_array self)))
             = Command 0x24
               :: map Data (map byte_value
                    (firstn (cells self) (framebuffer_black_array self)))
               ++ Command 0x26
               :: map Data (map byte_value (framebuffer_red_array self))
          /\ spi_locked self' = false).
Proof.
  intros fuel self Hr Hfuel.
  assert (Y0 : yields (send_command 0x24) fuel self tt (command_events 0x24))
    by (apply yields_send_command; [exact Hr | reflexivity | exact Hfuel]).
  pose proof (yields_ready _ _ _ _ _ Hr Y0) as Hr1.
  pose proof (same_setup_replay (command_events 0x24) self)
    as [_ _ Sb1 Sc1 _ _].
  pose proof (cells_replay (command_events 0x24) self) as C1.
  assert (Locked : forall s', display fuel self = Raise IndexError s' ->
                              spi_locked s' = false).
  { intros s' H. pose proof (releases_display fuel self (proj1 Hr)) as R.
    now rewrite H in R. }
  split.
  - intro Hshort.
    assert (Run : display fuel self
                  = Raise IndexError
                      (replay (plane_events
                                 (map byte_value (framebuffer_black_array self)))
                              (replay (command_events 0x24) self))).
    { unfold display. rewrite (bind_Ok _ _ _ _ tt _ (proj1 Y0)).
      apply bind_Raise.
      rewrite (short_plane_of_self_raises framebuffer_black_array)
        by (try assumption; rewrite C1, Sb1; exact Hshort).
      now rewrite Sb1. }
    eexists. split; [exact Run|].
    split; [now rewrite !log_replay, <- app_assoc|].
    split; [now rewrite bus_view_command, bus_view_plane_end|].
    apply Locked, Run.
  - intros Hb Hshort.
    assert (Y1 : yields
               (self <- get_self ;;
                for_each (range (height self)) (fun j =>
                  for_each (range (byte_stride self)) (fun i =>
                    b <- getitem (framebuffer_black_array self)
                                 (i + j * byte_stride self) ;;
                    send_data b)))
               fuel (replay (command_events 0x24) self) tt
               (plane_events
                  (map byte_value
                       (firstn (cells self) (framebuffer_black_array self))))).
    { apply (yields_display_plane framebuffer_black_array);
        [exact Hr1 | exact Hfuel | exact C1 | exact Sb1 | exact Hb]. }
    pose proof (yields_ready _ _ _ _ _ Hr1 Y1) as Hr2.
    remember (plane_events
                (map byte_value
                     (firstn (cells self) (framebuffer_black_array self))))
      as black_events eqn:Eb.
    assert (Y2 : yields (send_command 0x26) fuel
                   (replay black_events (replay (command_events 0x24) self))
                   tt (command_events 0x26))
      by (apply yields_send_command; [exact Hr2 | reflexivity | exact Hfuel]).
    pose proof (yields_ready _ _ _ _ _ Hr2 Y2) as Hr3.
    assert (Sc3 : framebuffer_red_array
                    (replay (command_events 0x26)
                       (replay black_events
                          (replay (command_events 0x24) self)))
                  = framebuffer_red_array self).
    { now rewrite !(same_red _ _ (same_setup_replay _ _)). }
    assert (Run : display fuel self
                  = Raise IndexError
                      (replay (plane_events
                                 (map byte_value (framebuffer_red_array self)))
                         (replay (command_events 0x26)
                            (replay black_events
                               (replay (command_events 0x24) self))))).
    { unfold display. rewrite (bind_Ok _ _ _ _ tt _ (proj1 Y0)).
      rewrite (bind_Ok _ _ _ _ tt _ (proj1 Y1)).
      rewrite (bind_Ok _ _ _ _ tt _ (proj1 Y2)).
      apply bind_Raise.
      rewrite (short_plane_of_self_raises framebuffer_red_array)
        by (try assumption; rewrite !cells_replay, Sc3; exact Hshort).
      now rewrite Sc3. }
    eexists. split; [exact Run|].
    split; [now rewrite !log_replay, <- !app_assoc|].
    split; [|apply Locked, Run].
    subst black_events.
    now rewrite bus_view_command, bus_view_plane, bus_view_plane_end.
Qed.

Lemma display_of_a_short_plane_raises_IndexError_witness :
  (exists self',
      display 1%nat short_black_panel = Raise IndexError self'
      /\ log self' = log short_black_panel ++ command_events 0x24
           ++ plane_events
                (map byte_value (framebuffer_black_array short_black_panel))
      /\ bus_view (dc short_black_panel)
           (command_events 0x24
            ++ plane_events
                 (map byte_value (framebuffer_black_array short_black_panel)))
         = Command 0x24
           :: map Data
                (map byte_value (framebuffer_black_array short_black_panel))
      /\ spi_locked self' = false)
  /\ (exists self',
         display 1%nat short_red_panel = Raise IndexError self'
         /\ log self' = log short_red_panel ++ command_events 0x24
              ++ plane_events
                   (map byte_value
                        (firstn (cells short_red_panel)
                                (framebuffer_black_array short_red_panel)))
              ++ command_events 0x26
              ++ plane_events
                   (map byte_value (framebuffer_red_array short_red_panel))
         /\ bus_view (dc short_red_panel)
              (command_events 0x24
               ++ plane_events
                    (map byte_value
                         (firstn (cells short_red_panel)
                                 (framebuffer_black_array short_red_panel)))
               ++ command_events 0x26
               ++ plane_events
                    (map byte_value (framebuffer_red_array short_red_panel)))
            = Command 0x24
              :: map Data (map byte_value
                   (firstn (cells short_red_panel)
                           (framebuffer_black_array short_red_panel)))
              ++ Command 0x26
              :: map Data
                   (map byte_value (framebuffer_red_array short_red_panel))
         /\ spi_locked self' = false).
Proof.
  split.
  - apply (proj1 (display_of_a_short_plane_raises_IndexError
                    1 short_black_panel
                    (conj eq_refl (fun _ => eq_refl)) (Nat.lt_0_succ 0))).
    apply Nat.ltb_lt. vm_compute. reflexivity.
  - apply (proj2 (display_of_a_short_plane_raises_IndexError
                    1 short_red_panel
                    (conj eq_refl (fun _ => eq_refl)) (Nat.lt_0_succ 0))).
    + apply Nat.leb_le. vm_compute. reflexivity.
    + apply Nat.ltb_lt. vm_compute. reflexivity.
Defined.

(** ** Clear and the planes *)

Lemma yields_Clear_then_display b r n1 n2 fuel s :
  bus_ready s -> is_byte b = true -> is_byte r = true ->
  planes_fit s ->
  first_idle_at s n1 ->
  first_idle_from (busy_line s) (busy_reads s + S n1) n2 ->
  (n1 < fuel)%nat -> (n2 < fuel)%nat ->
  exists s1 s2,
    Clear b r fuel s = Ok tt s1
    /\ s1 = replay (transfer_events (repeat b (cells s)) (repeat r (cells s))
                                    n1) s
    /\ display fuel s1 = Ok tt s2
    /\ s2 = replay (operation_events OpDisplay s n2) s1.
Proof.
  intros Hr Hb Hc [Fb Fr] H1 H2 F1 F2.
  pose proof (yields_Clear b r n1 fuel s Hr Hb Hc H1 F1) as Y1.
  pose proof (yields_ready _ _ _ _ _ Hr Y1) as Hr1.
  set (e1 := transfer_events _ _ n1) in *.
  destruct (same_setup_replay e1 s) as [_ _ Sb Sc _ _].
  assert (Y2 : yields display fuel (replay e1 s) tt
                 (operation_events OpDisplay (replay e1 s) n2)).
  { apply (yields_run_operation OpDisplay);
      [ exact Hr1 | exact I
      | split; rewrite cells_replay, ?Sb, ?Sc; assumption
      | apply first_idle_at_replay_from; unfold e1;
        now rewrite count_busy_reads_transfer
      | exact F2 ]. }
  rewrite operation_events_replay in Y2.
  exists (replay e1 s), (replay (operation_events OpDisplay s n2) (replay e1 s)).
  split; [apply Y1|]. split; [reflexivity|].
  split; [apply Y2 | reflexivity].
Qed.

(** X16.  [Clear] fills the controller's RAM, not the driver's planes: a
    [display] that follows a [Clear(b, r)] streams the plane contents as
    they were before the [Clear], not the fill bytes. *)
Theorem display_after_Clear_streams_the_planes :
  forall (colorblack colorred : Z) (n1 n2 fuel : nat) (self : EPD_2in13_B_V4),
    bus_ready self ->
    0 <= colorblack < 256 ->
    0 <= colorred < 256 ->
    planes_fit self ->
    first_idle_at self n1 ->
    first_idle_from (busy_line self) (busy_reads self + S n1) n2 ->
    (n1 < fuel)%nat ->
    (n2 < fuel)%nat ->
    exists self1 self2 emitted,
      Clear colorblack colorred fuel self = Ok tt self1
      /\ framebuffer_black_array self1 = framebuffer_black_array self
      /\ framebuffer_red_array self1 = framebuffer_red_array self
      /\ display fuel self1 = Ok tt self2
      /\ log self2 = log self1 ++ emitted
      /\ bus_view (dc self1) emitted =
           Command 0x24
           :: map Data (map byte_value
                (firstn (cells self) (framebuffer_black_array self)))
           ++ Command 0x26
           :: map Data (map byte_value
                (firstn (cells self) (framebuffer_red_array self)))
           ++ Command 0x20 :: repeat (Command 0x71) (S n2).
Proof.
  intros b r n1 n2 fuel self Hr Hb Hc Hfit H1 H2 F1 F2.
  apply is_byte_spec in Hb. apply is_byte_spec in Hc.
  destruct (yields_Clear_then_display b r n1 n2 fuel self
              Hr Hb Hc Hfit H1 H2 F1 F2)
    as (s1 & s2 & R1 & E1 & R2 & E2).
  exists s1, s2. eexists.
  split; [exact R1|].
  split; [rewrite E1; apply (same_black _ _ (same_setup_replay _ _))|].
  split; [rewrite E1; apply (same_red _ _ (same_setup_replay _ _))|].
  split; [exact R2|].
  split; [rewrite E2; apply log_replay|].
  cbn [operation_events]. apply bus_view_transfer.
Qed.

Lemma display_after_Clear_streams_the_planes_witness :
  exists self1 self2 emitted,
    Clear 0xFF 0xFF 1%nat uniform_panel = Ok tt self1
    /\ framebuffer_black_array self1 = framebuffer_black_array uniform_panel
    /\ framebuffer_red_array self1 = framebuffer_red_array uniform_panel
    /\ display 1%nat self1 = Ok tt self2
    /\ log self2 = log self1 ++ emitted
    /\ bus_view (dc self1) emitted =
         Command 0x24
         :: map Data (map byte_value
              (firstn (cells uniform_panel)
                      (framebuffer_black_array uniform_panel)))
         ++ Command 0x26
         :: map Data (map byte_value
              (firstn (cells uniform_panel)
                      (framebuffer_red_array uniform_panel)))
         ++ Command 0x20 :: repeat (Command 0x71) 1.
Proof.
  apply (display_after_Clear_streams_the_planes 0xFF 0xFF 0 0 1 uniform_panel).
  - split; [reflexivity | intro k; reflexivity].
  - lia.
  - lia.
  - split; apply Nat.leb_le; vm_compute; reflexivity.
  - split; [intros k Hk; lia | reflexivity].
  - split; [intros k Hk; lia | reflexivity].
  - lia.
  - lia.
Defined.

(** ** Operations do not look at what sleep changes *)

Lemma alike_apply_event e s t :
  alike s t -> alike (apply_event e s) (apply_event e t).
Proof.
  intros [Hl Hw Hh Hb Hr Hbl Hbr Hfs Hft].
  destruct e; constructor; cbn; try assumption; try reflexivity;
    now f_equal.
Qed.

Lemma alike_replay evs : forall s t,
  alike s t -> alike (replay evs s) (replay evs t).
Proof.
  induction evs as [|e evs IH]; intros s t H; [exact H|].
  cbn [replay fold_left]. apply IH. now apply alike_apply_event.
Qed.

Lemma mirrored_Ok {A} (a : A) evs s t :
  mirrored (Ok a (replay evs s)) (Ok a (replay evs t)) s t.
Proof. split; [reflexivity|]. now exists evs. Qed.

Lemma mirrored_Raise {A} e evs s t :
  mirrored (@Raise A e (replay evs s)) (Raise e (replay evs t)) s t.
Proof. split; [reflexivity|]. now exists evs. Qed.

Lemma mirrored_then {A} (r1 r2 : result A) evs s t :
  mirrored r1 r2 (replay evs s) (replay evs t) -> mirrored r1 r2 s t.
Proof.
  destruct r1 as [a s'|e s'|], r2 as [b t'|e' t'|]; cbn [mirrored];
    try (intro H; exact H);
    intros (Hv & evs' & -> & ->); (split; [exact Hv|]);
    exists (evs ++ evs'); now rewrite !replay_app.
Qed.

Lemma mirrors_ext {A} (m1 m2 : M A) :
  (forall fuel s, m1 fuel s = m2 fuel s) -> mirrors m2 -> mirrors m1.
Proof. intros E H fuel s t Hst. rewrite !E. now apply H. Qed.

Lemma mirrors_ret {A} (a : A) : mirrors (ret a).
Proof. intros fuel s t _. apply (mirrored_Ok a []). Qed.

Lemma mirrors_bind {A B} (m : M A) (f : A -> M B) :
  mirrors m -> (forall a, mirrors (f a)) -> mirrors (bind m f).
Proof.
  intros Hm Hf fuel s t Hst. unfold bind. specialize (Hm fuel s t Hst).
  destruct (m fuel s) as [a s1|e s1|], (m fuel t) as [b t1|e' t1|];
    cbn [mirrored] in Hm; try contradiction; try exact Hm.
  destruct Hm as (-> & evs & -> & ->).
  apply mirrored_then with evs. apply Hf. now apply alike_replay.
Qed.

Lemma mirrors_for_each {A} (xs : list A) (body : A -> M unit) :
  (forall x, mirrors (body x)) -> mirrors (for_each xs body).
Proof.
  intro Hb. induction xs as [|x xs IH]; cbn [for_each].
  - apply mirrors_ret.
  - apply mirrors_bind; [apply Hb | intros _; exact IH].
Qed.

Lemma while_loop_as_bind k cond body fuel s :
  while_loop (S k) cond body fuel s
  = (b <- cond ;;
     if b : bool then body ;; while_loop k cond body else ret tt) fuel s.
Proof.
  rewrite while_loop_S. unfold bind.
  destruct (cond fuel s) as [[|] s1|e s1|]; reflexivity.
Qed.

Lemma mirrors_while_loop cond body :
  mirrors cond -> mirrors body -> forall k, mirrors (while_loop k cond body).
Proof.
  intros Hc Hb k. induction k as [|k IH].
  - intros fuel s t _. exact I.
  - apply (mirrors_ext _ _ (while_loop_as_bind k cond body)).
    apply mirrors_bind; [exact Hc|]. intros [|]; [|apply mirrors_ret].
    apply mirrors_bind; [exact Hb | intros _; exact IH].
Qed.

Lemma mirrors_while cond body :
  mirrors cond -> mirrors body -> mirrors (while cond body).
Proof.
  intros Hc Hb fuel s t Hst. unfold while.
  now apply (mirrors_while_loop cond body Hc Hb fuel).
Qed.

Lemma mirrors_get_self {A} (f : EPD_2in13_B_V4 -> M A) :
  (forall s0, mirrors (f s0)) ->
  (forall s t, alike s t -> forall fuel u, f s fuel u = f t fuel u) ->
  mirrors (bind get_self f).
Proof.
  intros Hm Hext fuel s t Hst. rewrite !get_self_run.
  rewrite (Hext s t Hst fuel s). now apply Hm.
Qed.

(** The primitives. *)

Lemma mirrors_print msg : mirrors (print msg).
Proof. intros fuel s t _. apply (mirrored_Ok tt [EvPrint msg]). Qed.

Lemma mirrors_delay_ms d : mirrors (delay_ms d).
Proof. intros fuel s t _. apply (mirrored_Ok tt [EvDelay d]). Qed.

Lemma mirrors_digital_write pin v : mirrors (digital_write pin v).
Proof.
  intros fuel s t _. unfold digital_write.
  destruct pin;
    first [ apply (mirrored_Raise AttributeError [])
          | apply (mirrored_Ok tt [EvPin _ v]) ].
Qed.

Lemma mirrors_read_busy : mirrors (digital_read BUSY_PIN).
Proof.
  intros fuel s t Hst. rewrite !digital_read_busy.
  rewrite (alike_busy_line _ _ Hst), (alike_busy_reads _ _ Hst).
  apply (mirrored_Ok _ [EvBusy _]).
Qed.

Lemma mirrors_getitem buf idx : mirrors (getitem buf idx).
Proof.
  intros fuel s t _. unfold getitem.
  destruct (_ && _); [|apply (mirrored_Raise IndexError [])].
  destruct (nth_error _ _);
    [apply (mirrored_Ok _ []) | apply (mirrored_Raise IndexError [])].
Qed.

Lemma mirrors_spi_writebyte data : mirrors (spi_writebyte data).
Proof.
  intros fuel s t Hst. rewrite !spi_writebyte_cases.
  destruct fuel as [|fuel]; [exact I|].
  rewrite (alike_locked _ _ Hst).
  destruct (spi_locked t); [exact I|].
  rewrite (alike_fault_l _ _ Hst), (alike_fault_r _ _ Hst).
  destruct (forallb is_byte data);
    [apply mirrored_Ok | apply mirrored_Raise].
Qed.

Ltac mirrors_step :=
  repeat lazymatch goal with
         | |- mirrors (bind get_self _) => fail
         | |- mirrors (bind _ _) => apply mirrors_bind; [|intro]
         | |- mirrors (for_each _ _) => apply mirrors_for_each; intro
         | |- mirrors (while _ _) => apply mirrors_while
         | |- mirrors (ret _) => apply mirrors_ret
         | |- mirrors (print _) => apply mirrors_print
         | |- mirrors (delay_ms _) => apply mirrors_delay_ms
         | |- mirrors (digital_write _ _) => apply mirrors_digital_write
         | |- mirrors (digital_read BUSY_PIN) => apply mirrors_read_busy
         | |- mirrors (getitem _ _) => apply mirrors_getitem
         | |- mirrors (spi_writebyte _) => apply mirrors_spi_writebyte
         | |- mirrors _ => assumption
         end.

Lemma mirrors_send_command c : mirrors (send_command c).
Proof. unfold send_command. mirrors_step. Qed.

Lemma mirrors_send_data d : mirrors (send_data d).
Proof. unfold send_data. mirrors_step. Qed.

Ltac mirrors_all :=
  repeat lazymatch goal with
         | |- mirrors (send_command _) => apply mirrors_send_command
         | |- mirrors (send_data _) => apply mirrors_send_data
         | |- mirrors (bind get_self _) => fail
         | |- mirrors _ => progress mirrors_step
         end.

Lemma mirrors_ReadBusy : mirrors ReadBusy.
Proof. unfold ReadBusy. mirrors_all. Qed.

Lemma mirrors_TurnOnDisplay : mirrors TurnOnDisplay.
Proof. pose proof mirrors_ReadBusy. unfold TurnOnDisplay. mirrors_all. Qed.

Lemma mirrors_SetWindows xs ys xe ye : mirrors (SetWindows xs ys xe ye).
Proof. unfold SetWindows. mirrors_all. Qed.

Lemma mirrors_SetCursor x y : mirrors (SetCursor x y).
Proof. unfold SetCursor. mirrors_all. Qed.

Lemma mirrors_fill b :
  mirrors (self <- get_self ;;
           for_each (range (height self)) (fun j =>
             for_each (range (byte_stride self)) (fun i => send_data b))).
Proof.
  apply mirrors_get_self.
  - intro s0. mirrors_all.
  - intros s t Hst fuel u. unfold byte_stride.
    now rewrite (alike_width _ _ Hst), (alike_height _ _ Hst).
Qed.

Lemma mirrors_plane (plane : EPD_2in13_B_V4 -> list byte) :
  (forall s t, alike s t -> plane s = plane t) ->
  mirrors (self <- get_self ;;
           for_each (range (height self)) (fun j =>
             for_each (range (byte_stride self)) (fun i =>
               b <- getitem (plane self) (i + j * byte_stride self) ;;
               send_data b))).
Proof.
  intro Hp. apply mirrors_get_self.
  - intro s0. mirrors_all.
  - intros s t Hst fuel u. unfold byte_stride.
    now rewrite (alike_width _ _ Hst), (alike_height _ _ Hst), (Hp s t Hst).
Qed.

Lemma mirrors_Clear b r : mirrors (Clear b r).
Proof.
  pose proof mirrors_TurnOnDisplay. unfold Clear.
  apply mirrors_bind; [apply mirrors_send_command | intro].
  apply mirrors_bind; [apply mirrors_fill | intro].
  apply mirrors_bind; [apply mirrors_send_command | intro].
  apply mirrors_bind; [apply mirrors_fill | intro].
  assumption.
Qed.

Lemma mirrors_display : mirrors display.
Proof.
  pose proof mirrors_TurnOnDisplay. unfold display.
  apply mirrors_bind; [apply mirrors_send_command | intro].
  apply mirrors_bind;
    [apply (mirrors_plane framebuffer_black_array);
     intros s t Hst; apply (alike_black _ _ Hst) | intro].
  apply mirrors_bind; [apply mirrors_send_command | intro].
  apply mirrors_bind;
    [apply (mirrors_plane framebuffer_red_array);
     intros s t Hst; apply (alike_red _ _ Hst) | intro].
  assumption.
Qed.

Lemma mirrors_run_operation op : mirrors (run_operation op).
Proof.
  destruct op; cbn [run_operation];
    [ apply mirrors_display | apply mirrors_Clear | apply mirrors_SetWindows
    | apply mirrors_SetCursor | apply mirrors_TurnOnDisplay ].
Qed.

(** [sleep] changes nothing an operation looks at. *)
Lemma alike_after_sleep s :
  bus_ready s -> alike s (replay sleep_events s).
Proof.
  intros [Hl Hf].
  destruct (same_setup_replay sleep_events s) as [Hw Hh Hb Hc Hbl Hbf].
  constructor.
  - rewrite Hl. reflexivity.
  - now symmetry.
  - now symmetry.
  - now symmetry.
  - now symmetry.
  - now symmetry.
  - reflexivity.
  - exact Hf.
  - intro k. rewrite Hbf. apply Hf.
Qed.

(** C6, as the code has it.  The driver keeps no state and has no gate.  On
    a bus that is free and never fails, [sleep] returns with the reset line
    low, and each of [display], [Clear], [SetWindows], [SetCursor] and
    [TurnOnDisplay], called after it without a new [init], ends exactly as
    it ends when no [sleep] came before: it returns, or raises the same
    exception, or stays in its busy poll, in the same cases and after the
    same events; it is never rejected for the missing [init], and the reset
    line stays low.  In particular, when the busy line goes idle after [n]
    asserted reads, the planes have their full length and the fill values
    are bytes, the operation after [sleep] runs to the end. *)
Theorem operations_run_after_sleep :
  forall (op : operation) (fuel : nat) (self : EPD_2in13_B_V4),
    bus_ready self ->
    (0 < fuel)%nat ->
    exists self1,
      sleep fuel self = Ok tt self1
      /\ log self1 = log self ++ sleep_events
      /\ rst self1 = false
      /\ match run_operation op fuel self, run_operation op fuel self1 with
         | Ok _ without, Ok _ after =>
             exists emitted,
               log without = log self ++ emitted
               /\ log after = log self1 ++ emitted
               /\ rst after = false
         | Raise e without, Raise e' after =>
             e = e'
             /\ exists emitted,
                 log without = log self ++ emitted
                 /\ log after = log self1 ++ emitted
                 /\ rst after = false
         | Diverge, Diverge => True
         | _, _ => False
         end
      /\ (forall n : nat,
             bytes_ok op ->
             planes_fit self ->
             first_idle_at self n ->
             (n < fuel)%nat ->
             exists self2,
               run_operation op fuel self1 = Ok tt self2
               /\ log self2 = log self1 ++ operation_events op self n
               /\ rst self2 = false).
Proof.
  intros op fuel self Hr Hfuel.
  destruct (yields_sleep fuel self Hr Hfuel) as [Hsleep _].
  pose proof (log_replay sleep_events self) as Hlog.
  assert (Hrst : rst (replay sleep_events self) = false) by reflexivity.
  pose proof (alike_after_sleep self Hr) as Halike.
  assert (Hrun : forall n : nat,
             bytes_ok op -> planes_fit self -> first_idle_at self n ->
             (n < fuel)%nat ->
             exists self2,
               run_operation op fuel (replay sleep_events self) = Ok tt self2
               /\ log self2 = log (replay sleep_events self)
                              ++ operation_events op self n
               /\ rst self2 = false).
  { intros n Hop Hfit Hi Hn.
    destruct (yields_sleep_then op n fuel self Hr Hop Hfit Hi Hn)
      as (s1 & s2 & _ & E1 & R2 & E2 & _ & L2).
    subst s1. exists s2. split; [exact R2|]. split; [|exact L2].
    rewrite E2. apply log_replay. }
  revert Hsleep Hlog Hrst Halike Hrun.
  generalize (replay sleep_events self) as s1.
  intros s1 Hsleep Hlog Hrst Halike Hrun.
  exists s1. split; [exact Hsleep|]. split; [exact Hlog|].
  split; [exact Hrst|]. split; [|exact Hrun].
  pose proof (mirrors_run_operation op fuel self s1 Halike) as Hm.
  pose proof (traced_run_operation op fuel s1) as T.
  destruct (run_operation op fuel self) as [a s'|e s'|],
           (run_operation op fuel s1) as [b t'|e' t'|];
    cbn [mirrored] in Hm; try contradiction; try exact I.
  - destruct Hm as (_ & evs & Ea & Eb). destruct T as (evs' & Eb' & Hevs').
    exists evs. split; [rewrite Ea; apply log_replay|].
    split; [rewrite Eb; apply log_replay|].
    rewrite Eb', rst_replay_leaves by exact Hevs'. exact Hrst.
  - destruct Hm as (He & evs & Ea & Eb). destruct T as (evs' & Eb' & Hevs').
    split; [exact He|].
    exists evs. split; [rewrite Ea; apply log_replay|].
    split; [rewrite Eb; apply log_replay|].
    rewrite Eb', rst_replay_leaves by exact Hevs'. exact Hrst.
Qed.

Lemma operations_run_after_sleep_witness :
  exists self1 self2,
    sleep 1%nat idle_fresh = Ok tt self1
    /\ log self1 = log idle_fresh ++ sleep_events
    /\ rst self1 = false
    /\ run_operation OpDisplay 1%nat self1 = Ok tt self2
    /\ log self2 = log self1 ++ operation_events OpDisplay idle_fresh 0
    /\ rst self2 = false.
Proof.
  destruct (operations_run_after_sleep OpDisplay 1 idle_fresh
              idle_fresh_ready (Nat.lt_0_succ 0))
    as (s1 & Hsleep & Hlog & Hrst & _ & Hrun).
  destruct (Hrun 0%nat I idle_fresh_planes_fit
              (conj (fun k (Hk : (k < 0)%nat) =>
                       match Nat.nlt_0_r k Hk with end)
                    eq_refl)
              (Nat.lt_0_succ 0))
    as (s2 & R2 & L2 & Hrst2).
  exists s1, s2.
  split; [exact Hsleep|]. split; [exact Hlog|]. split; [exact Hrst|].
  split; [exact R2|]. split; [exact L2 | exact Hrst2].
Defined.
